(** * Air-quality fusion and forecast pipeline: a shallow embedding

    The Python sources embedded here are
      - [server/utils/aqi_calculator.py]    ([calculate_aqi], [get_health_advice])
      - [server/services/cache_service.py]  ([CacheService])
      - [server/services/ml_service.py]     ([MLService])
      - [server/services/openaq_service.py] ([OpenAQService])
      - [server/services/weather_service.py] ([WeatherService])
      - [server/services/tempo_service.py]  ([TempoService])
      - [server/api/airquality.py]          ([get_air_quality], [get_aqi_category])
      - [server/utils/geo_utils.py]         ([format_location_name])

    Conventions.  A Python [float] is modelled by a rational [Q], a Python
    [int] by [Z], a [dict] with string keys by [gmap string _], and a
    [dict] with a fixed set of optional keys by a record of [option]s.
    Arithmetic on floats is exact arithmetic on rationals, so the rounding
    error of binary64 is not represented, with one exception: the score of the
    heuristic forecast ([_simple_forecast]) is computed with the rounding of
    binary64 ([F64]), because the statement about it is an equation on the
    truncated score, which an error in the last place can change by one.
    Reads of the wall clock and draws of the random
    generator are inputs of the functions that perform them.  A loop over
    [d.items()] is a [map_fold], which visits the keys in the order of the map
    and not in the order of insertion; no loop embedded here depends on that
    order. *)

From Stdlib Require Import ZArith QArith Qround Qminmax Qabs Qpower Lqa Lia String List Sorted.
From Stdlib Require Floats.
From stdpp Require Import gmap strings list fin_maps pretty.

Local Open Scope string_scope.
Local Open Scope Z_scope.

(** ** Python numerics *)

Module Py.

Definition leb (x y : Q) : bool := Qle_bool x y.
Definition ltb (x y : Q) : bool := negb (Qle_bool y x).

(** [int(x)] on a float: truncation toward zero. *)
Definition int (x : Q) : Z := if leb 0 x then Qfloor x else Qceiling x.

(** [round(x)] on a float: nearest integer, ties to the even one. *)
Definition round (x : Q) : Z :=
  let f := Qfloor x in
  match Qcompare (x - inject_Z f) (1 # 2) with
  | Lt => f
  | Gt => f + 1
  | Eq => if Z.even f then f else f + 1
  end.

(** Exceptions that the embedded code can raise. *)
Inductive exn : Type :=
| KeyError
| TypeError
| ValueError
| ValidationError
| HTTPException (status : Z).

Inductive result (A : Type) : Type :=
| Ok (a : A)
| Raise (e : exn).
Global Arguments Ok {A} a.
Global Arguments Raise {A} e.

Definition bind {A B} (r : result A) (k : A → result B) : result B :=
  match r with
  | Ok a => k a
  | Raise e => Raise e
  end.

(** [try: body except Exception: handler] *)
Definition try_except {A} (body : result A) (handler : exn → result A) : result A :=
  match body with
  | Ok a => Ok a
  | Raise e => handler e
  end.

End Py.

Global Instance result_bind : MBind Py.result := λ A B k r, Py.bind r k.
Global Instance result_ret : MRet Py.result := @Py.Ok.

(** ** Binary64 arithmetic *)

(** The finite values of IEEE 754 binary64, as rationals: an operation
    rounds its exact result to the nearest binary64 value, ties to the even
    significand.  A result beyond the binary64 range (an infinity) is not
    represented: the theorems about values computed here bound their inputs. *)
Module F64.

(** [floor(log2 |x|)] for [x] other than 0. *)
Definition ilog2 (x : Q) : Z :=
  let k := Z.log2 (Z.abs (Qnum x)) - Z.log2 (Zpos (Qden x)) in
  if Qle_bool (2 ^ k) (Qabs x) then k else k - 1.

(** The binary exponent of the unit in the last place around [x]: 52 bits
    below the leading bit, and never below that of the subnormal numbers. *)
Definition ulp_exponent (x : Q) : Z := Z.max (ilog2 x) (-1022) - 52.

(** The binary64 value nearest to [x], ties to the even significand. *)
Definition round64 (x : Q) : Q :=
  let x := Qred x in
  if Qeq_bool x 0 then 0%Q
  else
    let ulp := (2 ^ ulp_exponent x)%Q in
    (inject_Z (Py.round (x / ulp)) * ulp)%Q.

(** [x + y], [x - y] and [x * y] on floats. *)
Definition add (x y : Q) : Q := round64 (x + y).
Definition sub (x y : Q) : Q := round64 (x - y).
Definition mul (x y : Q) : Q := round64 (x * y).

(** [min(a, x)] and [max(a, x)] of the builtins: the first argument unless
    the second is smaller (greater). *)
Definition min (a x : Q) : Q := if Py.ltb x a then x else a.
Definition max (a x : Q) : Q := if Py.ltb a x then x else a.

End F64.

(** ** The binary64 arithmetic of the machine *)

(** Rocq's primitive floats are the binary64 values of the processor.  They
    serve here to compare the rounding of [F64] with the machine's on
    examples. *)
Module Machine.

(** The rational that a finite primitive float stands for. *)
Definition value (f : PrimFloat.float) : option Q :=
  match FloatOps.Prim2SF f with
  | SpecFloat.S754_zero _ => Some 0%Q
  | SpecFloat.S754_finite s m e =>
      Some (Qred ((if s then -1 else 1) * inject_Z (Z.pos m) * 2 ^ e))%Q
  | _ => None
  end.

(** The float [n / d] for two integers below [2 ^ 53]: the binary64 value
    nearest to the quotient, as a decimal literal of Python denotes. *)
Definition ratio (n d : Z) : PrimFloat.float :=
  PrimFloat.div (PrimFloat.of_uint63 (Uint63.of_Z n)) (PrimFloat.of_uint63 (Uint63.of_Z d)).

Definition min (a x : PrimFloat.float) : PrimFloat.float :=
  if PrimFloat.ltb x a then x else a.
Definition max (a x : PrimFloat.float) : PrimFloat.float :=
  if PrimFloat.ltb a x then x else a.

(** Lines 150-156 and 176 of [ml_service.py] on primitive floats, with the
    noise at zero. *)
Definition predicted_aqi (wind_speed precipitation temperature time_effect : PrimFloat.float)
  : PrimFloat.float :=
  let base_aqi := ratio 65 1 in
  let wind_effect := PrimFloat.opp (min (ratio 20 1) (PrimFloat.mul wind_speed (ratio 3 1))) in
  let rain_effect :=
    PrimFloat.opp (min (ratio 15 1) (PrimFloat.mul precipitation (ratio 5 1))) in
  let temp_effect :=
    max (ratio 0 1) (PrimFloat.mul (PrimFloat.sub temperature (ratio 25 1)) (ratio 1 2)) in
  PrimFloat.add
    (PrimFloat.add
       (PrimFloat.add (PrimFloat.add (PrimFloat.add base_aqi wind_effect) rain_effect)
          temp_effect)
       time_effect)
    (ratio 0 1).

End Machine.

(** ** [aqi_calculator.py]: [calculate_aqi] *)

Module AQI.

(** One breakpoint tuple [(bp_low, bp_high, aqi_low, aqi_high)]. *)
Record Segment := mkSeg {
  bp_low : Q;
  bp_high : Q;
  aqi_low : Z;
  aqi_high : Z
}.

Definition pm25_table : list Segment :=
  [ mkSeg 0 12 0 50;
    mkSeg 12.1 35.4 51 100;
    mkSeg 35.5 55.4 101 150;
    mkSeg 55.5 150.4 151 200;
    mkSeg 150.5 250.4 201 300;
    mkSeg 250.5 500.4 301 500 ].

Definition pm10_table : list Segment :=
  [ mkSeg 0 54 0 50;
    mkSeg 55 154 51 100;
    mkSeg 155 254 101 150;
    mkSeg 255 354 151 200;
    mkSeg 355 424 201 300;
    mkSeg 425 604 301 500 ].

Definition o3_table : list Segment :=
  [ mkSeg 0 54 0 50;
    mkSeg 55 70 51 100;
    mkSeg 71 85 101 150;
    mkSeg 86 105 151 200;
    mkSeg 106 200 201 300 ].

Definition no2_table : list Segment :=
  [ mkSeg 0 53 0 50;
    mkSeg 54 100 51 100;
    mkSeg 101 360 101 150;
    mkSeg 361 649 151 200;
    mkSeg 650 1249 201 300;
    mkSeg 1250 2049 301 500 ].

Definition so2_table : list Segment :=
  [ mkSeg 0 35 0 50;
    mkSeg 36 75 51 100;
    mkSeg 76 185 101 150;
    mkSeg 186 304 151 200;
    mkSeg 305 604 201 300;
    mkSeg 605 1004 301 500 ].

Definition co_table : list Segment :=
  [ mkSeg 0 4.4 0 50;
    mkSeg 4.5 9.4 51 100;
    mkSeg 9.5 12.4 101 150;
    mkSeg 12.5 15.4 151 200;
    mkSeg 15.5 30.4 201 300;
    mkSeg 30.5 50.4 301 500 ].

Definition breakpoints_items : list (string * list Segment) :=
  [ ("pm25", pm25_table); ("pm10", pm10_table); ("o3", o3_table);
    ("no2", no2_table); ("so2", so2_table); ("co", co_table) ].

(** The dict literal [breakpoints]. *)
Definition breakpoints : gmap string (list Segment) :=
  list_to_map breakpoints_items.

(** An entry of the pollutant dict: [{"value": .., "unit": .., "source": [..]}].
    [value] is what [data.get("value")] returns. *)
Record PollutantDict := mkPollutant {
  value : option Q;
  unit : string;
  source : list string
}.

Definition in_segment (s : Segment) (c : Q) : bool :=
  Py.leb (bp_low s) c && Py.leb c (bp_high s).

(** Line 77: the linear interpolation. *)
Definition interpolate (s : Segment) (c : Q) : Q :=
  ((inject_Z (aqi_high s - aqi_low s) / (bp_high s - bp_low s))
     * (c - bp_low s) + inject_Z (aqi_low s))%Q.

(** Lines 74-79: the [for] loop over the table; [Some a] when it leaves by
    [break] with [a = int(round(aqi))], [None] when it runs to its end. *)
Fixpoint find_breakpoint (tbl : list Segment) (c : Q) : option Z :=
  match tbl with
  | [] => None
  | s :: rest =>
      if in_segment s c then Some (Py.round (interpolate s c))
      else find_breakpoint rest c
  end.

(** [breakpoints[pollutant][-1][1]] *)
Definition last_high (tbl : list Segment) : Q :=
  bp_high (List.last tbl (mkSeg 0 0 0 0)).

(** Lines 74-83: the value, if any, that [max_aqi] is maximised with for one
    pollutant: the interpolated index on [break], [500] in the [else] branch
    of the loop when the concentration exceeds the last upper bound. *)
Definition sub_index (tbl : list Segment) (c : Q) : option Z :=
  match find_breakpoint tbl c with
  | Some a => Some a
  | None => if Py.ltb (last_high tbl) c then Some 500 else None
  end.

(** Lines 66-83: the body of the loop over [pollutants.items()]. *)
Definition loop_body (pollutant : string) (data : PollutantDict) (max_aqi : Z) : Z :=
  match breakpoints !! pollutant with
  | None => max_aqi
  | Some tbl =>
      match value data with
      | None => max_aqi
      | Some concentration =>
          match sub_index tbl concentration with
          | Some a => Z.max max_aqi a
          | None => max_aqi
          end
      end
  end.

Definition calculate_aqi (pollutants : gmap string PollutantDict) : Z :=
  if bool_decide (size pollutants = 0%nat) then 50
  else
    let max_aqi := map_fold loop_body 0 pollutants in
    if 0 <? max_aqi then Z.max max_aqi 50 else 50.

(** The sub-index of one entry of the pollutant dict: defined when the
    pollutant has a breakpoint table, carries a value, and the value falls in
    a segment or above the table. *)
Definition pollutant_sub_index (pollutant : string) (data : PollutantDict) : option Z :=
  match breakpoints !! pollutant, value data with
  | Some tbl, Some concentration => sub_index tbl concentration
  | _, _ => None
  end.


(** A segment with a positive width and indices in order. *)
Definition segment_ok (s : Segment) : Prop :=
  (bp_low s < bp_high s)%Q ∧ aqi_low s ≤ aqi_high s.

(** A table whose segments have positive width, follow each other without
    overlap, carry increasing indices and stay below 500. *)
Fixpoint table_ordered (tbl : list Segment) : Prop :=
  match tbl with
  | [] => True
  | s :: rest =>
      segment_ok s ∧ aqi_high s ≤ 500
      ∧ Forall (λ s', (bp_high s < bp_low s')%Q ∧ aqi_high s ≤ aqi_low s') rest
      ∧ table_ordered rest
  end.




(** The dict with the single entry [{pollutant: {"value": c, ..}}]. *)
Definition single (pollutant : string) (c : Q) : gmap string PollutantDict :=
  {[ pollutant := mkPollutant (Some c) "µg/m³" ["OpenAQ"] ]}.

End AQI.

(** ** The dicts exchanged between the services *)

(** The weather dict returned by [WeatherService.get_weather_data]: either
    [{}] or a dict with the five keys below.  A field is [None] when the key
    is absent. *)
Module WeatherDict.

Record t := mk {
  precip_mm : option Q;
  wind_speed_ms : option Q;
  temp_c : option Q;
  humidity : option Z;
  source : option (list string)
}.

Definition empty : t := mk None None None None None.

(** Truth value of the dict: [bool(d)] is [len(d) != 0]. *)
Definition truthy (d : t) : bool :=
  match d with
  | mk None None None None None => false
  | _ => true
  end.

(** [d.get(key, default)] *)
Definition get {A} (field : t → option A) (default : A) (d : t) : A :=
  match field d with
  | Some x => x
  | None => default
  end.

End WeatherDict.

(** ** [aqi_calculator.py]: [get_health_advice] *)

Module Advice.

(** The returned dict [{"general": .., "profiles": {..}}]. *)
Record AdviceDict := mkAdvice {
  general : string;
  profiles : gmap string string
}.

Definition mk_profiles (children asthma elderly athletes : string) : gmap string string :=
  <["athletes" := athletes]>
    (<["elderly" := elderly]> (<["asthma" := asthma]> (<["children" := children]> ∅))).

Definition wind_note : string := " Strong winds may help disperse pollutants.".
Definition rain_note : string := " Rain is helping to clear the air.".

(** Lines 95-142: the text selected by the [if]/[elif] chain on [aqi]. *)
Definition base_advice (aqi : Z) : AdviceDict :=
  if aqi <=? 50 then
    mkAdvice "Air quality is good. Perfect day for outdoor activities."
      (mk_profiles
         "Great day for outdoor play and sports."
         "Normal outdoor activities are fine."
         "Enjoy outdoor activities as usual."
         "Excellent conditions for training and competition.")
  else if aqi <=? 100 then
    mkAdvice "Air quality is moderate. Sensitive individuals may experience minor symptoms."
      (mk_profiles
         "Outdoor activities are generally safe, but watch for any symptoms."
         "Consider carrying your rescue inhaler during outdoor activities."
         "Take breaks during prolonged outdoor activities."
         "You may experience slight decrease in performance during intense workouts.")
  else if aqi <=? 150 then
    mkAdvice "Sensitive groups should limit prolonged outdoor exertion."
      (mk_profiles
         "Limit intense outdoor activities. Choose indoor alternatives when possible."
         "Avoid prolonged outdoor exertion. Have your inhaler readily available."
         "Reduce time spent outdoors, especially during midday hours."
         "Consider indoor training. If outdoors, reduce intensity and duration.")
  else if aqi <=? 200 then
    mkAdvice "Everyone should limit prolonged outdoor exertion."
      (mk_profiles
         "Avoid outdoor activities. Choose indoor play and exercise."
         "Stay indoors as much as possible. Have emergency medications available."
         "Minimize outdoor exposure. Consider staying indoors with air filtration."
         "Move workouts indoors. Avoid outdoor training.")
  else if aqi <=? 300 then
    mkAdvice "Everyone should avoid all outdoor exertion."
      (mk_profiles
         "Stay indoors. Keep windows closed and use air purifiers if available."
         "Stay indoors with windows and doors closed. Avoid all outdoor activities."
         "Remain indoors. Consider using air purifiers and avoiding physical exertion."
         "Cancel outdoor training. Even indoor activities should be light.")
  else
    mkAdvice "Health warning: everyone should stay indoors and avoid all outdoor activities."
      (mk_profiles
         "Emergency conditions: keep children indoors with air filtration if possible."
         "Emergency: stay indoors, have medications ready, seek medical attention if symptoms worsen."
         "Emergency: stay indoors, minimize physical activity, seek medical care if needed."
         "Emergency: cancel all activities. Even light indoor exercise should be avoided.").

Definition get_health_advice (aqi : Z) (weather_data : WeatherDict.t) : AdviceDict :=
  let wind_speed := WeatherDict.get WeatherDict.wind_speed_ms 0%Q weather_data in
  let precipitation := WeatherDict.get WeatherDict.precip_mm 0%Q weather_data in
  let base := base_advice aqi in
  let general := general base in
  let general := if Py.ltb 5 wind_speed then general ++ wind_note else general in
  let general := if Py.ltb 2 precipitation then general ++ rain_note else general in
  mkAdvice general (profiles base).

(** Whether [note] occurs in [text]. *)
Definition contains (note text : string) : bool :=
  match String.index 0 note text with
  | Some _ => true
  | None => false
  end.

End Advice.

(** ** [cache_service.py]: [CacheService] *)

Module Cache.

Section WithValue.
Context {V : Type}.

(** The object state.  [ttl] is [settings.cache_ttl_seconds]. *)
Record CacheService := mkCache {
  _cache : gmap string V;
  _timestamps : gmap string Q;
  ttl : Z
}.

(** [__init__] *)
Definition init (cache_ttl_seconds : Z) : CacheService :=
  mkCache ∅ ∅ cache_ttl_seconds.

(** [now - timestamp > self.ttl] *)
Definition expired (self : CacheService) (now timestamp : Q) : bool :=
  Py.ltb (inject_Z (ttl self)) (now - timestamp).

(** Every method runs under the lock, so it is one atomic step on the
    state; [now] is the value [time.time()] returns in that step.  A method
    returns its outcome together with the state it leaves behind. *)
Definition get (now : Q) (key : string) (self : CacheService)
  : Py.result (option V) * CacheService :=
  match _cache self !! key with
  | None => (Py.Ok None, self)
  | Some v =>
      match _timestamps self !! key with
      | None => (Py.Raise Py.KeyError, self)
      | Some timestamp =>
          if expired self now timestamp then
            (Py.Ok None,
             mkCache (delete key (_cache self)) (delete key (_timestamps self)) (ttl self))
          else (Py.Ok (Some v), self)
      end
  end.

Definition set (now : Q) (key : string) (value : V) (self : CacheService)
  : CacheService :=
  mkCache (<[key := value]> (_cache self)) (<[key := now]> (_timestamps self)) (ttl self).

Definition clear (self : CacheService) : CacheService :=
  mkCache ∅ ∅ (ttl self).

Definition size (self : CacheService) : Z :=
  Z.of_nat (stdpp.base.size (_cache self)).

(** Lines 56-59: the list comprehension over [self._timestamps.items()]. *)
Definition expired_keys (now : Q) (self : CacheService) : list string :=
  (List.filter (λ kt, expired self now kt.2) (map_to_list (_timestamps self))).*1.

(** Lines 61-64: the deletion loop; [del d[key]] raises [KeyError] when the
    key is missing. *)
Fixpoint remove_loop (keys : list string) (removed_count : Z) (self : CacheService)
  : Py.result Z * CacheService :=
  match keys with
  | [] => (Py.Ok removed_count, self)
  | key :: rest =>
      match _cache self !! key with
      | None => (Py.Raise Py.KeyError, self)
      | Some _ =>
          let self1 := mkCache (delete key (_cache self)) (_timestamps self) (ttl self) in
          match _timestamps self1 !! key with
          | None => (Py.Raise Py.KeyError, self1)
          | Some _ =>
              remove_loop rest (removed_count + 1)
                (mkCache (_cache self1) (delete key (_timestamps self1)) (ttl self1))
          end
      end
  end.

Definition cleanup_expired (now : Q) (self : CacheService)
  : Py.result Z * CacheService :=
  remove_loop (expired_keys now self) 0 self.

(** The two stores hold the same keys. *)
Definition consistent (self : CacheService) : Prop :=
  dom (_cache self) = dom (_timestamps self).

End WithValue.

Global Arguments CacheService V : clear implicits.

End Cache.

(** ** [ml_service.py]: [MLService] *)

Module ML.

(** A history or forecast point [{"t": .., "aqi": ..}].  The instant [t] is
    kept as a number of seconds (of naive local time since 1970-01-01);
    its rendering by [isoformat()] is not modelled. *)
Record Point := mkPoint {
  t : Z;
  aqi : Z
}.

Global Instance Point_inhabited : Inhabited Point := populate (mkPoint 0 0).

(** [timedelta(hours=h)], [datetime.hour] and [datetime.weekday()]. *)
Definition hours_delta (h : Z) : Z := 3600 * h.
Definition hour_of (instant : Z) : Z := (instant / 3600) mod 24.
Definition weekday_of (instant : Z) : Z := (instant / 86400 + 3) mod 7.

(** [range(a, b)] *)
Definition range (a b : Z) : list Z :=
  List.map (λ i, a + Z.of_nat i) (seq 0 (Z.to_nat (b - a))).

(** [max(0, min(500, n))] *)
Definition clamp (n : Z) : Z := Z.max 0 (Z.min 500 n).

(** The scikit-learn regressors, which are not part of the repository:
    fitting and predicting may raise.  A prediction that is not a finite
    number makes [int(predicted_aqi)] raise, which reaches the same handler
    as an exception of [predict], so it is counted as one. *)
Class Sklearn := {
  Model : Type;
  RandomForestRegressor_fit : list (list Q) → list Z → Py.result Model;
  LinearRegression_fit : list (list Q) → list Z → Py.result Model;
  predict : Model → list Q → Py.result Q
}.

(** A regressor that always fits and always predicts [q]. *)
Definition constant_regressor (q : Q) : Sklearn := {|
  Model := unit;
  RandomForestRegressor_fit := λ _ _, Py.Ok tt;
  LinearRegression_fit := λ _ _, Py.Ok tt;
  predict := λ _ _, Py.Ok q
|}.

(** A regressor that never fits. *)
Definition failing_regressor : Sklearn := {|
  Model := unit;
  RandomForestRegressor_fit := λ _ _, Py.Raise Py.ValueError;
  LinearRegression_fit := λ _ _, Py.Raise Py.ValueError;
  predict := λ _ _, Py.Raise Py.ValueError
|}.

(** What one call of [predict_forecast] takes from outside the program:
    the clock readings of lines 44, 121 (once per [hours_ahead]) and 159,
    and the sample [np.random.normal(0, 5)] drawn for hour [h]. *)
Record Env := mkEnv {
  now_model : Z;
  now_feature : Z → Z;
  now_simple : Z;
  noise : Z → Q
}.

(** An environment whose clocks read 0 and whose noise is 0. *)
Definition still_env : Env := mkEnv 0 (λ _, 0) 0 (λ _, 0%Q).

(** [sorted(historical_data, key=lambda x: x["t"])]: a stable sort. *)
Fixpoint insert_by_t (p : Point) (l : list Point) : list Point :=
  match l with
  | [] => [p]
  | q :: rest => if t q <=? t p then q :: insert_by_t p rest else p :: q :: rest
  end.

Definition sorted_by_t (l : list Point) : list Point :=
  fold_left (λ acc p, insert_by_t p acc) l [].

Definition weather_features (weather_data : WeatherDict.t) : list Q :=
  [ WeatherDict.get WeatherDict.wind_speed_ms 3%Q weather_data;
    WeatherDict.get WeatherDict.temp_c 20%Q weather_data;
    inject_Z (WeatherDict.get WeatherDict.humidity 60 weather_data);
    WeatherDict.get WeatherDict.precip_mm 0%Q weather_data ].

Definition _prepare_training_data (historical_data : list Point)
    (weather_data : WeatherDict.t) : list (list Q) * list Z :=
  let sorted_data := sorted_by_t historical_data in
  let idx := seq 3 (length sorted_data - 3) in
  (List.map (λ i,
       ([ inject_Z (aqi (sorted_data !!! (i - 1)%nat));
         inject_Z (aqi (sorted_data !!! (i - 2)%nat));
         inject_Z (aqi (sorted_data !!! (i - 3)%nat));
         inject_Z (hour_of (t (sorted_data !!! i)));
         inject_Z (weekday_of (t (sorted_data !!! i))) ]
         ++ weather_features weather_data)%list) idx,
   List.map (λ i, aqi (sorted_data !!! i)) idx).

(** [l[-3:]] *)
Definition last3 {A} (l : list A) : list A := drop (length l - 3) l.

(** [l[-k]] for [1 <= k <= len(l)] *)
Definition from_end (l : list Point) (k : nat) : Point := l !!! (length l - k)%nat.

Definition _create_feature_vector (env : Env) (historical_data : list Point)
    (weather_data : WeatherDict.t) (hours_ahead : Z) : list Q :=
  let sorted_data := last3 (sorted_by_t historical_data) in
  let future_time := now_feature env hours_ahead + hours_delta hours_ahead in
  ([ inject_Z (if (1 <=? length sorted_data)%nat then aqi (from_end sorted_data 1) else 50);
    inject_Z (if (2 <=? length sorted_data)%nat then aqi (from_end sorted_data 2) else 50);
    inject_Z (if (3 <=? length sorted_data)%nat then aqi (from_end sorted_data 3) else 50);
    inject_Z (hour_of future_time);
    inject_Z (weekday_of future_time) ]
    ++ weather_features weather_data)%list.

(** Lines 166-171. *)
Definition time_effect (hour : Z) : Z :=
  if bool_decide (hour ∈ [7; 8; 17; 18; 19]) then 15
  else if bool_decide (hour ∈ [10; 11; 12; 13; 14; 15]) then 5
  else -10.

(** Lines 145-156.  The values of the weather dict are floats: a rational
    of the model's dict stands for the binary64 value nearest to it, and the
    arithmetic on it is that of binary64. *)
Definition wind_effect (weather_data : WeatherDict.t) : Q :=
  let wind_speed := F64.round64 (WeatherDict.get WeatherDict.wind_speed_ms 3%Q weather_data) in
  (- F64.min 20 (F64.mul wind_speed 3))%Q.

Definition rain_effect (weather_data : WeatherDict.t) : Q :=
  let precipitation := F64.round64 (WeatherDict.get WeatherDict.precip_mm 0%Q weather_data) in
  (- F64.min 15 (F64.mul precipitation 5))%Q.

Definition temp_effect (weather_data : WeatherDict.t) : Q :=
  let temperature := F64.round64 (WeatherDict.get WeatherDict.temp_c 20%Q weather_data) in
  F64.max 0 (F64.mul (F64.sub temperature 25) 0.5).

(** Lines 161-182: one iteration of the loop of [_simple_forecast]. *)
Definition simple_point (env : Env) (weather_data : WeatherDict.t) (h : Z) : Point :=
  let base_aqi := 65%Q in
  let future_time := now_simple env + hours_delta h in
  let hour := hour_of future_time in
  let predicted_aqi :=
    F64.add
      (F64.add
         (F64.add
            (F64.add (F64.add base_aqi (wind_effect weather_data)) (rain_effect weather_data))
            (temp_effect weather_data))
         (inject_Z (time_effect hour)))
      (F64.round64 (noise env h)) in
  mkPoint future_time (clamp (Py.int predicted_aqi)).

Fixpoint simple_loop (env : Env) (weather_data : WeatherDict.t)
    (hs : list Z) (forecast : list Point) : list Point :=
  match hs with
  | [] => forecast
  | h :: rest =>
      simple_loop env weather_data rest (forecast ++ [simple_point env weather_data h])%list
  end.

Definition _simple_forecast (env : Env) (weather_data : WeatherDict.t) (hours : Z)
  : list Point :=
  simple_loop env weather_data (range 1 (hours + 1)) [].

(** The diurnal term as the specification gives it. *)
Definition claimed_diurnal (hour : Z) : Q :=
  if bool_decide (hour ∈ [7; 8; 17; 18; 19]) then 15%Q
  else if bool_decide (hour ∈ [10; 11; 12; 13; 14; 15]) then 5%Q
  else (-10)%Q.

(** The score as the specification gives it, in exact arithmetic:
    [65 - min(20, wind * 3) - min(15, precip * 5) + max(0, (temp - 25) * 0.5) + t]. *)
Definition claimed_score (wind precip temp t : Q) : Q :=
  (65 - Qmin 20 (wind * 3) - Qmin 15 (precip * 5) + Qmax 0 ((temp - 25) * 0.5) + t)%Q.

(** The same expression evaluated from left to right in binary64
    arithmetic, with the zero noise term added last. *)
Definition claimed_score64 (wind precip temp t : Q) : Q :=
  F64.add
    (F64.add
       (F64.add
          (F64.add (F64.add 65 (- F64.min 20 (F64.mul wind 3)))
             (- F64.min 15 (F64.mul precip 5)))
          (F64.max 0 (F64.mul (F64.sub temp 25) 0.5)))
       t)
    0.

(** A forecast is well shaped for a clock reading [now] and a list of
    hours [hs] when it holds one point per hour, stamped [now + h] hours,
    with an index between 0 and 500. *)
Definition well_shaped (now : Z) (hs : list Z) (forecast : list Point) : Prop :=
  List.map t forecast = List.map (λ h, now + hours_delta h) hs
  ∧ Forall (λ p, 0 ≤ aqi p ≤ 500) forecast.

Section WithSklearn.
Context `{Sklearn}.

(** The bare [except:] falls back to linear regression. *)
Definition _train_model (features : list (list Q)) (targets : list Z)
  : Py.result Model :=
  Py.try_except (RandomForestRegressor_fit features targets)
    (λ _, LinearRegression_fit features targets).

(** Lines 46-61: the prediction loop. *)
Fixpoint model_loop (env : Env) (model : Model) (historical_data : list Point)
    (weather_data : WeatherDict.t) (hs : list Z) (forecast : list Point)
  : Py.result (list Point) :=
  match hs with
  | [] => Py.Ok forecast
  | h :: rest =>
      let future_time := now_model env + hours_delta h in
      let feature_vector := _create_feature_vector env historical_data weather_data h in
      predicted_aqi ← predict model feature_vector;
      model_loop env model historical_data weather_data rest
        (forecast ++ [mkPoint future_time (clamp (Py.int predicted_aqi))])%list
  end.

(** Lines 30-63: the body of the [try]. *)
Definition predict_forecast_try (env : Env) (historical_data : list Point)
    (weather_data : WeatherDict.t) (hours : Z) : Py.result (list Point) :=
  if (length historical_data <? 24)%nat then
    Py.Ok (_simple_forecast env weather_data hours)
  else
    let '(features, targets) := _prepare_training_data historical_data weather_data in
    if (length features <? 10)%nat then
      Py.Ok (_simple_forecast env weather_data hours)
    else
      model ← _train_model features targets;
      model_loop env model historical_data weather_data (range 1 (hours + 1)) [].

Definition predict_forecast (env : Env) (lat lon : Q) (historical_data : list Point)
    (weather_data : WeatherDict.t) (hours : Z) : list Point :=
  match predict_forecast_try env historical_data weather_data hours with
  | Py.Ok forecast => forecast
  | Py.Raise _ => _simple_forecast env weather_data hours
  end.

End WithSklearn.

End ML.

(** ** [models/air_quality.py]: the response models *)

Module PollutantData.
Record t := mk { value : Q; unit : string; source : list string }.
End PollutantData.

Module WeatherData.
Record t := mk {
  precip_mm : Q;
  wind_speed_ms : Q;
  temp_c : Q;
  humidity : Z;
  source : list string
}.
End WeatherData.

Module AQIData.
Record t := mk { value : Z; scale : string; category : string }.
End AQIData.

Module ForecastPoint.
Record t := mk { t_ : Z; aqi : Z }.
End ForecastPoint.

Module HealthAdvice.
Record t := mk { general : string; profiles : gmap string string }.
End HealthAdvice.

Module DataProvenance.
(** [tempo] is [{"product": .., "nrt": ..}], [openaq] is
    [{"station_ids": ..}], [meteo] is [{"imerg": .., "merra2": ..}]. *)
Record t := mk {
  tempo : option (string * bool);
  openaq : option (list string);
  meteo : option (bool * bool)
}.
End DataProvenance.

Module AirQualityResponse.
Record t := mk {
  coord : Q * Q;
  location_name : string;
  timestamp_iso : Z;
  pollutants : gmap string PollutantData.t;
  weather : WeatherData.t;
  aqi : AQIData.t;
  forecast_24h : list ForecastPoint.t;
  advice : HealthAdvice.t;
  history_7d : list ForecastPoint.t;
  provenance : DataProvenance.t
}.
End AirQualityResponse.

(** ** [geo_utils.py]: [format_location_name] *)

Module Geo.

Definition format_location_name (lat lon : Q) : string :=
  let lat_deg := Py.int (Qabs lat) in
  let lat_min := Py.int ((Qabs lat - inject_Z lat_deg) * 60) in
  let lat_dir := if Py.leb 0 lat then "N" else "S" in
  let lon_deg := Py.int (Qabs lon) in
  let lon_min := Py.int ((Qabs lon - inject_Z lon_deg) * 60) in
  let lon_dir := if Py.leb 0 lon then "E" else "W" in
  pretty lat_deg ++ "°" ++ pretty lat_min ++ "'" ++ lat_dir ++ ", "
    ++ pretty lon_deg ++ "°" ++ pretty lon_min ++ "'" ++ lon_dir.

End Geo.

(** ** [api/airquality.py] *)

Module API.

(** What [asyncio.gather(.., return_exceptions=True)] yields for one task. *)
Inductive gathered (A : Type) : Type :=
| Returned (a : A)
| Exc.
Global Arguments Returned {A} a.
Global Arguments Exc {A}.

(** The dict of [OpenAQService.get_nearest_measurements]: [{}] or
    [{"pollutants": .., "station_ids": ..}]. *)
Record OpenAQDict := mkOpenAQ {
  oa_pollutants : option (gmap string Q);
  oa_station_ids : option (list string)
}.

Definition openaq_truthy (d : OpenAQDict) : bool :=
  match d with
  | mkOpenAQ None None => false
  | _ => true
  end.

(** The outcomes of the four adapter calls of one request. *)
Record Sources := mkSources {
  tempo_data : gathered (gmap string (option Q));
  openaq_data : gathered OpenAQDict;
  weather_data : gathered WeatherDict.t;
  historical_data : gathered (list ML.Point)
}.

(** The clock readings of one request: [time.time()] inside
    [cache_service.get] and [cache_service.set], [datetime.now(timezone.utc)]
    of line 138, and what the forecast reads and draws. *)
Record Env := mkEnv {
  time_get : Q;
  time_set : Q;
  now_utc : Z;
  ml_env : ML.Env
}.

Definition get_aqi_category (aqi : Z) : string :=
  if aqi <=? 50 then "Good"
  else if aqi <=? 100 then "Moderate"
  else if aqi <=? 150 then "Unhealthy for Sensitive Groups"
  else if aqi <=? 200 then "Unhealthy"
  else if aqi <=? 300 then "Very Unhealthy"
  else "Hazardous".

(** [f"{x:.2f}"] *)
Definition format_2f (x : Q) : string :=
  let r := Py.round (Qabs x * 100) in
  let frac := r mod 100 in
  (if Py.ltb x 0 then "-" else "") ++ pretty (r / 100) ++ "."
    ++ (if frac <? 10 then "0" else "") ++ pretty frac.

Definition cache_key (lat lon : Q) : string :=
  "airquality:" ++ format_2f lat ++ ":" ++ format_2f lon.

(** Lines 94-100: the loop over the satellite dict. *)
Definition tempo_step (pollutant : string) (value : option Q)
    (merged_pollutants : gmap string AQI.PollutantDict) : gmap string AQI.PollutantDict :=
  match value with
  | Some v =>
      <[pollutant :=
          AQI.mkPollutant (Some v)
            (if bool_decide (pollutant ≠ "hcho") then "µg/m³" else "ppb")
            ["TEMPO"]]> merged_pollutants
  | None => merged_pollutants
  end.

(** Lines 103-115: the loop over the ground-station dict.  Multiplying a
    missing [value] raises [TypeError]. *)
Definition openaq_step (pollutant : string) (value : Q)
    (acc : Py.result (gmap string AQI.PollutantDict))
  : Py.result (gmap string AQI.PollutantDict) :=
  merged_pollutants ← acc;
  match merged_pollutants !! pollutant with
  | Some entry =>
      match AQI.value entry with
      | Some tempo_val =>
          let merged_val := (tempo_val * 0.4 + value * 0.6)%Q in
          Py.Ok (<[pollutant :=
                     AQI.mkPollutant (Some merged_val) (AQI.unit entry)
                       (AQI.source entry ++ ["OpenAQ"])%list]> merged_pollutants)
      | None => Py.Raise Py.TypeError
      end
  | None =>
      Py.Ok (<[pollutant := AQI.mkPollutant (Some value) "µg/m³" ["OpenAQ"]]>
               merged_pollutants)
  end.

(** The entry the ground-station loop leaves for a pollutant it visits. *)
Definition overlay (before : option AQI.PollutantDict) (value : Q)
  : option AQI.PollutantDict :=
  match before with
  | Some entry =>
      match AQI.value entry with
      | Some tempo_val =>
          Some (AQI.mkPollutant (Some (tempo_val * 0.4 + value * 0.6)%Q)
                  (AQI.unit entry) (AQI.source entry ++ ["OpenAQ"])%list)
      | None => None
      end
  | None => Some (AQI.mkPollutant (Some value) "µg/m³" ["OpenAQ"])
  end.

(** Lines 91-115. *)
Definition merge_pollutants (tempo_dict : gmap string (option Q))
    (openaq_dict : OpenAQDict) : Py.result (gmap string AQI.PollutantDict) :=
  let merged_pollutants := map_fold tempo_step ∅ tempo_dict in
  map_fold openaq_step (Py.Ok merged_pollutants)
    (default ∅ (oa_pollutants openaq_dict)).

(** Construction of a [PollutantData] from an entry: validation fails
    without a number. *)
Definition to_pollutant_model (entry : AQI.PollutantDict) : Py.result PollutantData.t :=
  match AQI.value entry with
  | Some v => Py.Ok (PollutantData.mk v (AQI.unit entry) (AQI.source entry))
  | None => Py.Raise Py.ValidationError
  end.

(** Lines 130-133: the dict comprehension. *)
Definition pollutant_models (merged_pollutants : gmap string AQI.PollutantDict)
  : Py.result (gmap string PollutantData.t) :=
  map_fold (λ key value acc,
              models ← acc;
              model ← to_pollutant_model value;
              Py.Ok (<[key := model]> models))
    (Py.Ok ∅) merged_pollutants.

(** Construction of a [WeatherData] from the weather dict: every field is
    required. *)
Definition to_weather_model (d : WeatherDict.t) : Py.result WeatherData.t :=
  match d with
  | WeatherDict.mk (Some p) (Some w) (Some tc) (Some h) (Some s) =>
      Py.Ok (WeatherData.mk p w tc h s)
  | _ => Py.Raise Py.ValidationError
  end.

Definition default_weather : WeatherData.t :=
  WeatherData.mk 0 0 20 60 [].

Definition to_forecast_point (p : ML.Point) : ForecastPoint.t :=
  ForecastPoint.mk (ML.t p) (ML.aqi p).

(** [l[-168:]] *)
Definition last168 {A} (l : list A) : list A := drop (length l - 168) l.

(** An adapter call has failed or come back empty. *)
Definition no_data {A} (empty : A) (outcome : gathered A) : Prop :=
  outcome = Exc ∨ outcome = Returned empty.

(** All four adapter calls of a request have failed or come back empty. *)
Definition all_failed (src : Sources) : Prop :=
  no_data ∅ (tempo_data src)
  ∧ no_data (mkOpenAQ None None) (openaq_data src)
  ∧ no_data WeatherDict.empty (weather_data src)
  ∧ no_data [] (historical_data src).

(** A record with no content, for examples. *)
Definition sample_response : AirQualityResponse.t :=
  AirQualityResponse.mk (0, 0)%Q "" 0 ∅ default_weather (AQIData.mk 50 "0-500" "Good")
    [] (HealthAdvice.mk "" ∅) [] (DataProvenance.mk None None None).

(** Four adapters that raise, and an environment at rest. *)
Definition failing_sources : Sources := mkSources Exc Exc Exc Exc.
Definition still_env : Env := mkEnv 0 0 0 ML.still_env.

Section WithSklearn.
Context `{ML.Sklearn}.

Abbreviation State := (Cache.CacheService AirQualityResponse.t).

(** Lines 53-164: what follows a cache miss, inside the [try]. *)
Definition assemble (env : Env) (src : Sources) (lat lon : Q) (hours : Z)
  : Py.result AirQualityResponse.t :=
  let tempo_dict :=
    match tempo_data src with
    | Exc => ∅
    | Returned d => if bool_decide (size d = 0%nat) then ∅ else d
    end in
  let openaq_dict :=
    match openaq_data src with
    | Exc => mkOpenAQ None None
    | Returned d => if openaq_truthy d then d else mkOpenAQ None None
    end in
  let weather_dict :=
    match weather_data src with
    | Exc => WeatherDict.empty
    | Returned d => if WeatherDict.truthy d then d else WeatherDict.empty
    end in
  let historical_list :=
    match historical_data src with
    | Exc => []
    | Returned l => match l with [] => [] | _ => l end
    end in
  merged_pollutants ← merge_pollutants tempo_dict openaq_dict;
  let aqi_value := AQI.calculate_aqi merged_pollutants in
  let health_advice := Advice.get_health_advice aqi_value weather_dict in
  let forecast_data :=
    ML.predict_forecast (ml_env env) lat lon historical_list weather_dict hours in
  models ← pollutant_models merged_pollutants;
  weather ← (if WeatherDict.truthy weather_dict then to_weather_model weather_dict
             else Py.Ok default_weather);
  Py.Ok (AirQualityResponse.mk
           (lat, lon)
           (Geo.format_location_name lat lon)
           (now_utc env)
           models
           weather
           (AQIData.mk aqi_value "0-500" (get_aqi_category aqi_value))
           (List.map to_forecast_point forecast_data)
           (HealthAdvice.mk (Advice.general health_advice) (Advice.profiles health_advice))
           (match historical_list with
            | [] => []
            | _ => List.map to_forecast_point (last168 historical_list)
            end)
           (DataProvenance.mk
              (if bool_decide (size tempo_dict = 0%nat) then None
               else Some ("NO2/O3/PM/HCHO", true))
              (if openaq_truthy openaq_dict
               then Some (default [] (oa_station_ids openaq_dict)) else None)
              (Some (bool_decide (is_Some (WeatherDict.precip_mm weather_dict)),
                     bool_decide (is_Some (WeatherDict.wind_speed_ms weather_dict)))))).

(** Any exception inside the [try] becomes [HTTPException(500)]. *)
Definition get_air_quality (env : Env) (src : Sources) (lat lon : Q) (hours : Z)
    (cache_service : State) : Py.result AirQualityResponse.t * State :=
  let key := cache_key lat lon in
  match Cache.get (time_get env) key cache_service with
  | (Py.Raise _, cache_service) => (Py.Raise (Py.HTTPException 500), cache_service)
  | (Py.Ok (Some cached_data), cache_service) => (Py.Ok cached_data, cache_service)
  | (Py.Ok None, cache_service) =>
      match assemble env src lat lon hours with
      | Py.Raise _ => (Py.Raise (Py.HTTPException 500), cache_service)
      | Py.Ok response_data =>
          (Py.Ok response_data,
           Cache.set (time_set env) key response_data cache_service)
      end
  end.

End WithSklearn.

End API.

(** ** Two builtins on floats used by the adapters *)

Module Builtins.

(** [round(x, 1)] *)
Definition round1 (x : Q) : Q := (inject_Z (Py.round (x * 10)) / 10)%Q.

(** [max(0, x)]: [x] when it is greater than 0, else the first argument. *)
Definition max0 (x : Q) : Q := if Py.ltb 0 x then x else 0%Q.

End Builtins.

(** ** [openaq_service.py]: what [OpenAQService] does with the JSON it gets *)

Module OpenAQ.

(** The value of [measurement.get("date", {}).get("utc")], where ["date"]
    is an object when it is present: absent (or the empty string), a string
    that [datetime.fromisoformat] rejects, or a UTC timestamp that it parses
    to an instant (in seconds, as for [ML.Point]). *)
Inductive Timestamp : Type :=
| NoTimestamp
| BadTimestamp
| Instant (seconds : Z).

(** One element of the ["results"] list of a measurements response, with
    the keys the code reads.  A field is [None] when the key is missing or
    null; a value that is present is a JSON number. *)
Record Measurement := mkMeasurement {
  parameter : option string;
  value : option Q;
  locationId : option Z;
  date_utc : Timestamp
}.

(** [str.lower()] on a string of ASCII characters. *)
Definition lower_ascii (c : Ascii.ascii) : Ascii.ascii :=
  let n := Ascii.nat_of_ascii c in
  if ((65 <=? n) && (n <=? 90))%nat then Ascii.ascii_of_nat (n + 32) else c.

Fixpoint lower (s : string) : string :=
  match s with
  | EmptyString => EmptyString
  | String c rest => String (lower_ascii c) (lower rest)
  end.

(** Truth value of an optional string: present and not empty. *)
Definition truthy (s : option string) : bool :=
  match s with
  | Some (String _ _) => true
  | _ => false
  end.

(** [str(location_id)] *)
Definition str (location_id : option Z) : string :=
  match location_id with
  | Some n => pretty n
  | None => "None"
  end.

(** Lines 68-75: the dict literal [param_mapping]. *)
Definition param_mapping : gmap string string :=
  list_to_map [ ("no2", "no2"); ("o3", "o3"); ("pm25", "pm25");
                ("pm10", "pm10"); ("so2", "so2"); ("co", "co") ].

(** Lines 61-80: the body of the loop of [get_nearest_measurements] over
    the measurements, on the pair [(pollutants, station_ids_used)]. *)
Definition nearest_step (acc : gmap string Q * gset string) (measurement : Measurement)
  : gmap string Q * gset string :=
  let '(pollutants, station_ids_used) := acc in
  match parameter measurement, value measurement with
  | Some p, Some v =>
      if truthy (Some p) then
        match param_mapping !! lower p with
        | Some standard_param =>
            if truthy (Some standard_param)
               && bool_decide (pollutants !! standard_param = None)
            then (<[standard_param := v]> pollutants,
                  {[ str (locationId measurement) ]} ∪ station_ids_used)
            else acc
        | None => acc
        end
      else acc
  | _, _ => acc
  end.

(** Whether a measurement carries a value for the pollutant [key], up to
    the case of its parameter name. *)
Definition reports (key : string) (m : Measurement) : Prop :=
  ∃ p v, parameter m = Some p ∧ value m = Some v ∧ lower p = key.

(** Lines 57-85 of [get_nearest_measurements]: from the ["results"] of the
    measurements response to the returned dict.  [list(set)] enumerates the
    set in an order of its own. *)
Definition nearest_measurements (results : list Measurement) : API.OpenAQDict :=
  let '(pollutants, station_ids_used) := fold_left nearest_step results (∅, ∅) in
  API.mkOpenAQ (Some pollutants) (Some (elements station_ids_used)).

(** The dict literal [aqi_breakpoints] of [_calculate_simple_aqi]. *)
Definition aqi_breakpoints : gmap string (list AQI.Segment) :=
  list_to_map
    [ ("pm25", [ AQI.mkSeg 0 12 0 50; AQI.mkSeg 12.1 35.4 51 100;
                 AQI.mkSeg 35.5 55.4 101 150 ]);
      ("pm10", [ AQI.mkSeg 0 54 0 50; AQI.mkSeg 55 154 51 100;
                 AQI.mkSeg 155 254 101 150 ]);
      ("o3", [ AQI.mkSeg 0 54 0 50; AQI.mkSeg 55 70 51 100;
               AQI.mkSeg 71 85 101 150 ]);
      ("no2", [ AQI.mkSeg 0 53 0 50; AQI.mkSeg 54 100 51 100;
                AQI.mkSeg 101 360 101 150 ]) ].

(** The inner loop of [_calculate_simple_aqi]: [Some (int(aqi))] when it
    leaves by [break], [None] when no segment holds the value. *)
Fixpoint simple_breakpoint (tbl : list AQI.Segment) (v : Q) : option Z :=
  match tbl with
  | [] => None
  | s :: rest =>
      if AQI.in_segment s v then Some (Py.int (AQI.interpolate s v))
      else simple_breakpoint rest v
  end.

(** The body of the outer loop of [_calculate_simple_aqi]. *)
Definition simple_body (param : string) (v : Q) (max_aqi : Z) : Z :=
  match aqi_breakpoints !! param with
  | Some tbl =>
      match simple_breakpoint tbl v with
      | Some a => Z.max max_aqi a
      | None => max_aqi
      end
  | None => max_aqi
  end.

Definition _calculate_simple_aqi (measurements : gmap string Q) : option Z :=
  if bool_decide (size measurements = 0%nat) then None
  else
    let max_aqi := map_fold simple_body 0 measurements in
    if 0 <? max_aqi then Some max_aqi else None.

(** [dt.replace(minute=0, second=0, microsecond=0)] *)
Definition hour_floor (instant : Z) : Z := instant - instant mod 3600.

(** Lines 123-136 of [get_historical_data]: one measurement of the grouping
    loop.  Parsing a malformed timestamp raises [ValueError]. *)
Definition group_step (acc : Py.result (gmap Z (gmap string Q))) (measurement : Measurement)
  : Py.result (gmap Z (gmap string Q)) :=
  measurements_by_hour ← acc;
  match date_utc measurement, parameter measurement, value measurement with
  | NoTimestamp, _, _ => Py.Ok measurements_by_hour
  | timestamp, Some p, Some v =>
      if truthy (Some p) then
        match timestamp with
        | Instant dt =>
            let hour_key := hour_floor dt in
            Py.Ok (<[hour_key := <[p := v]> (default ∅ (measurements_by_hour !! hour_key))]>
                     measurements_by_hour)
        | _ => Py.Raise Py.ValueError
        end
      else Py.Ok measurements_by_hour
  | _, _, _ => Py.Ok measurements_by_hour
  end.

(** Lines 139-146: the loop over the hours. *)
Definition hour_point (hour_measurements : Z * gmap string Q) : option ML.Point :=
  match _calculate_simple_aqi hour_measurements.2 with
  | Some aqi => Some (ML.mkPoint hour_measurements.1 aqi)
  | None => None
  end.

(** Lines 119-148 of [get_historical_data], inside the [try]: from the
    ["results"] of the response to the sorted list of hourly points. *)
Definition historical_points (results : list Measurement) : Py.result (list ML.Point) :=
  measurements_by_hour ← fold_left group_step results (Py.Ok ∅);
  Py.Ok (ML.sorted_by_t (omap hour_point (map_to_list measurements_by_hour))).

(** [get_historical_data] on a response that arrived: any exception gives
    the empty list. *)
Definition historical_data (results : list Measurement) : list ML.Point :=
  match historical_points results with
  | Py.Ok points => points
  | Py.Raise _ => []
  end.

End OpenAQ.

(** ** [weather_service.py] *)

Module Weather.
Import Builtins.

(** What one call of [get_weather_data] takes from outside the program: the
    two readings of [datetime.now().month] (lines 102 and 77, in the order of
    the calls) and the samples drawn at lines 44 and 48-51. *)
Record Env := mkEnv {
  month_season : Z;
  month_temperature : Z;
  wind_draw : Q;
  temp_draw : Q;
  humidity_draw : Q;
  wind_variation_draw : Q;
  precip_coin : Q;
  precip_draw : Q
}.

(** The dict of [_get_climate_factor]: both keys are always present. *)
Record ClimateDict := mkClimate { humidity : Z; precipitation : Q }.

(** Lines 61-73. *)
Definition _get_climate_factor (lat lon : Q) : ClimateDict :=
  let abs_lat := Qabs lat in
  if Py.ltb abs_lat 23.5 then mkClimate 75 3
  else if Py.ltb abs_lat 35 then mkClimate 65 1.5
  else if Py.ltb abs_lat 50 then mkClimate 60 1
  else mkClimate 70 0.5.

Definition month_in (month : Z) (months : list Z) : bool :=
  bool_decide (month ∈ months).

(** Lines 75-98. *)
Definition _estimate_temperature (env : Env) (lat : Q) : Q :=
  let month := month_temperature env in
  let base_temp := (30 - Qabs lat * 0.6)%Q in
  let seasonal_adj : Q :=
    if Py.leb 0 lat then
      if month_in month [12; 1; 2] then (-8)%Q
      else if month_in month [6; 7; 8] then 8%Q
      else 0%Q
    else
      if month_in month [6; 7; 8] then (-8)%Q
      else if month_in month [12; 1; 2] then 8%Q
      else 0%Q in
  (base_temp + seasonal_adj)%Q.

(** Lines 100-110. *)
Definition _get_seasonal_weather_factor (env : Env) : Q :=
  let month := month_season env in
  if month_in month [11; 12; 1; 2; 3] then 1.5%Q
  else if month_in month [6; 7; 8] then 0.7%Q
  else 1%Q.

(** Lines 30-59. *)
Definition _get_weather_estimate (env : Env) (lat lon : Q) : WeatherDict.t :=
  let climate_factor := _get_climate_factor lat lon in
  let seasonal_factor := _get_seasonal_weather_factor env in
  let base_temp := _estimate_temperature env lat in
  let base_humidity := humidity climate_factor in
  let base_wind := (3 + wind_draw env)%Q in
  let base_precip := (precipitation climate_factor * seasonal_factor)%Q in
  let temp_variation := temp_draw env in
  let humidity_variation := humidity_draw env in
  let wind_variation := wind_variation_draw env in
  let precip_variation := if Py.ltb (precip_coin env) 0.3 then precip_draw env else 0%Q in
  WeatherDict.mk
    (Some (round1 (max0 (base_precip + precip_variation))))
    (Some (round1 (max0 (base_wind + wind_variation))))
    (Some (round1 (base_temp + temp_variation)))
    (Some (Z.max 0 (Z.min 100 (Py.int (inject_Z base_humidity + humidity_variation)))))
    (Some ["IMERG"; "MERRA-2"]).

(** Lines 15-28: nothing in the body of the [try] raises, so the handler
    that returns [{}] is never entered. *)
Definition get_weather_data (env : Env) (lat lon : Q) : WeatherDict.t :=
  _get_weather_estimate env lat lon.

End Weather.

(** ** [tempo_service.py] *)

Module Tempo.
Import Builtins.

(** [x ** 0.5] on floats is taken from outside. *)
Class Power := pow_half : Q → Q.

(** A square root on the integer part, for examples. *)
Definition floor_sqrt : Power := λ x, inject_Z (Z.sqrt (Qfloor x)).

(** What one call of [get_pollutants] takes from outside the program: the
    reading of [datetime.now().month] (line 109) and the sample
    [np.random.normal(0, 0.1)] drawn for each pollutant (line 64). *)
Record Env := mkEnv {
  month : Z;
  noise : string → Q
}.

Definition urban_centers : list (Q * Q) :=
  [ (40.7128, -74.0060); (34.0522, -118.2437); (48.8566, 2.3522);
    (51.5074, -0.1278); (35.6762, 139.6503); (19.4326, -99.1332) ]%Q.

(** [min(min_distance, distance)]; [None] stands for [float('inf')]. *)
Definition min_step (min_distance : option Q) (distance : Q) : option Q :=
  match min_distance with
  | None => Some distance
  | Some m => Some (if Py.ltb distance m then distance else m)
  end.

Section WithPower.
Context `{Power}.

(** Lines 82-85. *)
Definition min_distance (lat lon : Q) : option Q :=
  fold_left (λ min_distance '(urban_lat, urban_lon),
               let distance := pow_half ((lat - urban_lat) ^ 2 + (lon - urban_lon) ^ 2)%Q in
               min_step min_distance distance)
    urban_centers None.

(** Lines 70-93. *)
Definition _get_urban_factor (lat lon : Q) : Q :=
  match min_distance lat lon with
  | Some min_distance =>
      if Py.ltb min_distance 1 then (2 - min_distance)%Q
      else if Py.ltb min_distance 5 then (1.5 - (min_distance - 1) * 0.1)%Q
      else 1%Q
  | None => 1%Q
  end.

End WithPower.

(** Lines 95-105. *)
Definition _get_industrial_factor (lat lon : Q) : Q :=
  if Py.leb 40 lat && Py.leb lat 50 && (Py.leb (-85) lon && Py.leb lon (-70)) then 1.5%Q
  else if Py.leb 30 lat && Py.leb lat 40 && (Py.leb 110 lon && Py.leb lon 125) then 2%Q
  else if Py.leb 45 lat && Py.leb lat 55 && (Py.leb 0 lon && Py.leb lon 15) then 1.3%Q
  else 1%Q.

(** Lines 107-117. *)
Definition _get_seasonal_factor (env : Env) : Q :=
  if bool_decide (month env ∈ [12; 1; 2]) then 1.3%Q
  else if bool_decide (month env ∈ [6; 7; 8]) then 1.1%Q
  else 1%Q.

Section WithPower.
Context `{Power}.

(** Lines 37-68. *)
Definition _get_tempo_fallback (env : Env) (lat lon : Q) : gmap string (option Q) :=
  let urban_factor := _get_urban_factor lat lon in
  let industrial_factor := _get_industrial_factor lat lon in
  let seasonal_factor := _get_seasonal_factor env in
  let base_values : gmap string Q :=
    list_to_map
      [ ("no2", 15 * urban_factor);
        ("o3", 80 * (1 + 0.3 * urban_factor));
        ("pm25", 12 * (urban_factor + industrial_factor) / 2);
        ("hcho", 2.5 * industrial_factor) ]%Q in
  let base_values := (λ v, v * seasonal_factor)%Q <$> base_values in
  let base_values :=
    map_imap (λ pollutant v, Some (max0 (v * (1 + noise env pollutant)))) base_values in
  Some <$> base_values.

(** Lines 17-35: nothing in the body of the [try] raises, so the handler
    that returns [{}] is never entered. *)
Definition get_pollutants (env : Env) (lat lon : Q) : gmap string (option Q) :=
  _get_tempo_fallback env lat lon.

End WithPower.

End Tempo.

(** ** [api/airquality.py]: the inputs of the assembly *)

Module Coordinator.
Import API.

(** Lines 66-88: the dict or list that stands for each gathered outcome. *)
Definition tempo_dict (src : Sources) : gmap string (option Q) :=
  match tempo_data src with
  | Exc => ∅
  | Returned d => if bool_decide (size d = 0%nat) then ∅ else d
  end.

Definition openaq_dict (src : Sources) : OpenAQDict :=
  match openaq_data src with
  | Exc => mkOpenAQ None None
  | Returned d => if openaq_truthy d then d else mkOpenAQ None None
  end.

Definition weather_dict (src : Sources) : WeatherDict.t :=
  match weather_data src with
  | Exc => WeatherDict.empty
  | Returned d => if WeatherDict.truthy d then d else WeatherDict.empty
  end.

Definition historical_list (src : Sources) : list ML.Point :=
  match historical_data src with
  | Exc => []
  | Returned l => match l with [] => [] | _ => l end
  end.

(** A weather dict that has all five keys. *)
Definition complete (d : WeatherDict.t) : bool :=
  match d with
  | WeatherDict.mk (Some _) (Some _) (Some _) (Some _) (Some _) => true
  | _ => false
  end.

(** The entry of the satellite loop for a pollutant. *)
Definition tempo_entry (tempo : gmap string (option Q)) (pollutant : string)
  : option AQI.PollutantDict :=
  match tempo !! pollutant with
  | Some (Some v) =>
      Some (AQI.mkPollutant (Some v)
              (if bool_decide (pollutant ≠ "hcho") then "µg/m³" else "ppb") ["TEMPO"])
  | _ => None
  end.

(** A complete weather dict, for examples. *)
Definition clear_sky : WeatherDict.t :=
  WeatherDict.mk (Some 0%Q) (Some 3%Q) (Some 20%Q) (Some 50) (Some ["Open-Meteo"]).

End Coordinator.

(** * Properties *)

(** ** Python numerics *)

Module PyProofs.

Lemma ltb_iff (x y : Q) : Py.ltb x y = true ↔ (x < y)%Q.
Proof.
  unfold Py.ltb. destruct (Qle_bool y x) eqn:Hle; simpl.
  - apply Qle_bool_iff in Hle. split; [done|]. intros. lra.
  - split; [|done]. intros _. apply Qnot_le_lt. intros Hle'.
    apply Qle_bool_iff in Hle'. congruence.
Qed.

Lemma round_proper (x y : Q) : (x == y)%Q → Py.round x = Py.round y.
Proof.
  intros Hxy. unfold Py.round. rewrite (Qfloor_comp _ _ Hxy).
  assert (x - inject_Z (Qfloor y) == y - inject_Z (Qfloor y))%Q as Heq by (by rewrite Hxy).
  by rewrite (Qcompare_comp _ _ Heq _ _ (Qeq_refl (1 # 2))).
Qed.

Lemma round_inject_Z (n : Z) : Py.round (inject_Z n) = n.
Proof.
  unfold Py.round. rewrite Qfloor_Z.
  destruct (Qcompare_spec (inject_Z n - inject_Z n) (1 # 2)); [lra|done|lra].
Qed.

(** [round] lies between the floor and the floor plus one. *)
Lemma round_floor (x : Q) : Qfloor x ≤ Py.round x ≤ Qfloor x + 1.
Proof. unfold Py.round. destruct (Qcompare _ _); [destruct (Z.even _)|..]; lia. Qed.

Lemma round_mono (x y : Q) : (x <= y)%Q → Py.round x ≤ Py.round y.
Proof.
  intros Hxy. pose proof (Qfloor_resp_le _ _ Hxy) as Hfl.
  destruct (decide (Qfloor x = Qfloor y)) as [Heq|Hne].
  - unfold Py.round. rewrite Heq.
    destruct (Qcompare_spec (x - inject_Z (Qfloor y)) (1 # 2)) as [Hx|Hx|Hx],
             (Qcompare_spec (y - inject_Z (Qfloor y)) (1 # 2)) as [Hy|Hy|Hy];
      try destruct (Z.even (Qfloor y)); try lia; lra.
  - pose proof (round_floor x). pose proof (round_floor y). lia.
Qed.

End PyProofs.

(** ** Binary64 rounding *)

Module F64Proofs.
Import F64.

Lemma round_half (y : Q) : (Qabs (inject_Z (Py.round y) - y) <= 1 # 2)%Q.
Proof.
  unfold Py.round. cbv zeta.
  pose proof (Qfloor_le y) as Hlo. pose proof (Qlt_floor y) as Hhi.
  rewrite inject_Z_plus in Hhi. change (inject_Z 1) with 1%Q in Hhi.
  apply Qabs_Qle_condition.
  destruct (Qcompare_spec (y - inject_Z (Qfloor y)) (1 # 2)) as [Heq|Hlt|Hgt].
  - destruct (Z.even (Qfloor y)).
    + lra.
    + rewrite inject_Z_plus. change (inject_Z 1) with 1%Q. lra.
  - lra.
  - rewrite inject_Z_plus. change (inject_Z 1) with 1%Q. lra.
Qed.

Lemma pow2_pos (k : Z) : (0 < 2 ^ k)%Q.
Proof. by apply Qpower_0_lt. Qed.

Lemma pow2_succ (k : Z) : (2 ^ (k + 1) == 2 * 2 ^ k)%Q.
Proof. rewrite Qpower_plus by done. rewrite Qpower_1_r. ring. Qed.

(** [2 ^ ilog2 x] is not above [|x|]. *)
Lemma ilog2_lower (x : Q) : ¬ (x == 0)%Q → (2 ^ ilog2 x <= Qabs x)%Q.
Proof.
  intros Hx. unfold ilog2. cbv zeta.
  set (n := Z.abs (Qnum x)). set (d := Z.pos (Qden x)).
  destruct (Qle_bool (2 ^ (Z.log2 n - Z.log2 d)) (Qabs x)) eqn:Hle.
  { by apply Qle_bool_iff. }
  assert (0 < n) as Hn.
  { subst n. destruct x as [[|p|p] q]; [|done..]. exfalso. by apply Hx. }
  destruct (Z.log2_spec n Hn) as [Hlo _].
  destruct (Z.log2_spec d ltac:(done)) as [_ Hhi].
  pose proof (Z.log2_nonneg n) as Ha. pose proof (Z.log2_nonneg d) as Hb.
  assert (Qabs x == inject_Z n / inject_Z d)%Q as ->.
  { destruct x as [xn xd]. unfold Qabs, n, d. cbn [Qnum Qden].
    rewrite (Qmake_Qdiv (Z.abs xn) xd). reflexivity. }
  assert (0 < inject_Z d)%Q as Hd.
  { change 0%Q with (inject_Z 0). rewrite <-Zlt_Qlt. done. }
  apply Qle_shift_div_l; [done|].
  rewrite Zle_Qle in Hlo. rewrite Zlt_Qlt in Hhi.
  rewrite Zpower_Qpower in Hlo by done.
  rewrite <-Z.add_1_r in Hhi.
  rewrite Zpower_Qpower in Hhi by lia.
  change (inject_Z 2) with 2%Q in *.
  assert (2 ^ Z.log2 n == 2 ^ (Z.log2 n - Z.log2 d - 1) * 2 ^ (Z.log2 d + 1))%Q as Hsplit.
  { rewrite <-Qpower_plus by done. f_equiv. lia. }
  pose proof (pow2_pos (Z.log2 n - Z.log2 d - 1)).
  rewrite Hsplit in Hlo. nra.
Qed.

Lemma ilog2_le (x : Q) (K : Z) :
  ¬ (x == 0)%Q → (Qabs x <= 2 ^ K)%Q → ilog2 x ≤ K.
Proof.
  intros Hx HK. pose proof (ilog2_lower x Hx) as Hlo.
  apply (Qpower_le_compat_l_inv 2); [lra|done].
Qed.

(** Rounding to binary64 moves a value by at most half a unit in the last
    place. *)
Lemma round64_error (x : Q) (K : Z) :
  -1022 ≤ K → (Qabs x <= 2 ^ K)%Q → (Qabs (round64 x - x) <= 2 ^ (K - 53))%Q.
Proof.
  intros HK Hx. unfold round64. cbv zeta.
  pose proof (Qred_correct x) as Hred.
  destruct (Qeq_bool (Qred x) 0) eqn:H0.
  { apply Qeq_bool_iff in H0. rewrite <-Hred, H0.
    pose proof (pow2_pos (K - 53)). change (Qabs (0 - 0)) with 0%Q. lra. }
  apply Qeq_bool_neq in H0.
  set (u := (2 ^ ulp_exponent (Qred x))%Q).
  assert (0 < u)%Q as Hu by apply pow2_pos.
  assert (u <= 2 ^ (K - 52))%Q as HuK.
  { apply Qpower_le_compat_l; [|lra]. unfold ulp_exponent.
    assert (ilog2 (Qred x) ≤ K); [|lia].
    apply ilog2_le; [done|]. by rewrite Hred. }
  assert (2 ^ (K - 52) == 2 * 2 ^ (K - 53))%Q as Hhalf.
  { rewrite <-pow2_succ. f_equiv. lia. }
  pose proof (round_half (Qred x / u)) as Hr.
  apply Qabs_Qle_condition in Hr. apply Qabs_Qle_condition.
  set (r := inject_Z (Py.round (Qred x / u))) in *.
  set (y := (Qred x / u)%Q) in *.
  assert (y * u == x)%Q as Hxu by (rewrite <-Hred; unfold y; field; lra).
  assert ((r - y) * u <= (1 # 2) * u)%Q by (apply Qmult_le_compat_r; lra).
  assert (- (1 # 2) * u <= (r - y) * u)%Q by (apply Qmult_le_compat_r; lra).
  split; lra.
Qed.

(** Rounding a value of magnitude at most [2 ^ 26] moves it by at most
    [2 ^ -27]. *)
Lemma round64_close (x : Q) :
  (-67108864 <= x <= 67108864)%Q →
  (x - (1 # 134217728) <= round64 x <= x + (1 # 134217728))%Q.
Proof.
  intros Hx. pose proof (round64_error x 26 ltac:(lia)) as Herr.
  assert (Qabs x <= 2 ^ 26)%Q as Habs.
  { apply Qabs_Qle_condition. change (2 ^ 26)%Q with 67108864%Q. lra. }
  specialize (Herr Habs). apply Qabs_Qle_condition in Herr.
  change (2 ^ (26 - 53))%Q with (1 # 134217728)%Q in Herr. lra.
Qed.

Lemma round64_proper (x y : Q) : (x == y)%Q → round64 x = round64 y.
Proof. intros Hxy. unfold round64. by rewrite (Qred_complete x y Hxy). Qed.

End F64Proofs.

(** ** The AQI calculator *)

Module AQIProofs.
Import AQI.

Lemma loop_body_spec pollutant data max_aqi :
  loop_body pollutant data max_aqi =
    match pollutant_sub_index pollutant data with
    | Some a => Z.max max_aqi a
    | None => max_aqi
    end.
Proof.
  unfold loop_body, pollutant_sub_index.
  destruct (breakpoints !! pollutant); [|done].
  by destruct (value data).
Qed.

Lemma loop_body_comm p1 d1 p2 d2 acc :
  loop_body p1 d1 (loop_body p2 d2 acc) = loop_body p2 d2 (loop_body p1 d1 acc).
Proof.
  rewrite !loop_body_spec.
  destruct (pollutant_sub_index p1 d1), (pollutant_sub_index p2 d2); lia.
Qed.

(** The conditional of the last line is a plain maximum with 50, and the
    early return for the empty dict agrees with it. *)
Lemma calculate_aqi_fold (pollutants : gmap string PollutantDict) :
  calculate_aqi pollutants = Z.max 50 (map_fold loop_body 0 pollutants).
Proof.
  unfold calculate_aqi. case_bool_decide as Hsz.
  - apply map_size_empty_inv in Hsz. subst. by rewrite map_fold_empty.
  - simpl. destruct (Z.ltb_spec 0 (map_fold loop_body 0 pollutants)); lia.
Qed.

(** The accumulator after the loop: non-negative, an upper bound of every
    sub-index, and either the initial 0 or one of the sub-indices. *)
Lemma fold_is_max (pollutants : gmap string PollutantDict) :
  let acc := map_fold loop_body 0 pollutants in
  0 ≤ acc
  ∧ (∀ p d a, pollutants !! p = Some d → pollutant_sub_index p d = Some a → a ≤ acc)
  ∧ (acc = 0 ∨ ∃ p d, pollutants !! p = Some d ∧ pollutant_sub_index p d = Some acc).
Proof.
  apply (map_fold_weak_ind (λ acc (m : gmap string PollutantDict),
    0 ≤ acc
    ∧ (∀ p d a, m !! p = Some d → pollutant_sub_index p d = Some a → a ≤ acc)
    ∧ (acc = 0 ∨ ∃ p d, m !! p = Some d ∧ pollutant_sub_index p d = Some acc))).
  - split; [lia|]. split; [|by left]. intros p d a Hp. by rewrite lookup_empty in Hp.
  - intros i x m r Hi (Hr & Hub & Hwit). rewrite loop_body_spec.
    destruct (pollutant_sub_index i x) as [a|] eqn:Hsub.
    + split; [lia|]. split.
      * intros p d b Hp Hb. destruct (decide (i = p)) as [->|Hne].
        -- rewrite lookup_insert_eq in Hp. simplify_eq. lia.
        -- rewrite lookup_insert_ne in Hp by done. specialize (Hub _ _ _ Hp Hb). lia.
      * destruct (Z.max_spec r a) as [[Hlt ->]|[Hle ->]].
        -- right. exists i, x. by rewrite lookup_insert_eq.
        -- destruct Hwit as [->|(p & d & Hp & Hd)]; [by left|].
           right. exists p, d. split; [|done].
           rewrite lookup_insert_ne; [done|]. intros ->. congruence.
    + split; [done|]. split.
      * intros p d b Hp Hb. destruct (decide (i = p)) as [->|Hne].
        -- rewrite lookup_insert_eq in Hp. simplify_eq.
        -- rewrite lookup_insert_ne in Hp by done. eauto.
      * destruct Hwit as [->|(p & d & Hp & Hd)]; [by left|].
        right. exists p, d. split; [|done].
        rewrite lookup_insert_ne; [done|]. intros ->. congruence.
Qed.

(** C6: [calculate_aqi] is not monotone in a concentration.  The PM2.5
    table has no segment between 35.4 and 35.5: the reading 35.4 ends the
    second segment (index 100), the larger reading 35.45 falls in no segment
    and is not above the table, so it gets no sub-index and the result drops
    to the floor 50. *)
Theorem calculate_aqi_gap_breaks_monotonicity :
  (35.4 <= 35.45)%Q
  ∧ breakpoints !! "pm25" = Some pm25_table
  ∧ sub_index pm25_table 35.4 = Some 100
  ∧ sub_index pm25_table 35.45 = None
  ∧ calculate_aqi (single "pm25" 35.4) = 100
  ∧ calculate_aqi (single "pm25" 35.45) = 50.
Proof. repeat split; vm_compute; congruence. Qed.

Lemma breakpoints_cases (P : list Segment → Prop) :
  P pm25_table → P pm10_table → P o3_table → P no2_table → P so2_table → P co_table →
  ∀ p tbl, breakpoints !! p = Some tbl → P tbl.
Proof.
  intros ?????? p tbl Hp. apply elem_of_list_to_map_2 in Hp.
  unfold breakpoints_items in Hp.
  repeat (apply elem_of_cons in Hp as [Hp|Hp]; [by simplify_eq|]).
  by apply elem_of_nil in Hp.
Qed.





(** An entry without a sub-index does not change the result. *)
Lemma calculate_aqi_insert_no_sub_index (pollutants : gmap string PollutantDict) p d :
  pollutant_sub_index p d = None →
  calculate_aqi (<[p := d]> pollutants) = calculate_aqi (delete p pollutants).
Proof.
  intros Hnone. rewrite !calculate_aqi_fold. f_equal.
  rewrite <-insert_delete_eq.
  rewrite map_fold_insert_L.
  - by rewrite loop_body_spec, Hnone.
  - intros. apply loop_body_comm.
  - apply lookup_delete_eq.
Qed.

(** *** Monotonicity away from the gaps *)

Lemma interpolate_low (s : Segment) :
  segment_ok s → (interpolate s (bp_low s) == inject_Z (aqi_low s))%Q.
Proof. intros [Hw _]. unfold interpolate. field. lra. Qed.

Lemma interpolate_high (s : Segment) :
  segment_ok s → (interpolate s (bp_high s) == inject_Z (aqi_high s))%Q.
Proof.
  intros [Hw _]. unfold interpolate, Z.sub.
  rewrite inject_Z_plus, inject_Z_opp. field. lra.
Qed.

Lemma interpolate_mono (s : Segment) (c1 c2 : Q) :
  segment_ok s → (c1 <= c2)%Q → (interpolate s c1 <= interpolate s c2)%Q.
Proof.
  intros [Hw Ha] Hc. unfold interpolate.
  assert (0 <= inject_Z (aqi_high s - aqi_low s) / (bp_high s - bp_low s))%Q as Hslope.
  { apply Qle_shift_div_l; [lra|]. rewrite Qmult_0_l.
    change 0%Q with (inject_Z 0). rewrite <-Zle_Qle. lia. }
  set (k := (inject_Z (aqi_high s - aqi_low s) / (bp_high s - bp_low s))%Q) in *.
  assert (k * (c1 - bp_low s) <= k * (c2 - bp_low s))%Q; [|lra].
  rewrite !(Qmult_comm k). apply Qmult_le_compat_r; lra.
Qed.

Lemma in_segment_iff (s : Segment) (c : Q) :
  in_segment s c = true ↔ (bp_low s <= c <= bp_high s)%Q.
Proof.
  unfold in_segment, Py.leb. rewrite andb_true_iff, !Qle_bool_iff. done.
Qed.

(** Inside a segment the rounded interpolation stays between the two
    indices of the segment. *)
Lemma round_interpolate_bounds (s : Segment) (c : Q) :
  segment_ok s → in_segment s c = true →
  aqi_low s ≤ Py.round (interpolate s c) ≤ aqi_high s.
Proof.
  intros Hok [Hlo Hhi]%in_segment_iff.
  rewrite <-(PyProofs.round_inject_Z (aqi_low s)), <-(PyProofs.round_inject_Z (aqi_high s)).
  rewrite <-(PyProofs.round_proper _ _ (interpolate_low s Hok)).
  rewrite <-(PyProofs.round_proper _ _ (interpolate_high s Hok)).
  split; apply PyProofs.round_mono; by apply interpolate_mono.
Qed.

Lemma breakpoints_ordered p tbl : breakpoints !! p = Some tbl → table_ordered tbl.
Proof.
  revert p tbl. apply breakpoints_cases; cbn;
    repeat (first [split | constructor]); by vm_compute.
Qed.

Lemma table_ordered_segments tbl s :
  table_ordered tbl → s ∈ tbl → segment_ok s ∧ aqi_high s ≤ 500.
Proof.
  induction tbl as [|s0 rest IH]; intros Hord Hs; [by apply elem_of_nil in Hs|].
  destruct Hord as (Hok & H500 & _ & Hrest).
  apply elem_of_cons in Hs as [->|Hs]; [done|apply IH; assumption].
Qed.

Lemma table_ordered_last_high tbl s :
  table_ordered tbl → s ∈ tbl → (bp_high s <= last_high tbl)%Q.
Proof.
  unfold last_high. revert s.
  induction tbl as [|s0 rest IH]; intros s Hord Hs; [by apply elem_of_nil in Hs|].
  destruct Hord as (Hok & _ & Hnext & Hrest).
  destruct rest as [|s1 rest].
  - apply list_elem_of_singleton in Hs as ->. simpl. lra.
  - change (List.last (s0 :: s1 :: rest) _) with (List.last (s1 :: rest) (mkSeg 0 0 0 0)).
    apply elem_of_cons in Hs as [->|Hs]; [|apply IH; assumption].
    apply Forall_cons in Hnext as [[Hlt _] _].
    assert (bp_high s1 <= bp_high (List.last (s1 :: rest) (mkSeg 0 0 0 0)))%Q
      by (apply IH; [assumption|apply elem_of_cons; by left]).
    destruct Hrest as ([Hw _] & _). lra.
Qed.

Lemma find_breakpoint_Some tbl c a :
  find_breakpoint tbl c = Some a →
  ∃ s, s ∈ tbl ∧ in_segment s c = true ∧ a = Py.round (interpolate s c).
Proof.
  induction tbl as [|s rest IH]; [done|]. simpl.
  destruct (in_segment s c) eqn:Hin.
  - intros [= <-]. exists s. split; [apply elem_of_cons; by left|done].
  - intros (s' & Hs' & Hrest)%IH. exists s'. split; [apply elem_of_cons; by right|done].
Qed.

Lemma find_breakpoint_None tbl c s :
  find_breakpoint tbl c = None → s ∈ tbl → in_segment s c = false.
Proof.
  induction tbl as [|s0 rest IH]; intros Hfind Hs; [by apply elem_of_nil in Hs|].
  simpl in Hfind. destruct (in_segment s0 c) eqn:Hin; [done|].
  apply elem_of_cons in Hs as [->|Hs]; [done|by apply IH].
Qed.

(** Across the segments of an ordered table the rounded interpolation is
    monotone. *)
Lemma segments_mono tbl s1 s2 c1 c2 :
  table_ordered tbl → s1 ∈ tbl → s2 ∈ tbl →
  in_segment s1 c1 = true → in_segment s2 c2 = true → (c1 <= c2)%Q →
  Py.round (interpolate s1 c1) ≤ Py.round (interpolate s2 c2).
Proof.
  induction tbl as [|s rest IH]; intros Hord H1 H2 Hin1 Hin2 Hc;
    [by apply elem_of_nil in H1|].
  pose proof Hord as (Hok & _ & Hnext & Hrest).
  apply elem_of_cons in H1 as [->|H1], H2 as [->|H2].
  - apply PyProofs.round_mono. by apply interpolate_mono.
  - rewrite Forall_forall in Hnext. destruct (Hnext _ H2) as [_ Hidx].
    destruct (table_ordered_segments _ _ Hrest H2) as [Hok2 _].
    pose proof (round_interpolate_bounds _ _ Hok Hin1).
    pose proof (round_interpolate_bounds _ _ Hok2 Hin2). lia.
  - rewrite Forall_forall in Hnext. destruct (Hnext _ H1) as [Hlt _].
    apply in_segment_iff in Hin1, Hin2. lra.
  - apply IH; assumption.
Qed.

(** Between two concentrations that both get a sub-index, the sub-index is
    monotone. *)
Lemma sub_index_mono tbl c1 c2 a1 a2 :
  table_ordered tbl → (c1 <= c2)%Q →
  sub_index tbl c1 = Some a1 → sub_index tbl c2 = Some a2 → a1 ≤ a2.
Proof.
  intros Hord Hc. unfold sub_index.
  destruct (find_breakpoint tbl c1) as [b1|] eqn:Hf1,
           (find_breakpoint tbl c2) as [b2|] eqn:Hf2.
  - intros [= <-] [= <-].
    apply find_breakpoint_Some in Hf1 as (s1 & H1 & Hin1 & ->).
    apply find_breakpoint_Some in Hf2 as (s2 & H2 & Hin2 & ->).
    by apply (segments_mono tbl).
  - intros [= <-]. destruct (Py.ltb _ _); [|done]. intros [= <-].
    apply find_breakpoint_Some in Hf1 as (s1 & H1 & Hin1 & ->).
    destruct (table_ordered_segments _ _ Hord H1) as [Hok H500].
    pose proof (round_interpolate_bounds _ _ Hok Hin1). lia.
  - destruct (Py.ltb (last_high tbl) c1) eqn:Habove; [|done].
    intros _ [= <-].
    apply find_breakpoint_Some in Hf2 as (s2 & H2 & Hin2 & _).
    apply PyProofs.ltb_iff in Habove. apply in_segment_iff in Hin2.
    pose proof (table_ordered_last_high _ _ Hord H2). lra.
  - destruct (Py.ltb _ c1), (Py.ltb _ c2); try done. by intros [= <-] [= <-].
Qed.

(** Monotonicity of [calculate_aqi] away from the gaps: raising the
    concentration of one pollutant does not lower the result, provided the
    new concentration still gets a sub-index (it falls in a segment of the
    table or above the table). *)
Theorem calculate_aqi_mono_covered (pollutants : gmap string PollutantDict)
    (p : string) (d1 d2 : PollutantDict) (c1 c2 : Q) :
  value d1 = Some c1 → value d2 = Some c2 → (c1 <= c2)%Q →
  (is_Some (pollutant_sub_index p d1) → is_Some (pollutant_sub_index p d2)) →
  calculate_aqi (<[p := d1]> pollutants) ≤ calculate_aqi (<[p := d2]> pollutants).
Proof.
  intros Hd1 Hd2 Hc Hcov. rewrite !calculate_aqi_fold.
  rewrite <-(insert_delete_eq pollutants p d1), <-(insert_delete_eq pollutants p d2).
  rewrite !map_fold_insert_L;
    [|intros; apply loop_body_comm|apply lookup_delete_eq
     |intros; apply loop_body_comm|apply lookup_delete_eq].
  rewrite !loop_body_spec.
  destruct (pollutant_sub_index p d1) as [a1|] eqn:H1.
  - destruct Hcov as [a2 H2]; [by eauto|]. rewrite H2.
    unfold pollutant_sub_index in H1, H2. rewrite Hd1 in H1. rewrite Hd2 in H2.
    destruct (breakpoints !! p) as [tbl|] eqn:Hp; [|done].
    pose proof (sub_index_mono tbl c1 c2 a1 a2 (breakpoints_ordered p tbl Hp) Hc H1 H2).
    lia.
  - destruct (pollutant_sub_index p d2); lia.
Qed.

Lemma calculate_aqi_mono_covered_witness :
  calculate_aqi (<["pm25" := mkPollutant (Some 10%Q) "µg/m³" ["TEMPO"]]> ∅)
  ≤ calculate_aqi (<["pm25" := mkPollutant (Some 20%Q) "µg/m³" ["TEMPO"]]> ∅).
Proof.
  apply (calculate_aqi_mono_covered ∅ "pm25" _ _ 10 20).
  - reflexivity.
  - reflexivity.
  - by vm_compute.
  - intros _. vm_compute. by eexists.
Defined.

(** *** Segment bounds and range *)

(** At the two bounds of every segment of every table the sub-index is the
    index the table gives for that bound. *)
Theorem sub_index_at_segment_bounds p tbl s :
  breakpoints !! p = Some tbl → s ∈ tbl →
  sub_index tbl (bp_low s) = Some (aqi_low s)
  ∧ sub_index tbl (bp_high s) = Some (aqi_high s).
Proof.
  intros Hp. revert s. rewrite <-Forall_forall. revert p tbl Hp.
  apply breakpoints_cases; repeat constructor; by vm_compute.
Qed.

Lemma sub_index_at_segment_bounds_witness :
  sub_index pm25_table 35.4 = Some 100 ∧ sub_index pm25_table 35.5 = Some 101.
Proof.
  destruct (sub_index_at_segment_bounds "pm25" pm25_table (mkSeg 12.1 35.4 51 100))
    as [_ Hhigh]; [reflexivity | repeat constructor |].
  destruct (sub_index_at_segment_bounds "pm25" pm25_table (mkSeg 35.5 55.4 101 150))
    as [Hlow _]; [reflexivity | repeat constructor |].
  split; [exact Hhigh | exact Hlow].
Defined.

Lemma sub_index_le_500 tbl c a :
  table_ordered tbl → sub_index tbl c = Some a → a ≤ 500.
Proof.
  intros Hord. unfold sub_index.
  destruct (find_breakpoint tbl c) as [b|] eqn:Hf.
  - intros [= <-]. apply find_breakpoint_Some in Hf as (s & Hs & Hin & ->).
    destruct (table_ordered_segments _ _ Hord Hs) as [Hok H500].
    pose proof (round_interpolate_bounds _ _ Hok Hin). lia.
  - destruct (Py.ltb _ _); [|done]. intros [= <-]. lia.
Qed.

(** The result of [calculate_aqi] always lies between 50 and 500. *)
Theorem calculate_aqi_range (pollutants : gmap string PollutantDict) :
  50 ≤ calculate_aqi pollutants ≤ 500.
Proof.
  rewrite calculate_aqi_fold.
  destruct (fold_is_max pollutants) as (_ & _ & [->|(p & d & _ & Hsub)]); [lia|].
  unfold pollutant_sub_index in Hsub.
  destruct (breakpoints !! p) as [tbl|] eqn:Hp; [|done].
  destruct (value d) as [c|]; [|done].
  pose proof (sub_index_le_500 tbl c _ (breakpoints_ordered p tbl Hp) Hsub). lia.
Qed.

(** *** Concentrations below the table *)







End AQIProofs.

(** ** The health advisory *)

Module AdviceProofs.
Import Advice.

(** The six texts that [base_advice] can select. *)
Lemma base_advice_cases (P : AdviceDict → Prop) :
  P (base_advice 50) → P (base_advice 100) → P (base_advice 150) →
  P (base_advice 200) → P (base_advice 300) → P (base_advice 301) →
  ∀ aqi, P (base_advice aqi).
Proof.
  intros H1 H2 H3 H4 H5 H6 aqi. unfold base_advice in *.
  destruct (Z.leb_spec aqi 50); [exact H1|].
  destruct (Z.leb_spec aqi 100); [exact H2|].
  destruct (Z.leb_spec aqi 150); [exact H3|].
  destruct (Z.leb_spec aqi 200); [exact H4|].
  destruct (Z.leb_spec aqi 300); [exact H5|exact H6].
Qed.

(** No band text contains a weather note, with or without the notes
    appended after it. *)
Lemma notes_in_general (aqi : Z) (w r : bool) :
  let text := general (base_advice aqi) ++ (if w then wind_note else "")
                ++ (if r then rain_note else "") in
  contains wind_note text = w ∧ contains rain_note text = r.
Proof.
  simpl. pattern (base_advice aqi). revert aqi.
  apply base_advice_cases; destruct w, r; by vm_compute.
Qed.

Lemma append_empty_r (s : string) : s ++ "" = s.
Proof.
  induction s as [|a s IH]; [reflexivity|].
  change (String a (s ++ "") = String a s). by rewrite IH.
Qed.

Lemma append_assoc (a b c : string) : (a ++ b) ++ c = a ++ (b ++ c).
Proof.
  induction a as [|x a IH]; [reflexivity|].
  change (String x ((a ++ b) ++ c) = String x (a ++ (b ++ c))). by rewrite IH.
Qed.

(** Every AQI value has the category and the texts of one of six
    representatives, one per band. *)
Lemma band_cases (aqi : Z) :
  ∃ rep, rep ∈ [50; 100; 150; 200; 300; 301]
         ∧ API.get_aqi_category aqi = API.get_aqi_category rep
         ∧ base_advice aqi = base_advice rep.
Proof.
  unfold API.get_aqi_category at 1, base_advice at 1.
  destruct (Z.leb_spec aqi 50);
    [exists 50; split; [set_solver | split; reflexivity]|].
  destruct (Z.leb_spec aqi 100);
    [exists 100; split; [set_solver | split; reflexivity]|].
  destruct (Z.leb_spec aqi 150);
    [exists 150; split; [set_solver | split; reflexivity]|].
  destruct (Z.leb_spec aqi 200);
    [exists 200; split; [set_solver | split; reflexivity]|].
  destruct (Z.leb_spec aqi 300);
    [exists 300; split; [set_solver | split; reflexivity]|].
  exists 301; split; [set_solver | split; reflexivity].
Qed.

Lemma general_decomposition aqi weather_data :
  general (get_health_advice aqi weather_data) =
    general (base_advice aqi)
    ++ (if Py.ltb 5 (WeatherDict.get WeatherDict.wind_speed_ms 0%Q weather_data)
        then wind_note else "")
    ++ (if Py.ltb 2 (WeatherDict.get WeatherDict.precip_mm 0%Q weather_data)
        then rain_note else "").
Proof.
  unfold get_health_advice. simpl.
  destruct (Py.ltb 5 _), (Py.ltb 2 _);
    rewrite ?append_empty_r, ?append_assoc; reflexivity.
Qed.

(** C9: the general statement is the band text followed by the dispersal
    note exactly when [wind_speed_ms > 5.0] and by the clearing note exactly
    when [precip_mm > 2.0]; each note occurs in it if and only if its
    condition holds; the profile texts are those of the band, whatever the
    weather, and two AQI values of one band get the same profiles. *)
Theorem health_advice_weather_modifiers (aqi : Z) (weather_data : WeatherDict.t) :
  let wind_speed := WeatherDict.get WeatherDict.wind_speed_ms 0%Q weather_data in
  let precipitation := WeatherDict.get WeatherDict.precip_mm 0%Q weather_data in
  let advice := get_health_advice aqi weather_data in
  general advice =
    general (base_advice aqi)
    ++ (if Py.ltb 5 wind_speed then wind_note else "")
    ++ (if Py.ltb 2 precipitation then rain_note else "")
  ∧ (contains wind_note (general advice) = true ↔ (5 < wind_speed)%Q)
  ∧ (contains rain_note (general advice) = true ↔ (2 < precipitation)%Q)
  ∧ (∀ weather_data', profiles (get_health_advice aqi weather_data') = profiles advice)
  ∧ (∀ aqi' weather_data',
       API.get_aqi_category aqi' = API.get_aqi_category aqi →
       profiles (get_health_advice aqi' weather_data') = profiles advice).
Proof.
  intros wind_speed precipitation advice. subst advice.
  rewrite general_decomposition. fold wind_speed precipitation.
  destruct (notes_in_general aqi (Py.ltb 5 wind_speed) (Py.ltb 2 precipitation))
    as [Hw Hr].
  split; [done|]. split; [by rewrite Hw; apply PyProofs.ltb_iff|].
  split; [by rewrite Hr; apply PyProofs.ltb_iff|].
  split; [done|].
  intros aqi' w' Hband. unfold get_health_advice. cbn [profiles].
  destruct (band_cases aqi) as (rep & Hrep & Hcat & ->),
    (band_cases aqi') as (rep' & Hrep' & Hcat' & ->).
  rewrite Hcat, Hcat' in Hband. clear Hcat Hcat'.
  repeat (apply elem_of_cons in Hrep as [->|Hrep]);
    [| | | | | | by apply elem_of_nil in Hrep];
    (repeat (apply elem_of_cons in Hrep' as [->|Hrep']);
       [| | | | | | by apply elem_of_nil in Hrep'];
     first [reflexivity | discriminate Hband]).
Qed.

End AdviceProofs.

(** ** The result cache *)

Module CacheProofs.
Import Cache.

Section WithValue.
Context {V : Type}.
Implicit Types (self : CacheService V) (key : string) (now : Q).

Lemma expired_iff self now timestamp :
  expired self now timestamp = true ↔ (inject_Z (ttl self) < now - timestamp)%Q.
Proof. apply PyProofs.ltb_iff. Qed.

Lemma consistent_lookup self key :
  consistent self → is_Some (_cache self !! key) ↔ is_Some (_timestamps self !! key).
Proof. unfold consistent. intros Hdom. by rewrite <-!elem_of_dom, Hdom. Qed.

Lemma consistent_size self :
  consistent self → size self = Z.of_nat (stdpp.base.size (_timestamps self)).
Proof.
  unfold consistent, size. intros Hdom.
  by rewrite <-(size_dom (D := gset string) (_cache self)), Hdom, size_dom.
Qed.

Lemma get_consistent now key self :
  consistent self →
  (∃ r, (get now key self).1 = Py.Ok r) ∧ consistent (get now key self).2.
Proof.
  intros Hc. unfold get.
  destruct (_cache self !! key) as [v|] eqn:Hv; [|by eauto].
  destruct (proj1 (consistent_lookup self key Hc)) as [ts Hts]; [by eauto|].
  rewrite Hts. destruct (expired self now ts); simpl; [|by eauto].
  split; [by eauto|]. unfold consistent in *. simpl.
  by rewrite !dom_delete_L, Hc.
Qed.

Lemma set_consistent now key (value : V) self :
  consistent self → consistent (set now key value self).
Proof. unfold consistent, set. simpl. intros Hc. by rewrite !dom_insert_L, Hc. Qed.

Lemma init_consistent cache_ttl_seconds : consistent (init (V := V) cache_ttl_seconds).
Proof. reflexivity. Qed.

Lemma clear_consistent self : consistent (clear self).
Proof. unfold consistent, clear. simpl. by rewrite !dom_empty_L. Qed.

(** The deletion loop on distinct keys that all have a timestamp: it
    raises nothing, counts the keys, and removes them from both stores. *)
Lemma remove_loop_ok (keys : list string) (removed_count : Z) self :
  consistent self → NoDup keys →
  (∀ k, k ∈ keys → is_Some (_timestamps self !! k)) →
  ∃ self',
    remove_loop keys removed_count self
      = (Py.Ok (removed_count + Z.of_nat (length keys)), self')
    ∧ consistent self'
    ∧ size self' = size self - Z.of_nat (length keys)
    ∧ (∀ k, _cache self' !! k = if decide (k ∈ keys) then None else _cache self !! k).
Proof.
  revert removed_count self.
  induction keys as [|key rest IH]; intros removed_count self Hc Hnd Hin.
  - exists self. split; [simpl; by rewrite Z.add_0_r|]. split; [done|].
    split; [simpl; lia|]. intros k. case_decide as Hk; [|done].
    by apply not_elem_of_nil in Hk.
  - apply NoDup_cons in Hnd as [Hfresh Hnd].
    assert (is_Some (_timestamps self !! key)) as [ts Hts]
      by (apply Hin; apply elem_of_cons; by left).
    destruct (proj2 (consistent_lookup self key Hc)) as [v Hv]; [by eauto|].
    simpl. rewrite Hv. simpl. rewrite Hts.
    set (self2 := mkCache (delete key (_cache self))
                    (delete key (_timestamps self)) (ttl self)).
    destruct (IH (removed_count + 1) self2) as (self' & Hrun & Hc' & Hsz & Hlk).
    + unfold consistent in *. simpl. by rewrite !dom_delete_L, Hc.
    + done.
    + intros k Hk. simpl. rewrite lookup_delete_ne.
      * apply Hin. apply elem_of_cons. by right.
      * intros ->. done.
    + exists self'. split; [rewrite Hrun; do 2 f_equal; lia|].
      split; [done|]. split.
      * rewrite Hsz. unfold size. simpl.
        rewrite map_size_delete_Some by eauto.
        assert (stdpp.base.size (_cache self) ≠ 0%nat)
          by (apply map_size_ne_0_lookup; eauto). lia.
      * intros k. rewrite Hlk. unfold self2; cbn [_cache].
        destruct (decide (k = key)) as [->|Hne].
        -- rewrite lookup_delete_eq.
           repeat case_decide; try done.
           exfalso. apply H0. apply elem_of_cons. by left.
        -- rewrite lookup_delete_ne by done.
           repeat case_decide; try done.
           ++ exfalso. apply H0. apply elem_of_cons. by right.
           ++ apply elem_of_cons in H0 as [?|?]; done.
Qed.

Lemma filter_fst_NoDup {A} (f : string * A → bool) (l : list (string * A)) :
  NoDup l.*1 → NoDup (List.filter f l).*1.
Proof.
  induction l as [|x l IH]; [done|]. simpl. intros [Hx Hl]%NoDup_cons.
  destruct (f x); [|by auto]. simpl. apply NoDup_cons. split; [|by auto].
  intros Hin. apply Hx. apply list_elem_of_fmap in Hin as (y & -> & Hy).
  apply list_elem_of_fmap. exists y. split; [done|].
  apply list_elem_of_In. apply list_elem_of_In, filter_In in Hy. tauto.
Qed.

Lemma elem_of_expired_keys now self key :
  key ∈ expired_keys now self ↔
    ∃ timestamp, _timestamps self !! key = Some timestamp
                 ∧ expired self now timestamp = true.
Proof.
  unfold expired_keys. rewrite list_elem_of_fmap. split.
  - intros ([k ts] & -> & Hin). apply list_elem_of_In, filter_In in Hin as [Hin Hexp].
    apply list_elem_of_In, elem_of_map_to_list in Hin. by exists ts.
  - intros (ts & Hts & Hexp). exists (key, ts). split; [done|].
    apply list_elem_of_In, filter_In. split; [|done].
    by apply list_elem_of_In, elem_of_map_to_list.
Qed.

Lemma cleanup_expired_ok now self :
  consistent self →
  ∃ self',
    cleanup_expired now self
      = (Py.Ok (Z.of_nat (length (expired_keys now self))), self')
    ∧ consistent self'
    ∧ size self' = size self - Z.of_nat (length (expired_keys now self))
    ∧ (∀ k, _cache self' !! k =
              if decide (k ∈ expired_keys now self) then None else _cache self !! k).
Proof.
  intros Hc. unfold cleanup_expired.
  destruct (remove_loop_ok (expired_keys now self) 0 self Hc) as (self' & Hrun & Hrest).
  - apply filter_fst_NoDup, NoDup_fst_map_to_list.
  - intros k (ts & Hts & _)%elem_of_expired_keys. by eauto.
  - exists self'. by rewrite Hrun.
Qed.

(** C10: starting from a state whose two stores hold the same keys,
    [get], [set], [clear] and [cleanup_expired] raise nothing and leave a
    state whose two stores hold the same keys; [size()] is then the number
    of entries that have a timestamp, and the count [cleanup_expired()]
    returns is the decrease of [size()] it causes. *)
Theorem cache_operations_preserve_consistency self now key (value : V) :
  consistent self →
  (∃ r, (get now key self).1 = Py.Ok r)
  ∧ consistent (get now key self).2
  ∧ consistent (set now key value self)
  ∧ consistent (clear self)
  ∧ size self = Z.of_nat (stdpp.base.size (_timestamps self))
  ∧ ∃ removed_count self',
      cleanup_expired now self = (Py.Ok removed_count, self')
      ∧ consistent self'
      ∧ removed_count = size self - size self'.
Proof.
  intros Hc. destruct (get_consistent now key self Hc) as [Hok Hget].
  split; [done|]. split; [done|].
  split; [by apply set_consistent|]. split; [apply clear_consistent|].
  split; [by apply consistent_size|].
  destruct (cleanup_expired_ok now self Hc) as (self' & Hrun & Hc' & Hsz & _).
  eexists _, self'. split; [exact Hrun|]. split; [done|]. lia.
Qed.

Lemma get_after_set now0 now key (value : V) self :
  get now key (set now0 key value self) =
    if expired self now now0
    then (Py.Ok None,
          mkCache (delete key (_cache self)) (delete key (_timestamps self)) (ttl self))
    else (Py.Ok (Some value), set now0 key value self).
Proof.
  unfold get, set. cbn [_cache _timestamps ttl].
  rewrite !lookup_insert_eq. unfold expired. cbn [ttl].
  destruct (Py.ltb _ _); [|done].
  by rewrite !delete_insert_eq.
Qed.

(** C5, as the code has it: a [get(k)] made after [set(k, v)] returns [v]
    as long as no more than [ttl] seconds have elapsed; once more have
    elapsed it returns absent and itself removes the entry, so [size()]
    drops by one at that [get] and a [cleanup_expired()] made after it does
    not find [k] any more: it decrements [size()] exactly by the count it
    returns, which may be 0.  A [cleanup_expired()] made in place of that
    [get] removes [k] and returns a count of at least 1. *)
Theorem cache_set_get_expiry self key (value : V) (t0 t1 t2 : Q) :
  consistent self →
  let self1 := set t0 key value self in
  ((t1 - t0 <= inject_Z (ttl self))%Q →
     get t1 key self1 = (Py.Ok (Some value), self1))
  ∧ ((inject_Z (ttl self) < t1 - t0)%Q →
     ∃ self2,
       get t1 key self1 = (Py.Ok None, self2)
       ∧ _cache self2 !! key = None
       ∧ size self2 = size self1 - 1
       ∧ (∃ n self3,
            cleanup_expired t2 self2 = (Py.Ok n, self3)
            ∧ 0 ≤ n ∧ size self3 = size self2 - n
            ∧ _cache self3 !! key = None)
       ∧ (∃ n self2',
            cleanup_expired t1 self1 = (Py.Ok n, self2')
            ∧ 1 ≤ n ∧ size self2' = size self1 - n
            ∧ _cache self2' !! key = None)).
Proof.
  intros Hc self1. subst self1. rewrite get_after_set. split.
  - intros Hle. destruct (expired self t1 t0) eqn:Hexp; [|done].
    apply expired_iff in Hexp. lra.
  - intros Hlt. apply expired_iff in Hlt as Hexp. rewrite Hexp.
    set (self2 := mkCache _ _ _).
    assert (consistent self2) as Hc2.
    { unfold consistent in *. simpl. by rewrite !dom_delete_L, Hc. }
    exists self2. split; [done|]. split; [apply lookup_delete_eq|]. split.
    { unfold size, set, self2. cbn [_cache].
      rewrite <-(delete_insert_eq (_cache self) key value) at 1.
      rewrite map_size_delete_Some by (rewrite lookup_insert_eq; eauto).
      assert (stdpp.base.size (<[key:=value]> (_cache self)) ≠ 0%nat)
        by (apply map_size_ne_0_lookup; exists key; rewrite lookup_insert_eq; eauto).
      lia. }
    split.
    + destruct (cleanup_expired_ok t2 self2 Hc2) as (self3 & Hrun & _ & Hsz & Hlk).
      eexists _, self3. split; [exact Hrun|]. split; [lia|]. split; [lia|].
      rewrite Hlk. case_decide; [done|]. apply lookup_delete_eq.
    + pose proof (set_consistent t0 key value self Hc) as Hc1.
      destruct (cleanup_expired_ok t1 _ Hc1) as (self2' & Hrun & _ & Hsz & Hlk).
      assert (key ∈ expired_keys t1 (set t0 key value self)) as Hin.
      { apply elem_of_expired_keys. exists t0. split; [apply lookup_insert_eq|done]. }
      eexists _, self2'. split; [exact Hrun|]. split.
      { destruct (expired_keys t1 (set t0 key value self)); [|simpl; lia].
        by apply not_elem_of_nil in Hin. }
      split; [lia|]. rewrite Hlk. by rewrite decide_True.
Qed.

End WithValue.

(** An instance of [cache_operations_preserve_consistency]: a fresh cache
    with TTL 900. *)
Lemma cache_operations_preserve_consistency_witness :
  consistent (set 0 "k" 7 (init 900))
  ∧ size (init (V := Z) 900) = 0.
Proof.
  destruct (cache_operations_preserve_consistency (init (V := Z) 900) 0 "k" 7)
    as (_ & _ & Hset & _ & Hsize & _); [reflexivity|].
  split; [exact Hset | exact Hsize].
Defined.

(** An instance of [cache_set_get_expiry]: a value set at time 0 is read
    back at time 900, the last instant before expiry. *)
Lemma cache_set_get_expiry_witness :
  get 900 "k" (set 0 "k" 7 (init 900)) = (Py.Ok (Some 7), set 0 "k" 7 (init 900)).
Proof.
  destruct (cache_set_get_expiry (init (V := Z) 900) "k" 7 0 900 901) as [Hget _];
    [reflexivity|].
  apply Hget. by vm_compute.
Defined.

(** C5 as claimed fails: in a cache holding only ["k"], set at time 0 with
    TTL 900, the [get] at time 901 returns absent and leaves size 0; the
    [cleanup_expired()] made after it at time 902 removes nothing and the
    size stays 0. *)
Lemma cleanup_after_expired_get_counterexample :
  let self1 := set 0 "k" 7 (init 900) in
  let self2 := (get 901 "k" self1).2 in
  let self3 := (cleanup_expired 902 self2).2 in
  (get 901 "k" self1).1 = Py.Ok None
  ∧ (cleanup_expired 902 self2).1 = Py.Ok 0
  ∧ size self2 = 0
  ∧ size self3 = 0.
Proof. by vm_compute. Qed.

End CacheProofs.

(** ** The forecast engine *)

Module MLProofs.
Import ML.

Lemma clamp_bounds (n : Z) : 0 ≤ clamp n ≤ 500.
Proof. unfold clamp. lia. Qed.

Lemma length_range (a b : Z) : length (range a b) = Z.to_nat (b - a).
Proof. unfold range. by rewrite length_map, length_seq. Qed.

Lemma lookup_range (a b : Z) (i : nat) (h : Z) :
  range a b !! i = Some h → h = a + Z.of_nat i.
Proof.
  unfold range. change (List.map ?f ?l) with (f <$> l).
  rewrite list_lookup_fmap. intros Hh.
  apply fmap_Some in Hh as (k & Hk & ->).
  apply lookup_seq in Hk as [-> _]. done.
Qed.

(** The loop of [_simple_forecast] appends one point per hour. *)
Lemma simple_loop_spec env weather_data hs forecast :
  simple_loop env weather_data hs forecast =
    (forecast ++ List.map (simple_point env weather_data) hs)%list.
Proof.
  revert forecast. induction hs as [|h rest IH]; intros forecast; simpl.
  - by rewrite app_nil_r.
  - by rewrite IH, <-app_assoc.
Qed.

Lemma simple_forecast_spec env weather_data hours :
  _simple_forecast env weather_data hours =
    List.map (simple_point env weather_data) (range 1 (hours + 1)).
Proof. unfold _simple_forecast. by rewrite simple_loop_spec. Qed.

Lemma well_shaped_nil now : well_shaped now [] [].
Proof. split; [done|constructor]. Qed.

Lemma well_shaped_snoc now hs forecast h p :
  well_shaped now hs forecast → t p = now + hours_delta h → 0 ≤ aqi p ≤ 500 →
  well_shaped now (hs ++ [h]) (forecast ++ [p]).
Proof.
  intros [Ht Ha] Hp Hb. split.
  - rewrite !map_app, Ht. simpl. by rewrite Hp.
  - apply Forall_app. split; [done|]. by constructor.
Qed.

Lemma simple_forecast_well_shaped env weather_data hours :
  well_shaped (now_simple env) (range 1 (hours + 1))
    (_simple_forecast env weather_data hours).
Proof.
  rewrite simple_forecast_spec. split.
  - rewrite List.map_map. done.
  - apply Forall_forall. intros p Hp.
    apply list_elem_of_In, in_map_iff in Hp as (h & <- & _). apply clamp_bounds.
Qed.

Section WithSklearn.
Context `{Sklearn}.

Lemma model_loop_well_shaped env model historical_data weather_data done_hs hs
    forecast result :
  well_shaped (now_model env) done_hs forecast →
  model_loop env model historical_data weather_data hs forecast = Py.Ok result →
  well_shaped (now_model env) (done_hs ++ hs) result.
Proof.
  revert done_hs forecast.
  induction hs as [|h rest IH]; intros done_hs forecast Hws Hrun; simpl in Hrun.
  - simplify_eq. by rewrite app_nil_r.
  - destruct (predict model _) as [predicted_aqi|e] eqn:Hpred; [|done].
    simpl in Hrun. apply IH with (done_hs := (done_hs ++ [h])%list) in Hrun.
    + by rewrite <-app_assoc in Hrun.
    + apply well_shaped_snoc; [done|done|apply clamp_bounds].
Qed.

Lemma predict_forecast_well_shaped env lat lon historical_data weather_data hours :
  ∃ now, (now = now_model env ∨ now = now_simple env)
         ∧ well_shaped now (range 1 (hours + 1))
             (predict_forecast env lat lon historical_data weather_data hours).
Proof.
  unfold predict_forecast.
  destruct (predict_forecast_try env historical_data weather_data hours)
    as [forecast|e] eqn:Htry.
  - unfold predict_forecast_try in Htry.
    destruct (length historical_data <? 24)%nat.
    { simplify_eq. exists (now_simple env). split; [by right|].
      apply simple_forecast_well_shaped. }
    destruct (_prepare_training_data historical_data weather_data)
      as [features targets].
    destruct (length features <? 10)%nat.
    { simplify_eq. exists (now_simple env). split; [by right|].
      apply simple_forecast_well_shaped. }
    destruct (_train_model features targets) as [model|e]; [|done].
    simpl in Htry. exists (now_model env). split; [by left|].
    apply (model_loop_well_shaped _ _ _ _ [] _ []) in Htry; [done|].
    apply well_shaped_nil.
  - exists (now_simple env). split; [by right|].
    apply simple_forecast_well_shaped.
Qed.

(** C3: for every history, weather and horizon between 1 and 48,
    [predict_forecast] (a total function: whatever the model path raises
    is replaced by the heuristic forecast) returns exactly [hours] points;
    the point of index [i] is stamped [i + 1] hours after the clock reading
    [now] of the path that produced the forecast, so the timestamps start
    one hour after [now] and increase strictly; every index lies in
    [0, 500]. *)
Theorem predict_forecast_shape env lat lon historical_data weather_data hours :
  1 ≤ hours ≤ 48 →
  let forecast := predict_forecast env lat lon historical_data weather_data hours in
  ∃ now, (now = now_model env ∨ now = now_simple env)
    ∧ length forecast = Z.to_nat hours
    ∧ (∀ i p, forecast !! i = Some p → t p = now + 3600 * (Z.of_nat i + 1))
    ∧ (∀ i j p q, (i < j)%nat → forecast !! i = Some p → forecast !! j = Some q →
                  t p < t q)
    ∧ Forall (λ p, 0 ≤ aqi p ≤ 500) forecast.
Proof.
  intros Hhours forecast.
  destruct (predict_forecast_well_shaped env lat lon historical_data weather_data hours)
    as (now & Hnow & Ht & Ha).
  fold forecast in Ht, Ha.
  assert (∀ i p, forecast !! i = Some p → t p = now + 3600 * (Z.of_nat i + 1)) as Hstamp.
  { intros i p Hp.
    assert ((t <$> forecast) !! i = Some (t p)) as Hi
      by (by rewrite list_lookup_fmap, Hp).
    change (t <$> forecast) with (List.map t forecast) in Hi. rewrite Ht in Hi.
    change (List.map ?f ?l) with (f <$> l) in Hi.
    rewrite list_lookup_fmap in Hi.
    apply fmap_Some in Hi as (h & Hh & ->).
    apply lookup_range in Hh as ->. unfold hours_delta. lia. }
  exists now. split; [done|]. split.
  { rewrite <-(length_map t), Ht, length_map, length_range. f_equal. lia. }
  split; [done|]. split; [|done].
  intros i j p q Hij Hp Hq. rewrite (Hstamp _ _ Hp), (Hstamp _ _ Hq). lia.
Qed.

End WithSklearn.

(** An instance of [predict_forecast_shape]: thirty points of history and a
    regressor that predicts 700 give a 24-point forecast through the model
    path. *)
Lemma predict_forecast_shape_witness :
  length (predict_forecast (H := constant_regressor 700) still_env 0 0
            (replicate 30 (mkPoint 0 10)) WeatherDict.empty 24) = 24%nat.
Proof.
  destruct (predict_forecast_shape (H := constant_regressor 700) still_env 0 0
              (replicate 30 (mkPoint 0 10)) WeatherDict.empty 24)
    as (now & _ & Hlen & _); [lia|].
  exact Hlen.
Defined.

(** *** The heuristic formula *)

Lemma int_proper (x y : Q) : (x == y)%Q → Py.int x = Py.int y.
Proof.
  intros Hxy. unfold Py.int, Py.leb.
  rewrite (Qfloor_comp _ _ Hxy), (Qceiling_comp _ _ Hxy). by rewrite Hxy.
Qed.

Lemma int_nonneg (x : Q) : (0 <= x)%Q → Py.int x = Qfloor x.
Proof.
  intros Hx. unfold Py.int, Py.leb.
  apply Qle_bool_iff in Hx. by rewrite Hx.
Qed.

Lemma floor_lower (x : Q) (n : Z) : (inject_Z n <= x)%Q → n ≤ Qfloor x.
Proof. intros Hn. apply Qfloor_resp_le in Hn. by rewrite Qfloor_Z in Hn. Qed.

Lemma floor_upper (x : Q) (n : Z) : (x < inject_Z n)%Q → Qfloor x < n.
Proof.
  intros Hn. destruct (Z.lt_ge_cases (Qfloor x) n) as [|Hge]; [done|].
  rewrite Zle_Qle in Hge. pose proof (Qfloor_le x). lra.
Qed.

Lemma elem_of_simple_forecast env weather_data hours p :
  p ∈ _simple_forecast env weather_data hours →
  ∃ h, p = simple_point env weather_data h.
Proof.
  rewrite simple_forecast_spec.
  intros (h & <- & _)%list_elem_of_In%in_map_iff. by exists h.
Qed.

Lemma int_mono (x y : Q) : (x <= y)%Q → Py.int x ≤ Py.int y.
Proof.
  intros Hxy. unfold Py.int, Py.leb.
  destruct (Qle_bool 0 x) eqn:Hx, (Qle_bool 0 y) eqn:Hy.
  - by apply Qfloor_resp_le.
  - apply Qle_bool_iff in Hx.
    assert (¬ (0 <= y)%Q) by (rewrite <-Qle_bool_iff; congruence). lra.
  - assert (¬ (0 <= x)%Q) as Hneg by (rewrite <-Qle_bool_iff; congruence).
    apply Qle_bool_iff in Hy.
    assert (Qceiling x ≤ 0).
    { change 0 with (Qceiling 0). apply Qceiling_resp_le. lra. }
    assert (0 ≤ Qfloor y).
    { change 0 with (Qfloor 0). by apply Qfloor_resp_le. }
    lia.
  - by apply Qceiling_resp_le.
Qed.

Lemma floor_plus_1 (x : Q) : Qfloor (x + 1) = Qfloor x + 1.
Proof.
  pose proof (Qfloor_le x). pose proof (Qlt_floor x) as Hhi.
  pose proof (Qfloor_le (x + 1)). pose proof (Qlt_floor (x + 1)) as Hhi1.
  rewrite inject_Z_plus in Hhi, Hhi1. change (inject_Z 1) with 1%Q in *.
  assert (inject_Z (Qfloor (x + 1)) < inject_Z (Qfloor x + 1 + 1))%Q as H1.
  { rewrite !inject_Z_plus. change (inject_Z 1) with 1%Q. lra. }
  assert (inject_Z (Qfloor x + 1) < inject_Z (Qfloor (x + 1) + 1))%Q as H2.
  { rewrite !inject_Z_plus. change (inject_Z 1) with 1%Q. lra. }
  rewrite <-Zlt_Qlt in H1, H2. lia.
Qed.

Lemma ceiling_plus_1 (x : Q) : Qceiling (x + 1) = Qceiling x + 1.
Proof.
  unfold Qceiling.
  assert (- (x + 1) + 1 == - x)%Q as Heq by ring.
  rewrite <-(Qfloor_comp _ _ Heq), floor_plus_1. lia.
Qed.

(** Truncation moves up by at most one when its argument moves up by one. *)
Lemma int_plus_1 (x : Q) : Py.int (x + 1) ≤ Py.int x + 1.
Proof.
  unfold Py.int, Py.leb.
  destruct (Qle_bool 0 x) eqn:Hx, (Qle_bool 0 (x + 1)) eqn:Hx1.
  - by rewrite floor_plus_1.
  - apply Qle_bool_iff in Hx.
    assert (¬ (0 <= x + 1)%Q) by (rewrite <-Qle_bool_iff; congruence). lra.
  - assert (¬ (0 <= x)%Q) as Hneg by (rewrite <-Qle_bool_iff; congruence).
    apply Qle_bool_iff in Hx1.
    assert (Qfloor (x + 1) < 1).
    { apply floor_upper. change (inject_Z 1) with 1%Q. lra. }
    assert (-1 ≤ Qceiling x).
    { change (-1) with (Qceiling (-1)). apply Qceiling_resp_le. lra. }
    lia.
  - by rewrite ceiling_plus_1.
Qed.

(** Two values less than one apart truncate to integers at most one
    apart. *)
Lemma int_close (x y : Q) :
  (y - 1 <= x <= y + 1)%Q → Py.int y - 1 ≤ Py.int x ≤ Py.int y + 1.
Proof.
  intros [Hlo Hhi]. split.
  - pose proof (int_mono y (x + 1) ltac:(lra)). pose proof (int_plus_1 x). lia.
  - pose proof (int_mono x (y + 1) Hhi). pose proof (int_plus_1 y). lia.
Qed.

Lemma clamp_mono (a b : Z) : a ≤ b → clamp a ≤ clamp b.
Proof. unfold clamp. lia. Qed.

Lemma claimed_diurnal_cases (hour : Z) :
  (hour ∈ [7; 8; 17; 18; 19] ∧ claimed_diurnal hour = 15%Q)
  ∨ ((hour ∉ [7; 8; 17; 18; 19]) ∧ hour ∈ [10; 11; 12; 13; 14; 15]
     ∧ claimed_diurnal hour = 5%Q)
  ∨ ((hour ∉ [7; 8; 17; 18; 19]) ∧ (hour ∉ [10; 11; 12; 13; 14; 15])
     ∧ claimed_diurnal hour = (-10)%Q).
Proof. unfold claimed_diurnal. repeat case_bool_decide; tauto. Qed.

(** The diurnal term of the code is the one of the specification. *)
Lemma time_effect_claimed (hour : Z) : inject_Z (time_effect hour) = claimed_diurnal hour.
Proof. unfold time_effect, claimed_diurnal. by repeat case_bool_decide. Qed.

(** With the noise at zero the index of a point is the binary64 score,
    truncated and clamped. *)
Lemma simple_point_score64 env weather_data h :
  (noise env h == 0)%Q →
  aqi (simple_point env weather_data h) =
    clamp (Py.int (claimed_score64
                     (F64.round64 (WeatherDict.get WeatherDict.wind_speed_ms 3%Q weather_data))
                     (F64.round64 (WeatherDict.get WeatherDict.precip_mm 0%Q weather_data))
                     (F64.round64 (WeatherDict.get WeatherDict.temp_c 20%Q weather_data))
                     (claimed_diurnal (hour_of (t (simple_point env weather_data h)))))).
Proof.
  intros Hnoise. unfold simple_point. cbn [aqi t].
  rewrite (F64Proofs.round64_proper _ _ Hnoise). change (F64.round64 0) with 0%Q.
  rewrite time_effect_claimed.
  unfold wind_effect, rain_effect, temp_effect, claimed_score64. cbv zeta.
  f_equal.
Qed.

Ltac ltb_cases x y :=
  let Hlt := fresh "Hlt" in
  destruct (Py.ltb x y) eqn:Hlt;
  [apply PyProofs.ltb_iff in Hlt
  |assert (¬ (x < y)%Q) by (rewrite <-PyProofs.ltb_iff; congruence); clear Hlt].

(** For weather values of magnitude at most 2 000 000 and a diurnal term
    between -10 and 15 the binary64 score is within a millionth of the exact
    one. *)
Lemma score64_close (wind precip temp d : Q) :
  (-2000000 <= wind <= 2000000)%Q →
  (-2000000 <= precip <= 2000000)%Q →
  (-2000000 <= temp <= 2000000)%Q →
  (-10 <= d <= 15)%Q →
  (claimed_score wind precip temp d - (1 # 1000000)
   <= claimed_score64 wind precip temp d
   <= claimed_score wind precip temp d + (1 # 1000000))%Q.
Proof.
  intros Hw Hp Ht Hd.
  unfold claimed_score64, claimed_score, F64.add, F64.sub, F64.mul.
  (* wind *)
  pose proof (F64Proofs.round64_close (wind * 3) ltac:(lra)) as H1.
  set (a1 := F64.round64 (wind * 3)) in *.
  assert (Qmin 20 (wind * 3) - (1 # 134217728) <= F64.min 20 a1
          <= Qmin 20 (wind * 3) + (1 # 134217728))%Q as Hm1.
  { unfold F64.min.
    destruct (Q.min_spec 20 (wind * 3)) as [[? Hmin]|[? Hmin]]; ltb_cases a1 20%Q; lra. }
  assert (-6000000 <= Qmin 20 (wind * 3) <= 20)%Q as Hq1.
  { split; [apply Q.min_glb; lra|apply Q.le_min_l]. }
  set (m1 := F64.min 20 a1) in *. set (q1 := Qmin 20 (wind * 3)) in *.
  pose proof (F64Proofs.round64_close (65 + - m1) ltac:(lra)) as H2.
  set (s1 := F64.round64 (65 + - m1)) in *.
  (* precipitation *)
  pose proof (F64Proofs.round64_close (precip * 5) ltac:(lra)) as H3.
  set (a2 := F64.round64 (precip * 5)) in *.
  assert (Qmin 15 (precip * 5) - (1 # 134217728) <= F64.min 15 a2
          <= Qmin 15 (precip * 5) + (1 # 134217728))%Q as Hm2.
  { unfold F64.min.
    destruct (Q.min_spec 15 (precip * 5)) as [[? Hmin]|[? Hmin]]; ltb_cases a2 15%Q; lra. }
  assert (-10000000 <= Qmin 15 (precip * 5) <= 15)%Q as Hq2.
  { split; [apply Q.min_glb; lra|apply Q.le_min_l]. }
  set (m2 := F64.min 15 a2) in *. set (q2 := Qmin 15 (precip * 5)) in *.
  pose proof (F64Proofs.round64_close (s1 + - m2) ltac:(lra)) as H4.
  set (s2 := F64.round64 (s1 + - m2)) in *.
  (* temperature *)
  pose proof (F64Proofs.round64_close (temp - 25) ltac:(lra)) as H5.
  set (dt := F64.round64 (temp - 25)) in *.
  pose proof (F64Proofs.round64_close (dt * 0.5) ltac:(lra)) as H6.
  set (a3 := F64.round64 (dt * 0.5)) in *.
  assert (Qmax 0 ((temp - 25) * 0.5) - (2 # 134217728) <= F64.max 0 a3
          <= Qmax 0 ((temp - 25) * 0.5) + (2 # 134217728))%Q as Hm3.
  { unfold F64.max.
    destruct (Q.max_spec 0 ((temp - 25) * 0.5)) as [[? Hmax]|[? Hmax]]; ltb_cases 0%Q a3; lra. }
  assert (0 <= Qmax 0 ((temp - 25) * 0.5) <= 1000000)%Q as Hq3.
  { split; [apply Q.le_max_l|apply Q.max_lub; lra]. }
  set (m3 := F64.max 0 a3) in *. set (q3 := Qmax 0 ((temp - 25) * 0.5)) in *.
  pose proof (F64Proofs.round64_close (s2 + m3) ltac:(lra)) as H7.
  set (s3 := F64.round64 (s2 + m3)) in *.
  (* hour of the day and noise *)
  pose proof (F64Proofs.round64_close (s3 + d) ltac:(lra)) as H8.
  set (s4 := F64.round64 (s3 + d)) in *.
  pose proof (F64Proofs.round64_close (s4 + 0) ltac:(lra)) as H9.
  lra.
Qed.

(** The exact score between its bounds, for a weather with wind and
    precipitation that are not negative (up to the rounding of the dict
    values) and a temperature that is not above 914. *)
Lemma claimed_score_bounds (wind precip temp d : Q) :
  (- (1 # 1000) <= wind)%Q → (- (1 # 1000) <= precip)%Q → (temp <= 914 + (1 # 1000))%Q →
  (30 + d <= claimed_score wind precip temp d <= 509 + (6 # 10) + d)%Q.
Proof.
  intros Hw Hp Ht. unfold claimed_score.
  pose proof (Q.le_min_l 20 (wind * 3)). pose proof (Q.le_min_l 15 (precip * 5)).
  pose proof (Q.le_max_l 0 ((temp - 25) * 0.5)).
  assert (- (3 # 1000) <= Qmin 20 (wind * 3))%Q by (apply Q.min_glb; lra).
  assert (- (5 # 1000) <= Qmin 15 (precip * 5))%Q by (apply Q.min_glb; lra).
  assert (Qmax 0 ((temp - 25) * 0.5) <= 444 + (501 # 1000))%Q by (apply Q.max_lub; lra).
  split; lra.
Qed.

Lemma round64_input (x : Q) :
  (Qabs x <= 1000000)%Q →
  (x - (1 # 134217728) <= F64.round64 x <= x + (1 # 134217728))%Q
  ∧ (-2000000 <= F64.round64 x <= 2000000)%Q.
Proof.
  intros Hx%Qabs_Qle_condition.
  pose proof (F64Proofs.round64_close x ltac:(lra)). split; [done|lra].
Qed.

Lemma claimed_diurnal_range (hour : Z) : (-10 <= claimed_diurnal hour <= 15)%Q.
Proof.
  destruct (claimed_diurnal_cases hour) as [[_ ->]|[(_ & _ & ->)|(_ & _ & ->)]]; lra.
Qed.

(** On these weather values the binary64 score computed with [F64] is the
    one the machine computes. *)
Lemma claimed_score64_on_the_machine :
  Machine.value (Machine.predicted_aqi (Machine.ratio 64 10) (Machine.ratio 3 1)
                   (Machine.ratio 254 10) (PrimFloat.opp (Machine.ratio 10 1)))
  = Some (Qred (claimed_score64 (F64.round64 6.4) (F64.round64 3) (F64.round64 25.4) (-10)))
  ∧ Machine.value (Machine.predicted_aqi (Machine.ratio 3 10) (Machine.ratio 1 10)
                     (Machine.ratio 258 10) (PrimFloat.opp (Machine.ratio 10 1)))
    = Some (Qred (claimed_score64 (F64.round64 0.3) (F64.round64 0.1) (F64.round64 25.8)
                    (-10)))
  ∧ Machine.value (Machine.predicted_aqi (Machine.ratio 127 10) (Machine.ratio 4 10)
                     (Machine.ratio 313 10) (Machine.ratio 15 1))
    = Some (Qred (claimed_score64 (F64.round64 12.7) (F64.round64 0.4) (F64.round64 31.3) 15))
  ∧ Machine.value (Machine.predicted_aqi (Machine.ratio 17 10) (Machine.ratio 29 10)
                     (Machine.ratio 187 10) (Machine.ratio 5 1))
    = Some (Qred (claimed_score64 (F64.round64 1.7) (F64.round64 2.9) (F64.round64 18.7) 5))
  ∧ Machine.value (Machine.predicted_aqi (Machine.ratio 1 3) (Machine.ratio 2 7)
                     (Machine.ratio 9001 7) (Machine.ratio 15 1))
    = Some (Qred (claimed_score64 (F64.round64 (1 # 3)) (F64.round64 (2 # 7))
                    (F64.round64 (9001 # 7)) 15)).
Proof. repeat split; vm_compute; reflexivity. Qed.

(** C7, as the code has it.  With the noise at zero and weather values of
    magnitude at most 1 000 000 (those of the dict, or 3.0, 0.0 and 20.0 for a
    missing key), the index of every point of the heuristic forecast is the
    score [65 - min(20, wind*3) - min(15, precip*5) + max(0, (temp-25)*0.5) + t]
    evaluated from left to right in binary64 arithmetic, truncated toward zero
    by [int] and then clamped to [0, 500], where [t] is 15 when the hour of the
    point is one of 7, 8, 17, 18, 19, 5 when it is one of 10 to 15, and -10
    otherwise.  The binary64 score is within a millionth of the exact value of
    the expression, so the index is within one of the clamped truncation of the
    exact value.  For a weather with wind and precipitation that are not
    negative and a temperature of at most 914, where the clamp cannot level the
    two, a rush-hour point scores strictly higher than an overnight point of
    the same forecast. *)
Theorem simple_forecast_formula env weather_data hours p :
  (∀ h, noise env h == 0)%Q →
  (Qabs (WeatherDict.get WeatherDict.wind_speed_ms 3%Q weather_data) <= 1000000)%Q →
  (Qabs (WeatherDict.get WeatherDict.precip_mm 0%Q weather_data) <= 1000000)%Q →
  (Qabs (WeatherDict.get WeatherDict.temp_c 20%Q weather_data) <= 1000000)%Q →
  p ∈ _simple_forecast env weather_data hours →
  let wind := F64.round64 (WeatherDict.get WeatherDict.wind_speed_ms 3%Q weather_data) in
  let precip := F64.round64 (WeatherDict.get WeatherDict.precip_mm 0%Q weather_data) in
  let temp := F64.round64 (WeatherDict.get WeatherDict.temp_c 20%Q weather_data) in
  let diurnal : Q :=
    if bool_decide (hour_of (t p) ∈ [7; 8; 17; 18; 19]) then 15%Q
    else if bool_decide (hour_of (t p) ∈ [10; 11; 12; 13; 14; 15]) then 5%Q
    else (-10)%Q in
  aqi p = clamp (Py.int (claimed_score64 wind precip temp diurnal))
  ∧ (Qabs (claimed_score64 wind precip temp diurnal
           - claimed_score wind precip temp diurnal) <= 1 # 1000000)%Q
  ∧ clamp (Py.int (claimed_score wind precip temp diurnal)) - 1 ≤ aqi p
    ≤ clamp (Py.int (claimed_score wind precip temp diurnal)) + 1
  ∧ ∀ q,
      q ∈ _simple_forecast env weather_data hours →
      (0 <= WeatherDict.get WeatherDict.wind_speed_ms 3%Q weather_data)%Q →
      (0 <= WeatherDict.get WeatherDict.precip_mm 0%Q weather_data)%Q →
      (WeatherDict.get WeatherDict.temp_c 20%Q weather_data <= 914)%Q →
      hour_of (t p) ∈ [7; 8; 17; 18; 19] →
      hour_of (t q) ∉ [7; 8; 17; 18; 19] →
      hour_of (t q) ∉ [10; 11; 12; 13; 14; 15] →
      aqi q < aqi p.
Proof.
  intros Hnoise Hw0 Hp0 Ht0 Hp wind precip temp.
  change (if bool_decide (hour_of (t p) ∈ [7; 8; 17; 18; 19]) then 15%Q
          else if bool_decide (hour_of (t p) ∈ [10; 11; 12; 13; 14; 15]) then 5%Q
               else (-10)%Q) with (claimed_diurnal (hour_of (t p))).
  cbv zeta.
  apply elem_of_simple_forecast in Hp as [hp ->].
  destruct (round64_input _ Hw0) as [Hwc Hwb].
  destruct (round64_input _ Hp0) as [Hpc Hpb].
  destruct (round64_input _ Ht0) as [Htc Htb].
  fold wind in Hwc, Hwb. fold precip in Hpc, Hpb. fold temp in Htc, Htb.
  rewrite simple_point_score64 by done. fold wind precip temp.
  set (hour := hour_of (t (simple_point env weather_data hp))).
  pose proof (score64_close wind precip temp _ Hwb Hpb Htb (claimed_diurnal_range hour))
    as Hclose.
  split; [done|]. split; [apply Qabs_Qle_condition; lra|]. split.
  { pose proof (int_close (claimed_score64 wind precip temp (claimed_diurnal hour))
                  (claimed_score wind precip temp (claimed_diurnal hour)) ltac:(lra)).
    unfold clamp. lia. }
  intros q [hq ->]%elem_of_simple_forecast Hw Hpr Ht Hrush Hnr Hnm.
  rewrite simple_point_score64 by done. fold wind precip temp.
  set (hour' := hour_of (t (simple_point env weather_data hq))).
  pose proof (score64_close wind precip temp _ Hwb Hpb Htb (claimed_diurnal_range hour'))
    as Hclose'.
  pose proof (claimed_score_bounds wind precip temp (claimed_diurnal hour)
                ltac:(lra) ltac:(lra) ltac:(lra)) as Hb.
  pose proof (claimed_score_bounds wind precip temp (claimed_diurnal hour')
                ltac:(lra) ltac:(lra) ltac:(lra)) as Hb'.
  assert (claimed_score wind precip temp (claimed_diurnal hour) - claimed_diurnal hour
          == claimed_score wind precip temp (claimed_diurnal hour')
             - claimed_diurnal hour')%Q as Hsame
    by (unfold claimed_score; ring).
  destruct (claimed_diurnal_cases hour) as [[_ Hd]|[[? _]|[? _]]]; [|done..].
  destruct (claimed_diurnal_cases hour') as [[? _]|[(_ & ? & _)|(_ & _ & Hd')]]; [done..|].
  rewrite Hd in *. rewrite Hd' in *.
  set (Sp := claimed_score64 wind precip temp 15) in *.
  set (Sq := claimed_score64 wind precip temp (-10)) in *.
  rewrite (int_nonneg Sp), (int_nonneg Sq) by lra.
  assert (19 ≤ Qfloor Sq) by (apply floor_lower; change (inject_Z 19) with 19%Q; lra).
  assert (Qfloor Sq < 500) by (apply floor_upper; change (inject_Z 500) with 500%Q; lra).
  pose proof (Qfloor_le Sq) as Hfq.
  assert (Qfloor Sq + 24 ≤ Qfloor Sp).
  { apply floor_lower. rewrite inject_Z_plus. change (inject_Z 24) with 24%Q. lra. }
  unfold clamp. lia.
Qed.

(** An instance of [simple_forecast_formula]: with a wind of 6.4 m/s, 3.0 mm
    of precipitation and 25.4 degrees, starting at midnight, the point of
    01:00 scores 20 (the exact value of the expression on the decimal values
    is 21) and the point of 07:00 scores 46. *)
Lemma simple_forecast_formula_witness :
  let w := WeatherDict.mk (Some 3%Q) (Some 6.4%Q) (Some 25.4%Q) (Some 60) (Some []) in
  aqi (simple_point still_env w 1) = 20
  ∧ aqi (simple_point still_env w 7) = 46
  ∧ aqi (simple_point still_env w 1) < aqi (simple_point still_env w 7).
Proof.
  intros w.
  assert (∀ h, h ∈ range 1 25 →
               simple_point still_env w h ∈ _simple_forecast still_env w 24) as Hin.
  { intros h Hh. rewrite simple_forecast_spec.
    apply list_elem_of_In, in_map. by apply list_elem_of_In. }
  destruct (simple_forecast_formula still_env w 24 (simple_point still_env w 7))
    as (Hscore & _ & _ & Hrush).
  - intros h. reflexivity.
  - by vm_compute.
  - by vm_compute.
  - by vm_compute.
  - apply Hin. apply (bool_decide_unpack _). by vm_compute.
  - destruct (simple_forecast_formula still_env w 24 (simple_point still_env w 1))
      as (Hscore1 & _).
    + intros h. reflexivity.
    + by vm_compute.
    + by vm_compute.
    + by vm_compute.
    + apply Hin. apply (bool_decide_unpack _). by vm_compute.
    + split; [rewrite Hscore1; vm_compute; reflexivity|].
      split; [rewrite Hscore; vm_compute; reflexivity|].
      apply Hrush.
      * apply Hin. apply (bool_decide_unpack _). by vm_compute.
      * by vm_compute.
      * by vm_compute.
      * by vm_compute.
      * apply (bool_decide_unpack _). by vm_compute.
      * apply (bool_decide_unpack _). by vm_compute.
      * apply (bool_decide_unpack _). by vm_compute.
Defined.

(** C7 as claimed fails.  At 26 degrees in still air the score of an
    overnight hour is 55.5, and clamping it to [0, 500] leaves 55.5, while the
    forecast index is the integer 55.  With a wind of 6.4, a precipitation of
    3.0 and 25.4 degrees the expression is 21 on the decimal values, while
    binary64 arithmetic gives a score just below 21 and the index 20.  And at
    2000 degrees the rush-hour point of 07:00 and the overnight point of 01:00
    are both clamped to 500. *)
Lemma simple_forecast_formula_counterexample :
  let w := WeatherDict.mk (Some 0%Q) (Some 0%Q) (Some 26%Q) (Some 60) (Some []) in
  let w' := WeatherDict.mk (Some 3%Q) (Some 6.4%Q) (Some 25.4%Q) (Some 60) (Some []) in
  let hot := WeatherDict.mk (Some 0%Q) (Some 0%Q) (Some 2000%Q) (Some 60) (Some []) in
  noise still_env 1 = 0%Q
  ∧ hour_of (t (simple_point still_env w 1)) = 1
  ∧ Qred (Qmax 0 (Qmin 500 (claimed_score 0 0 26 (-10)))) = (111 # 2)%Q
  ∧ aqi (simple_point still_env w 1) = 55
  ∧ Qred (Qmax 0 (Qmin 500 (claimed_score 6.4 3 25.4 (-10)))) = 21%Q
  ∧ aqi (simple_point still_env w' 1) = 20
  ∧ hour_of (t (simple_point still_env hot 7)) = 7
  ∧ aqi (simple_point still_env hot 7) = 500
  ∧ aqi (simple_point still_env hot 1) = 500.
Proof. by vm_compute. Qed.

(** *** Choice of the path *)

Section WithSklearn.
Context `{Sklearn}.

(** With fewer than 24 points of history the forecast is the heuristic
    one. *)
Theorem short_history_uses_heuristic env lat lon historical_data weather_data hours :
  (length historical_data < 24)%nat →
  predict_forecast env lat lon historical_data weather_data hours
    = _simple_forecast env weather_data hours.
Proof.
  intros Hlen. unfold predict_forecast, predict_forecast_try.
  apply Nat.ltb_lt in Hlen. by rewrite Hlen.
Qed.

(** When both regressors fail to fit, or a prediction fails, the forecast
    is the heuristic one for the same horizon. *)
Theorem model_failure_falls_back env lat lon historical_data weather_data hours :
  (∀ features targets,
     (∃ e, RandomForestRegressor_fit features targets = Py.Raise e)
     ∧ ∃ e, LinearRegression_fit features targets = Py.Raise e) →
  predict_forecast env lat lon historical_data weather_data hours
    = _simple_forecast env weather_data hours.
Proof.
  intros Hfit. unfold predict_forecast, predict_forecast_try.
  destruct (length historical_data <? 24)%nat; [done|].
  destruct (_prepare_training_data historical_data weather_data) as [features targets].
  destruct (length features <? 10)%nat; [done|].
  unfold _train_model.
  destruct (Hfit features targets) as [[e1 ->] [e2 He2]]. simpl. by rewrite He2.
Qed.

End WithSklearn.

Lemma short_history_uses_heuristic_witness :
  predict_forecast (H := constant_regressor 700) still_env 0 0 [] WeatherDict.empty 24
    = _simple_forecast still_env WeatherDict.empty 24.
Proof.
  apply (short_history_uses_heuristic (H := constant_regressor 700)). simpl. lia.
Defined.

Lemma model_failure_falls_back_witness :
  predict_forecast (H := failing_regressor) still_env 0 0
    (replicate 30 (mkPoint 0 10)) WeatherDict.empty 24
    = _simple_forecast still_env WeatherDict.empty 24.
Proof.
  apply (model_failure_falls_back (H := failing_regressor)).
  intros features targets. split; exists Py.ValueError; reflexivity.
Defined.

End MLProofs.

(** ** The fusion coordinator *)

Module APIProofs.
Import API.

(** After the satellite loop, a pollutant is present exactly when the
    satellite dict gives it a value, tagged with the satellite source. *)
Lemma tempo_fold_lookup (tempo_dict : gmap string (option Q)) (p : string) :
  map_fold tempo_step ∅ tempo_dict !! p =
    match tempo_dict !! p with
    | Some (Some v) =>
        Some (AQI.mkPollutant (Some v)
                (if bool_decide (p ≠ "hcho") then "µg/m³" else "ppb") ["TEMPO"])
    | _ => None
    end.
Proof.
  revert p.
  apply (map_fold_weak_ind (λ acc (m : gmap string (option Q)),
    ∀ p, acc !! p =
      match m !! p with
      | Some (Some v) =>
          Some (AQI.mkPollutant (Some v)
                  (if bool_decide (p ≠ "hcho") then "µg/m³" else "ppb") ["TEMPO"])
      | _ => None
      end)).
  - intros p. by rewrite !lookup_empty.
  - intros i x m acc Hi IH p. unfold tempo_step.
    destruct (decide (i = p)) as [->|Hne].
    + rewrite lookup_insert_eq. destruct x as [v|].
      * by rewrite lookup_insert_eq.
      * by rewrite IH, Hi.
    + rewrite (lookup_insert_ne m) by done. destruct x as [v|]; [|done].
      by rewrite lookup_insert_ne.
Qed.

Lemma openaq_fold_lookup (merged1 : gmap string AQI.PollutantDict)
    (ground : gmap string Q) :
  (∀ p entry, merged1 !! p = Some entry → is_Some (AQI.value entry)) →
  ∃ merged,
    map_fold openaq_step (Py.Ok merged1) ground = Py.Ok merged
    ∧ ∀ p, merged !! p =
             match ground !! p with
             | Some value => overlay (merged1 !! p) value
             | None => merged1 !! p
             end.
Proof.
  intros Hval.
  apply (map_fold_weak_ind (λ acc (m : gmap string Q),
    ∃ merged, acc = Py.Ok merged
      ∧ ∀ p, merged !! p =
               match m !! p with
               | Some value => overlay (merged1 !! p) value
               | None => merged1 !! p
               end)).
  - exists merged1. split; [done|]. intros p. by rewrite lookup_empty.
  - intros i x m acc Hi (merged & -> & IH).
    unfold openaq_step. cbn [mbind result_bind Py.bind].
    pose proof (IH i) as Hmi. rewrite Hi in Hmi. rewrite Hmi.
    destruct (merged1 !! i) as [entry|] eqn:Hentry.
    + destruct (Hval _ _ Hentry) as [tempo_val Htv]. rewrite Htv.
      eexists. split; [done|]. intros p.
      destruct (decide (i = p)) as [->|Hne].
      * rewrite !lookup_insert_eq. unfold overlay. by rewrite Hentry, Htv.
      * rewrite !lookup_insert_ne by done. apply IH.
    + eexists. split; [done|]. intros p.
      destruct (decide (i = p)) as [->|Hne].
      * rewrite !lookup_insert_eq. unfold overlay. by rewrite Hentry.
      * rewrite !lookup_insert_ne by done. apply IH.
Qed.

(** C4: merging never raises; a pollutant of the ground-station result
    that the satellite result also gives a value gets the value
    [0.4 * satellite + 0.6 * ground] and the source tags
    [["TEMPO"; "OpenAQ"]]; one that the satellite result lacks (or maps to
    [None]) is inserted with the ground value and the tag [["OpenAQ"]]. *)
Theorem merge_policy (tempo_dict : gmap string (option Q)) (openaq_dict : OpenAQDict)
    (pollutant : string) (ground_value : Q) :
  default ∅ (oa_pollutants openaq_dict) !! pollutant = Some ground_value →
  ∃ merged,
    merge_pollutants tempo_dict openaq_dict = Py.Ok merged
    ∧ match tempo_dict !! pollutant with
      | Some (Some satellite_value) =>
          merged !! pollutant
            = Some (AQI.mkPollutant
                      (Some (satellite_value * 0.4 + ground_value * 0.6)%Q)
                      (if bool_decide (pollutant ≠ "hcho") then "µg/m³" else "ppb")
                      ["TEMPO"; "OpenAQ"])
          ∧ (satellite_value * 0.4 + ground_value * 0.6
             == 0.4 * satellite_value + 0.6 * ground_value)%Q
      | _ =>
          merged !! pollutant
            = Some (AQI.mkPollutant (Some ground_value) "µg/m³" ["OpenAQ"])
      end.
Proof.
  intros Hground. unfold merge_pollutants.
  destruct (openaq_fold_lookup (map_fold tempo_step ∅ tempo_dict)
              (default ∅ (oa_pollutants openaq_dict))) as (merged & Hrun & Hlk).
  { intros p entry. rewrite tempo_fold_lookup.
    destruct (tempo_dict !! p) as [[v|]|]; [|done..].
    intros [= <-]. by eexists. }
  exists merged. split; [done|].
  rewrite Hlk, Hground, tempo_fold_lookup.
  destruct (tempo_dict !! pollutant) as [[v|]|]; [|done..].
  split; [reflexivity|]. ring.
Qed.

(** The example of the merge policy: satellite NO2 10 and ground NO2 20
    merge to 16, tagged with both sources in that order. *)
Lemma merge_policy_witness :
  ∃ merged,
    merge_pollutants {[ "no2" := Some 10%Q ]}
      (mkOpenAQ (Some {[ "no2" := 20%Q ]}) (Some ["station"])) = Py.Ok merged
    ∧ merged !! "no2"
      = Some (AQI.mkPollutant (Some (10 * 0.4 + 20 * 0.6)%Q) "µg/m³" ["TEMPO"; "OpenAQ"])
    ∧ (10 * 0.4 + 20 * 0.6 == 16)%Q.
Proof.
  destruct (merge_policy {[ "no2" := Some 10%Q ]}
              (mkOpenAQ (Some {[ "no2" := 20%Q ]}) (Some ["station"])) "no2" 20)
    as (merged & Hrun & Hcase); [reflexivity|].
  rewrite lookup_singleton_eq in Hcase. destruct Hcase as [Hlk _].
  exists merged. split; [exact Hrun|]. split; [exact Hlk|]. reflexivity.
Defined.

Section WithSklearn.
Context `{ML.Sklearn}.

(** What [assemble] builds when no adapter delivers anything. *)
Lemma assemble_all_failed env src lat lon hours :
  all_failed src →
  assemble env src lat lon hours =
    Py.Ok (AirQualityResponse.mk
             (lat, lon)
             (Geo.format_location_name lat lon)
             (now_utc env)
             ∅
             default_weather
             (AQIData.mk 50 "0-500" "Good")
             (List.map to_forecast_point
                (ML._simple_forecast (ml_env env) WeatherDict.empty hours))
             (HealthAdvice.mk
                (Advice.general (Advice.base_advice 50))
                (Advice.profiles (Advice.base_advice 50)))
             []
             (DataProvenance.mk None None (Some (false, false)))).
Proof.
  intros (Htempo & Hopenaq & Hweather & Hhist). unfold assemble.
  assert ((match tempo_data src with
           | Exc => ∅
           | Returned d => if bool_decide (size d = 0%nat) then ∅ else d
           end) = (∅ : gmap string (option Q))) as ->
    by (destruct Htempo as [-> | ->]; reflexivity).
  assert ((match openaq_data src with
           | Exc => mkOpenAQ None None
           | Returned d => if openaq_truthy d then d else mkOpenAQ None None
           end) = mkOpenAQ None None) as ->
    by (destruct Hopenaq as [-> | ->]; reflexivity).
  assert ((match weather_data src with
           | Exc => WeatherDict.empty
           | Returned d => if WeatherDict.truthy d then d else WeatherDict.empty
           end) = WeatherDict.empty) as ->
    by (destruct Hweather as [-> | ->]; reflexivity).
  assert ((match historical_data src with
           | Exc => []
           | Returned l => match l with [] => [] | _ => l end
           end) = ([] : list ML.Point)) as ->
    by (destruct Hhist as [-> | ->]; reflexivity).
  reflexivity.
Qed.

(** C1, as the code has it: when all four adapters fail or come back
    empty and the cache has no live entry for the location, a request
    with [hours = 24] raises nothing and returns a record with no
    pollutant, the default weather, the AQI value 50 and a 24-point
    forecast; the category of 50 is "Good". *)
Theorem all_adapters_fail env src lat lon
    (cache_service : Cache.CacheService AirQualityResponse.t) :
  all_failed src →
  (Cache.get (time_get env) (cache_key lat lon) cache_service).1 = Py.Ok None →
  ∃ response,
    (get_air_quality env src lat lon 24 cache_service).1 = Py.Ok response
    ∧ AirQualityResponse.pollutants response = ∅
    ∧ AirQualityResponse.weather response = WeatherData.mk 0 0 20 60 []
    ∧ AQIData.value (AirQualityResponse.aqi response) = 50
    ∧ AQIData.category (AirQualityResponse.aqi response) = "Good"
    ∧ length (AirQualityResponse.forecast_24h response) = 24%nat.
Proof.
  intros Hfail Hmiss. unfold get_air_quality.
  destruct (Cache.get (time_get env) (cache_key lat lon) cache_service)
    as [[[cached|]|e] cache_service'] eqn:Hget; simplify_eq/=.
  rewrite (assemble_all_failed env src lat lon 24 Hfail).
  eexists. split; [reflexivity|]. cbn.
  do 4 (split; [reflexivity|]).
  by rewrite length_map, MLProofs.simple_forecast_spec, length_map,
    MLProofs.length_range.
Qed.

End WithSklearn.

(** An instance of [all_adapters_fail]: the four adapters raise, the cache
    is fresh. *)
Lemma all_adapters_fail_witness :
  ∃ response,
    (get_air_quality (H := ML.constant_regressor 700)
       still_env failing_sources 40.71 (-74) 24 (Cache.init 900)).1 = Py.Ok response
    ∧ AQIData.value (AirQualityResponse.aqi response) = 50
    ∧ AQIData.category (AirQualityResponse.aqi response) = "Good".
Proof.
  destruct (all_adapters_fail (H := ML.constant_regressor 700)
              still_env failing_sources 40.71 (-74) (Cache.init 900))
    as (response & Hrun & _ & _ & Hvalue & Hcat & _).
  - unfold all_failed, no_data. simpl. tauto.
  - reflexivity.
  - exists response. split; [exact Hrun|]. split; [exact Hvalue | exact Hcat].
Defined.

(** C1 as claimed fails on the category: with the four adapters raising and
    a fresh cache, the record has the AQI value 50 and the category "Good",
    not "Moderate". *)
Lemma all_adapters_fail_counterexample :
  let outcome :=
    (get_air_quality (H := ML.constant_regressor 700)
       still_env failing_sources 40.71 (-74) 24 (Cache.init 900)).1 in
  match outcome with
  | Py.Ok response => Some (AirQualityResponse.aqi response)
  | Py.Raise _ => None
  end = Some (AQIData.mk 50 "0-500" "Good")
  ∧ get_aqi_category 50 = "Good"
  ∧ String.eqb (get_aqi_category 50) "Moderate" = false.
Proof. by vm_compute. Qed.

(** *** The cache around the coordinator *)

Section WithSklearn.
Context `{ML.Sklearn}.

(** A live cache entry for the location is returned as it is, without
    assembling anything, and the cache is left unchanged. *)
Theorem cache_hit_returns_cached env src lat lon hours
    (cache_service : Cache.CacheService AirQualityResponse.t) cached timestamp :
  Cache._cache cache_service !! cache_key lat lon = Some cached →
  Cache._timestamps cache_service !! cache_key lat lon = Some timestamp →
  (time_get env - timestamp <= inject_Z (Cache.ttl cache_service))%Q →
  get_air_quality env src lat lon hours cache_service = (Py.Ok cached, cache_service).
Proof.
  intros Hc Ht Hlive. unfold get_air_quality, Cache.get. rewrite Hc, Ht.
  destruct (Cache.expired cache_service (time_get env) timestamp) eqn:Hexp; [|done].
  apply CacheProofs.expired_iff in Hexp. lra.
Qed.

(** After a miss, the record that is returned is stored under the key of
    the location: a request made while no more than TTL seconds have elapsed
    since gets the same record from the cache. *)
Theorem response_is_cached env env' src src' lat lon hours hours'
    (cache_service cache_service' : Cache.CacheService AirQualityResponse.t) response :
  (Cache.get (time_get env) (cache_key lat lon) cache_service).1 = Py.Ok None →
  get_air_quality env src lat lon hours cache_service = (Py.Ok response, cache_service') →
  (time_get env' - time_set env <= inject_Z (Cache.ttl cache_service))%Q →
  get_air_quality env' src' lat lon hours' cache_service'
    = (Py.Ok response, cache_service').
Proof.
  intros Hmiss Hrun Hlive. unfold get_air_quality in Hrun.
  destruct (Cache.get (time_get env) (cache_key lat lon) cache_service)
    as [[[cached|]|e] cache1] eqn:Hget; simplify_eq/=.
  destruct (assemble env src lat lon hours) as [r|e]; simplify_eq/=.
  assert (Cache.ttl cache1 = Cache.ttl cache_service) as Httl.
  { unfold Cache.get in Hget. repeat case_match; by simplify_eq. }
  apply (cache_hit_returns_cached _ _ _ _ _ _ _ (time_set env)).
  - apply lookup_insert_eq.
  - apply lookup_insert_eq.
  - simpl. by rewrite Httl.
Qed.

(** The history of the response holds at most the 168 most recent points
    of the history the adapter returned. *)
Theorem history_is_truncated env src lat lon hours response :
  assemble env src lat lon hours = Py.Ok response →
  (length (AirQualityResponse.history_7d response) ≤ 168)%nat
  ∧ ∃ historical_list,
      (historical_data src = Exc ∧ historical_list = []
       ∨ historical_data src = Returned historical_list)
      ∧ AirQualityResponse.history_7d response
        = List.map to_forecast_point (last168 historical_list).
Proof.
  unfold assemble. intros Hrun.
  destruct (merge_pollutants _ _) as [merged|]; [|done].
  cbn [mbind result_bind Py.bind] in Hrun.
  destruct (pollutant_models merged) as [models|]; [|done].
  cbn [mbind result_bind Py.bind] in Hrun.
  destruct (if WeatherDict.truthy _ then _ else _) as [weather|]; [|done].
  cbn [mbind result_bind Py.bind] in Hrun. simplify_eq. cbn [AirQualityResponse.history_7d].
  set (historical_list := match historical_data src with
                          | Exc => [] | Returned l => match l with [] => [] | _ => l end
                          end).
  assert (match historical_list with
          | [] => []
          | _ => List.map to_forecast_point (last168 historical_list)
          end = List.map to_forecast_point (last168 historical_list)) as ->
    by (by destruct historical_list).
  split.
  - rewrite length_map. unfold last168. rewrite length_drop. lia.
  - exists historical_list. split; [|done]. subst historical_list.
    destruct (historical_data src) as [[|p l]|]; auto.
Qed.

End WithSklearn.

Lemma cache_hit_returns_cached_witness :
  let cache_service :=
    Cache.set 0 (cache_key 40.71 (-74)) sample_response (Cache.init 900) in
  get_air_quality (H := ML.constant_regressor 700) (mkEnv 900 900 0 ML.still_env)
    failing_sources 40.71 (-74) 24 cache_service
  = (Py.Ok sample_response, cache_service).
Proof.
  apply (cache_hit_returns_cached (H := ML.constant_regressor 700)
           (mkEnv 900 900 0 ML.still_env) failing_sources 40.71 (-74) 24
           (Cache.set 0 (cache_key 40.71 (-74)) sample_response (Cache.init 900))
           sample_response 0).
  - apply lookup_insert_eq.
  - apply lookup_insert_eq.
  - by vm_compute.
Defined.

Lemma response_is_cached_witness :
  let first :=
    get_air_quality (H := ML.constant_regressor 700) still_env failing_sources
      40.71 (-74) 24 (Cache.init 900) in
  ∃ response,
    first.1 = Py.Ok response
    ∧ get_air_quality (H := ML.constant_regressor 700) (mkEnv 900 900 0 ML.still_env)
        failing_sources 40.71 (-74) 24 first.2
      = (Py.Ok response, first.2).
Proof.
  intros first.
  destruct first as [[response|e] cache_service'] eqn:Hfirst; [|by vm_compute in Hfirst].
  exists response. split; [reflexivity|].
  apply (response_is_cached (H := ML.constant_regressor 700) still_env
           (mkEnv 900 900 0 ML.still_env) failing_sources failing_sources
           40.71 (-74) 24 24 (Cache.init 900) cache_service' response).
  - reflexivity.
  - exact Hfirst.
  - by vm_compute.
Defined.

Lemma history_is_truncated_witness :
  ∃ response,
    assemble (H := ML.constant_regressor 700) still_env failing_sources 40.71 (-74) 24
      = Py.Ok response
    ∧ (length (AirQualityResponse.history_7d response) ≤ 168)%nat.
Proof.
  destruct (assemble (H := ML.constant_regressor 700) still_env failing_sources
              40.71 (-74) 24) as [response|e] eqn:Hrun; [|by vm_compute in Hrun].
  exists response. split; [reflexivity|].
  by destruct (history_is_truncated (H := ML.constant_regressor 700) still_env
                 failing_sources 40.71 (-74) 24 response Hrun) as [Hlen _].
Defined.

End APIProofs.

(** ** Sorting by timestamp *)

Module SortProofs.

Lemma insert_by_t_perm p l : ML.insert_by_t p l ≡ₚ p :: l.
Proof.
  induction l as [|q l IH]; [done|]. simpl.
  destruct (ML.t q <=? ML.t p); [|done].
  rewrite IH. apply Permutation_swap.
Qed.

Lemma insert_by_t_sorted p l :
  StronglySorted (λ a b, ML.t a ≤ ML.t b) l →
  StronglySorted (λ a b, ML.t a ≤ ML.t b) (ML.insert_by_t p l).
Proof.
  induction 1 as [|q l Hsorted IH Hq]; simpl.
  - repeat constructor.
  - destruct (Z.leb_spec (ML.t q) (ML.t p)) as [Hle|Hlt].
    + constructor; [done|]. rewrite insert_by_t_perm. by constructor.
    + constructor; [by constructor|]. constructor; [lia|].
      eapply Forall_impl; [exact Hq|]. simpl. intros. lia.
Qed.

Lemma sorted_by_t_spec l :
  StronglySorted (λ a b, ML.t a ≤ ML.t b) (ML.sorted_by_t l) ∧ ML.sorted_by_t l ≡ₚ l.
Proof.
  unfold ML.sorted_by_t.
  cut (∀ acc, StronglySorted (λ a b, ML.t a ≤ ML.t b) acc →
              StronglySorted (λ a b, ML.t a ≤ ML.t b)
                (fold_left (λ acc p, ML.insert_by_t p acc) l acc)
              ∧ fold_left (λ acc p, ML.insert_by_t p acc) l acc ≡ₚ acc ++ l).
  { intros Hcut. apply (Hcut []). constructor. }
  induction l as [|p l IH]; intros acc Hacc; simpl.
  - by rewrite app_nil_r.
  - destruct (IH (ML.insert_by_t p acc)) as [Hs Hp]; [by apply insert_by_t_sorted|].
    split; [done|]. rewrite Hp, insert_by_t_perm. simpl. apply Permutation_middle.
Qed.


End SortProofs.

(** ** More on the forecast engine *)

Module MLMoreProofs.
Import ML.

Lemma length_sorted_by_t (l : list Point) : length (sorted_by_t l) = length l.
Proof. apply Permutation_length. apply SortProofs.sorted_by_t_spec. Qed.

Lemma length_weather_features weather_data : length (weather_features weather_data) = 4%nat.
Proof. reflexivity. Qed.

(** [_prepare_training_data] builds one training row for every point of the
    history but the first three in time order, each row has nine features, and
    the vector that [_create_feature_vector] builds for a prediction has nine
    features too. *)
Lemma training_data_shape env (historical_data : list Point)
    (weather_data : WeatherDict.t) (hours_ahead : Z) :
  length (_prepare_training_data historical_data weather_data).1
    = (length historical_data - 3)%nat
  ∧ length (_prepare_training_data historical_data weather_data).2
    = (length historical_data - 3)%nat
  ∧ Forall (λ row, length row = 9%nat)
      (_prepare_training_data historical_data weather_data).1
  ∧ length (_create_feature_vector env historical_data weather_data hours_ahead) = 9%nat.
Proof.
  unfold _prepare_training_data. cbn [fst snd].
  rewrite !length_map, !length_seq, !length_sorted_by_t.
  split; [done|]. split; [done|]. split; [|done].
  apply Forall_forall. intros row (i & <- & _)%list_elem_of_In%in_map_iff. done.
Qed.

Section WithSklearn.
Context `{Sklearn}.

(** The prediction loop when every prediction succeeds. *)
Lemma model_loop_Ok env model historical_data weather_data (pred : Z → Q) hs forecast :
  (∀ h, h ∈ hs →
        predict model (_create_feature_vector env historical_data weather_data h)
        = Py.Ok (pred h)) →
  model_loop env model historical_data weather_data hs forecast
  = Py.Ok (forecast
           ++ List.map (λ h, mkPoint (now_model env + hours_delta h)
                               (clamp (Py.int (pred h)))) hs)%list.
Proof.
  revert forecast. induction hs as [|h hs IH]; intros forecast Hpred; simpl.
  - by rewrite app_nil_r.
  - rewrite (Hpred h) by (by left). cbn [mbind result_bind Py.bind].
    rewrite IH; [by rewrite <-app_assoc|]. intros h' Hh'. apply Hpred. by right.
Qed.

(** The prediction loop when one prediction raises. *)
Lemma model_loop_Raise env model historical_data weather_data hs forecast h e :
  h ∈ hs →
  predict model (_create_feature_vector env historical_data weather_data h) = Py.Raise e →
  ∃ e', model_loop env model historical_data weather_data hs forecast = Py.Raise e'.
Proof.
  revert forecast. induction hs as [|h0 hs IH]; intros forecast Hin Hraise;
    [by apply elem_of_nil in Hin|].
  simpl.
  destruct (predict model (_create_feature_vector env historical_data weather_data h0))
    as [q|e0] eqn:Hp0; cbn [mbind result_bind Py.bind]; [|by exists e0].
  apply elem_of_cons in Hin as [->|Hin]; [congruence|]. by apply IH.
Qed.

(** With at least 24 points of history the second length test never sends
    the forecast to the heuristic: what remains is training and predicting. *)
Lemma predict_forecast_try_long env historical_data weather_data hours :
  (24 ≤ length historical_data)%nat →
  predict_forecast_try env historical_data weather_data hours =
    (model ← _train_model (_prepare_training_data historical_data weather_data).1
                (_prepare_training_data historical_data weather_data).2;
     model_loop env model historical_data weather_data (range 1 (hours + 1)) []).
Proof.
  intros Hlen. unfold predict_forecast_try.
  destruct (Nat.ltb_spec (length historical_data) 24) as [|_]; [lia|].
  pose proof (training_data_shape env historical_data weather_data 0) as [Hrows _].
  destruct (_prepare_training_data historical_data weather_data) as [features targets].
  cbn [fst snd] in *.
  destruct (Nat.ltb_spec (length features) 10) as [|_]; [lia|]. done.
Qed.

(** With at least 24 points of history, a model that fits and predictions
    that all succeed, the forecast is the model's: the point of hour [h] is
    stamped [h] hours after the clock reading and carries the prediction,
    truncated and clamped to [0, 500]. *)
Theorem model_path_forecast env lat lon historical_data weather_data hours model
    (pred : Z → Q) :
  (24 ≤ length historical_data)%nat →
  _train_model (_prepare_training_data historical_data weather_data).1
    (_prepare_training_data historical_data weather_data).2 = Py.Ok model →
  (∀ h, h ∈ range 1 (hours + 1) →
        predict model (_create_feature_vector env historical_data weather_data h)
        = Py.Ok (pred h)) →
  predict_forecast env lat lon historical_data weather_data hours
  = List.map (λ h, mkPoint (now_model env + hours_delta h) (clamp (Py.int (pred h))))
      (range 1 (hours + 1)).
Proof.
  intros Hlen Htrain Hpred. unfold predict_forecast.
  rewrite predict_forecast_try_long by done. rewrite Htrain.
  cbn [mbind result_bind Py.bind].
  by rewrite (model_loop_Ok _ _ _ _ pred).
Qed.

(** When training fails, or one of the predictions for the requested hours
    fails, the forecast is the heuristic one for the whole horizon: no point of
    the model is kept. *)
Theorem failure_falls_back env lat lon historical_data weather_data hours :
  (∃ e, _train_model (_prepare_training_data historical_data weather_data).1
          (_prepare_training_data historical_data weather_data).2 = Py.Raise e)
  ∨ (∃ model h e,
       _train_model (_prepare_training_data historical_data weather_data).1
         (_prepare_training_data historical_data weather_data).2 = Py.Ok model
       ∧ h ∈ range 1 (hours + 1)
       ∧ predict model (_create_feature_vector env historical_data weather_data h)
         = Py.Raise e) →
  predict_forecast env lat lon historical_data weather_data hours
  = _simple_forecast env weather_data hours.
Proof.
  intros Hfail. unfold predict_forecast.
  destruct (Nat.ltb_spec (length historical_data) 24) as [Hshort|Hlong].
  { unfold predict_forecast_try. apply Nat.ltb_lt in Hshort. by rewrite Hshort. }
  rewrite predict_forecast_try_long by done.
  destruct Hfail as [[e ->]|(model & h & e & -> & Hh & Hraise)]; [done|].
  cbn [mbind result_bind Py.bind].
  by destruct (model_loop_Raise env model historical_data weather_data
                 (range 1 (hours + 1)) [] h e Hh Hraise) as [e' ->].
Qed.

End WithSklearn.

Lemma model_path_forecast_witness :
  predict_forecast (H := constant_regressor 700) still_env 0 0
    (replicate 30 (mkPoint 0 10)) WeatherDict.empty 2
  = [mkPoint 3600 500; mkPoint 7200 500].
Proof.
  apply (model_path_forecast (H := constant_regressor 700) still_env 0 0
           (replicate 30 (mkPoint 0 10)) WeatherDict.empty 2 tt (λ _, 700%Q)).
  - simpl. lia.
  - reflexivity.
  - intros h _. reflexivity.
Defined.

Lemma failure_falls_back_witness :
  predict_forecast (H := failing_regressor) still_env 0 0
    (replicate 30 (mkPoint 0 10)) WeatherDict.empty 24
  = _simple_forecast still_env WeatherDict.empty 24.
Proof.
  apply (failure_falls_back (H := failing_regressor)).
  left. exists Py.ValueError. reflexivity.
Defined.

End MLMoreProofs.

(** ** More on [calculate_aqi] *)

Module AQIMoreProofs.
Import AQI.

Lemma above_table_not_in_segment tbl c s :
  table_ordered tbl → (last_high tbl < c)%Q → s ∈ tbl → in_segment s c = false.
Proof.
  intros Hord Hc Hs.
  pose proof (AQIProofs.table_ordered_last_high tbl s Hord Hs) as Hle.
  destruct (in_segment s c) eqn:Hin; [|done].
  apply AQIProofs.in_segment_iff in Hin. lra.
Qed.

Lemma find_breakpoint_above tbl c :
  (∀ s, s ∈ tbl → in_segment s c = false) → find_breakpoint tbl c = None.
Proof.
  induction tbl as [|s rest IH]; intros Hall; [done|]. simpl.
  rewrite (Hall s) by (by left). apply IH. intros s' Hs'. apply Hall. by right.
Qed.

Lemma sub_index_above tbl c :
  table_ordered tbl → (last_high tbl < c)%Q → sub_index tbl c = Some 500.
Proof.
  intros Hord Hc. unfold sub_index.
  rewrite find_breakpoint_above by (intros s; by apply above_table_not_in_segment).
  apply PyProofs.ltb_iff in Hc. by rewrite Hc.
Qed.

Lemma calculate_aqi_le_500 (pollutants : gmap string PollutantDict) :
  calculate_aqi pollutants ≤ 500.
Proof.
  rewrite AQIProofs.calculate_aqi_fold.
  destruct (AQIProofs.fold_is_max pollutants) as (_ & _ & [->|(p & d & _ & Hsub)]); [lia|].
  unfold pollutant_sub_index in Hsub.
  destruct (breakpoints !! p) as [tbl|] eqn:Hp; [|done].
  destruct (value d) as [c|]; [|done].
  pose proof (AQIProofs.sub_index_le_500 tbl c _ (AQIProofs.breakpoints_ordered p tbl Hp) Hsub).
  lia.
Qed.

(** One pollutant whose concentration exceeds the upper bound of the last
    segment of its table makes the index exactly 500, whatever the other
    pollutants are. *)
Theorem above_table_gives_500 (pollutants : gmap string PollutantDict)
    (pollutant : string) (data : PollutantDict) (tbl : list Segment) (concentration : Q) :
  pollutants !! pollutant = Some data →
  breakpoints !! pollutant = Some tbl →
  value data = Some concentration →
  (last_high tbl < concentration)%Q →
  calculate_aqi pollutants = 500.
Proof.
  intros Hp Htbl Hv Hc.
  assert (pollutant_sub_index pollutant data = Some 500) as Hsub.
  { unfold pollutant_sub_index. rewrite Htbl, Hv.
    apply sub_index_above; [by apply (AQIProofs.breakpoints_ordered pollutant)|done]. }
  pose proof (calculate_aqi_le_500 pollutants) as Hle.
  rewrite AQIProofs.calculate_aqi_fold in *.
  destruct (AQIProofs.fold_is_max pollutants) as (_ & Hub & _).
  specialize (Hub _ _ _ Hp Hsub). lia.
Qed.

Lemma above_table_gives_500_witness :
  calculate_aqi (<[ "no2" := mkPollutant (Some 30%Q) "µg/m³" ["TEMPO"] ]>
                   (single "o3" 201)) = 500.
Proof.
  apply (above_table_gives_500 _ "o3" (mkPollutant (Some 201%Q) "µg/m³" ["OpenAQ"])
           o3_table 201).
  - reflexivity.
  - reflexivity.
  - reflexivity.
  - by vm_compute.
Defined.

(** Adding a pollutant to the dict never lowers the index. *)
Theorem more_pollutants_never_lower (pollutants : gmap string PollutantDict)
    (pollutant : string) (data : PollutantDict) :
  pollutants !! pollutant = None →
  calculate_aqi pollutants ≤ calculate_aqi (<[pollutant := data]> pollutants).
Proof.
  intros Hnew. rewrite !AQIProofs.calculate_aqi_fold.
  rewrite map_fold_insert_L; [|intros; apply AQIProofs.loop_body_comm|done].
  rewrite AQIProofs.loop_body_spec.
  destruct (pollutant_sub_index pollutant data); lia.
Qed.

Lemma more_pollutants_never_lower_witness :
  calculate_aqi (single "pm25" 20)
  ≤ calculate_aqi (<[ "o3" := mkPollutant (Some 150%Q) "µg/m³" ["TEMPO"] ]>
                     (single "pm25" 20)).
Proof.
  apply (more_pollutants_never_lower (single "pm25" 20) "o3").
  reflexivity.
Defined.

(** An entry for a pollutant that has no breakpoint table (formaldehyde,
    for one), or an entry whose value is [None], has no effect on the index:
    the result is that of the dict without the entry. *)
Theorem untabulated_entry_is_ignored (pollutants : gmap string PollutantDict)
    (pollutant : string) (data : PollutantDict) :
  breakpoints !! pollutant = None ∨ value data = None →
  calculate_aqi (<[pollutant := data]> pollutants)
  = calculate_aqi (delete pollutant pollutants).
Proof.
  intros Hskip. apply AQIProofs.calculate_aqi_insert_no_sub_index.
  unfold pollutant_sub_index.
  destruct Hskip as [->| ->]; [done|]. by destruct (breakpoints !! pollutant).
Qed.

Lemma untabulated_entry_is_ignored_witness :
  calculate_aqi (<[ "hcho" := mkPollutant (Some 900%Q) "ppb" ["TEMPO"] ]>
                   (single "pm25" 20))
  = calculate_aqi (delete "hcho" (single "pm25" 20)).
Proof.
  apply (untabulated_entry_is_ignored (single "pm25" 20) "hcho").
  left. reflexivity.
Defined.

(** A concentration inside a segment of an ordered table gets the rounded
    interpolation of that segment. *)
Lemma find_breakpoint_in_segment tbl s c :
  table_ordered tbl → s ∈ tbl → in_segment s c = true →
  find_breakpoint tbl c = Some (Py.round (interpolate s c)).
Proof.
  intros Hord Hs Hin.
  destruct (find_breakpoint tbl c) as [a|] eqn:Hf.
  - apply AQIProofs.find_breakpoint_Some in Hf as (s' & Hs' & Hin' & ->). f_equal.
    pose proof (AQIProofs.segments_mono tbl s s' c c Hord Hs Hs' Hin Hin' ltac:(lra)).
    pose proof (AQIProofs.segments_mono tbl s' s c c Hord Hs' Hs Hin' Hin ltac:(lra)).
    lia.
  - pose proof (AQIProofs.find_breakpoint_None tbl c s Hf Hs). congruence.
Qed.

(** C2: [calculate_aqi] returns the maximum of the per-pollutant
    sub-indices obtained by breakpoint interpolation, floored at 50.  The
    result is at least 50.  Every pollutant of the dict whose concentration [c]
    lies in a segment [(bp_low, bp_high, aqi_low, aqi_high)] of its table has a
    sub-index: an integer between [aqi_low] and [aqi_high], at most one half
    away from the interpolated value
    [(aqi_high - aqi_low) / (bp_high - bp_low) * (c - bp_low) + aqi_low], and
    the result is at least that sub-index; a pollutant whose concentration
    exceeds its table makes the result 500.  The maximum is attained: the
    result is 50, or the interpolated sub-index of one of the pollutants, or
    the 500 of a pollutant above its table.  For the empty dict it is exactly
    50. *)
Theorem calculate_aqi_max_floored (pollutants : gmap string PollutantDict) :
  50 ≤ calculate_aqi pollutants
  ∧ (∀ p d tbl c s,
       pollutants !! p = Some d → breakpoints !! p = Some tbl → value d = Some c →
       s ∈ tbl → (bp_low s <= c <= bp_high s)%Q →
       ∃ a,
         pollutant_sub_index p d = Some a
         ∧ aqi_low s ≤ a ≤ aqi_high s
         ∧ (Qabs (inject_Z a
                  - ((inject_Z (aqi_high s - aqi_low s) / (bp_high s - bp_low s))
                     * (c - bp_low s) + inject_Z (aqi_low s))) <= 1 # 2)%Q
         ∧ a ≤ calculate_aqi pollutants)
  ∧ (∀ p d tbl c,
       pollutants !! p = Some d → breakpoints !! p = Some tbl → value d = Some c →
       (last_high tbl < c)%Q → calculate_aqi pollutants = 500)
  ∧ (calculate_aqi pollutants = 50
     ∨ ∃ p d tbl c,
         pollutants !! p = Some d ∧ breakpoints !! p = Some tbl ∧ value d = Some c
         ∧ pollutant_sub_index p d = Some (calculate_aqi pollutants)
         ∧ ((∃ s, s ∈ tbl ∧ (bp_low s <= c <= bp_high s)%Q
                  ∧ (Qabs (inject_Z (calculate_aqi pollutants)
                           - ((inject_Z (aqi_high s - aqi_low s)
                               / (bp_high s - bp_low s))
                              * (c - bp_low s) + inject_Z (aqi_low s))) <= 1 # 2)%Q)
            ∨ ((last_high tbl < c)%Q ∧ calculate_aqi pollutants = 500)))
  ∧ calculate_aqi ∅ = 50.
Proof.
  pose proof (calculate_aqi_le_500 pollutants) as H500.
  rewrite AQIProofs.calculate_aqi_fold in *.
  destruct (AQIProofs.fold_is_max pollutants) as (Hnn & Hub & Hwit).
  split; [lia|]. split; [|split; [|split; [|done]]].
  - intros p d tbl c s Hp Htbl Hd Hs Hc.
    pose proof (AQIProofs.breakpoints_ordered p tbl Htbl) as Hord.
    apply AQIProofs.in_segment_iff in Hc.
    destruct (AQIProofs.table_ordered_segments _ _ Hord Hs) as [Hok _].
    assert (pollutant_sub_index p d = Some (Py.round (interpolate s c))) as Hsub.
    { unfold pollutant_sub_index, sub_index. rewrite Htbl, Hd.
      by rewrite (find_breakpoint_in_segment tbl s c). }
    exists (Py.round (interpolate s c)). split; [done|].
    split; [exact (AQIProofs.round_interpolate_bounds s c Hok Hc)|].
    split; [apply F64Proofs.round_half|].
    specialize (Hub _ _ _ Hp Hsub). lia.
  - intros p d tbl c Hp Htbl Hd Hc.
    assert (pollutant_sub_index p d = Some 500) as Hsub.
    { unfold pollutant_sub_index. rewrite Htbl, Hd.
      apply sub_index_above; [by apply (AQIProofs.breakpoints_ordered p)|done]. }
    specialize (Hub _ _ _ Hp Hsub). lia.
  - destruct (Z.max_spec 50 (map_fold loop_body 0 pollutants)) as [[Hlt ->]|[Hle ->]];
      [|by left].
    destruct Hwit as [H0|(p & d & Hp & Hsub)]; [lia|]. right.
    pose proof Hsub as Hsub'. unfold pollutant_sub_index in Hsub.
    destruct (breakpoints !! p) as [tbl|] eqn:Htbl; [|done].
    destruct (value d) as [c|] eqn:Hd; [|done].
    exists p, d, tbl, c. split; [done|]. split; [done|]. split; [done|].
    split; [done|].
    unfold sub_index in Hsub.
    destruct (find_breakpoint tbl c) as [a|] eqn:Hf.
    + left. apply AQIProofs.find_breakpoint_Some in Hf as (s & Hs & Hin & ->).
      exists s. split; [done|]. split; [by apply AQIProofs.in_segment_iff|].
      injection Hsub as <-. apply F64Proofs.round_half.
    + destruct (Py.ltb (last_high tbl) c) eqn:Habove; [|done].
      right. split; [by apply PyProofs.ltb_iff|]. by injection Hsub as <-.
Qed.

(** An instance of [calculate_aqi_max_floored]: a PM2.5 reading of 20 lies
    in the segment (12.1, 35.4, 51, 100), where the interpolation gives
    67.61..., so its sub-index is 68 and the index of the dict is 68. *)
Lemma calculate_aqi_max_floored_witness :
  ∃ a,
    pollutant_sub_index "pm25" (mkPollutant (Some 20%Q) "µg/m³" ["OpenAQ"]) = Some a
    ∧ 51 ≤ a ≤ 100
    ∧ (Qabs (inject_Z a - (15754 # 233)) <= 1 # 2)%Q
    ∧ a ≤ calculate_aqi (single "pm25" 20)
    ∧ calculate_aqi (single "pm25" 20) = 68.
Proof.
  destruct (calculate_aqi_max_floored (single "pm25" 20)) as (_ & Hub & _).
  destruct (Hub "pm25" (mkPollutant (Some 20%Q) "µg/m³" ["OpenAQ"]) pm25_table 20%Q
              (mkSeg 12.1 35.4 51 100)) as (a & Hsub & Hrange & Hclose & Hle).
  - reflexivity.
  - reflexivity.
  - reflexivity.
  - repeat constructor.
  - by vm_compute.
  - exists a. split; [exact Hsub|]. split; [exact Hrange|].
    split; [|split; [exact Hle|reflexivity]].
    vm_compute in Hsub. injection Hsub as <-. by vm_compute.
Defined.

End AQIMoreProofs.

(** ** More on the result cache *)

Module CacheMoreProofs.
Import Cache.

Section WithValue.
Context {V : Type}.
Implicit Types (self : CacheService V) (key : string) (now : Q).

(** The deletion loop only deletes: it keeps the TTL, and what is left of
    the timestamps is as it was. *)
Lemma remove_loop_timestamps (keys : list string) (removed_count : Z) self :
  let self' := (remove_loop keys removed_count self).2 in
  ttl self' = ttl self
  ∧ ∀ k ts, _timestamps self' !! k = Some ts → _timestamps self !! k = Some ts.
Proof.
  revert removed_count self. induction keys as [|key rest IH]; intros n self; [done|].
  simpl. destruct (_cache self !! key); [|done]. simpl.
  destruct (_timestamps self !! key) eqn:Hts; [|done].
  destruct (IH (n + 1) (mkCache (delete key (_cache self))
                          (delete key (_timestamps self)) (ttl self))) as [Httl Hsub].
  split; [exact Httl|]. intros k ts Hk. specialize (Hsub k ts Hk). simpl in Hsub.
  apply lookup_delete_Some in Hsub. tauto.
Qed.

(** [cleanup_expired] removes exactly the entries older than the TTL: an
    entry that has not expired keeps its value, an expired one is gone, and a
    second [cleanup_expired] at the same instant finds nothing to remove. *)
Theorem cleanup_removes_exactly_expired self now :
  consistent self →
  ∃ removed_count self',
    cleanup_expired now self = (Py.Ok removed_count, self')
    ∧ (∀ k ts, _timestamps self !! k = Some ts →
         _cache self' !! k = if expired self now ts then None else _cache self !! k)
    ∧ cleanup_expired now self' = (Py.Ok 0, self').
Proof.
  intros Hc.
  destruct (CacheProofs.cleanup_expired_ok now self Hc) as (self' & Hrun & Hc' & _ & Hlk).
  eexists _, self'. split; [exact Hrun|]. split.
  - intros k ts Hts. rewrite Hlk. destruct (expired self now ts) eqn:Hexp.
    + rewrite decide_True; [done|]. apply CacheProofs.elem_of_expired_keys. by exists ts.
    + rewrite decide_False; [done|].
      intros (ts' & Hts' & Hexp')%CacheProofs.elem_of_expired_keys. congruence.
  - pose proof (remove_loop_timestamps (expired_keys now self) 0 self) as [Httl Hsub].
    fold (cleanup_expired now self) in Httl, Hsub. rewrite Hrun in Httl, Hsub.
    cbn [snd] in Httl, Hsub.
    assert (expired_keys now self' = []) as Hnone.
    { destruct (expired_keys now self') as [|k l] eqn:Hkeys; [done|]. exfalso.
      assert (k ∈ expired_keys now self') as Hk by (rewrite Hkeys; by left).
      apply CacheProofs.elem_of_expired_keys in Hk as (ts & Hts & Hexp).
      assert (k ∈ expired_keys now self) as Hk0.
      { apply CacheProofs.elem_of_expired_keys. exists ts. split; [by apply Hsub|].
        unfold expired in *. by rewrite <-Httl. }
      destruct (proj2 (CacheProofs.consistent_lookup self' k Hc')) as [v Hv]; [by eauto|].
      rewrite Hlk, decide_True in Hv; done. }
    unfold cleanup_expired. by rewrite Hnone.
Qed.

(** [get] returns a value only for an entry that is stored and not older
    than the TTL, and then it leaves the cache as it was. *)
Theorem get_returns_only_live self now key (v : V) self' :
  get now key self = (Py.Ok (Some v), self') →
  self' = self ∧ _cache self !! key = Some v
  ∧ ∃ ts, _timestamps self !! key = Some ts ∧ (now - ts <= inject_Z (ttl self))%Q.
Proof.
  unfold get. destruct (_cache self !! key) as [w|]; [|done].
  destruct (_timestamps self !! key) as [ts|]; [|done].
  destruct (expired self now ts) eqn:Hexp; [done|]. intros [= <- <-].
  split; [done|]. split; [done|]. exists ts. split; [done|].
  apply Qnot_lt_le. intros Hlt%CacheProofs.expired_iff. congruence.
Qed.

(** What [get] and [set] do for one key does not change what a later [get]
    returns for another key. *)
Theorem other_keys_untouched self now t key key' (v : V) :
  key ≠ key' →
  (get now key' (set t key v self)).1 = (get now key' self).1
  ∧ (get now key' (get t key self).2).1 = (get now key' self).1.
Proof.
  intros Hne. split.
  - unfold get, set. cbn [_cache _timestamps].
    rewrite !lookup_insert_ne by done.
    destruct (_cache self !! key'); [|done].
    destruct (_timestamps self !! key') as [ts|]; [|done].
    unfold expired. cbn [ttl]. by destruct (Py.ltb _ _).
  - assert (∀ s, _cache s !! key' = _cache self !! key' →
                 _timestamps s !! key' = _timestamps self !! key' →
                 ttl s = ttl self → (get now key' s).1 = (get now key' self).1) as Hsame.
    { intros s Hc Ht Httl. unfold get. rewrite Hc, Ht.
      destruct (_cache self !! key'); [|done].
      destruct (_timestamps self !! key') as [ts|]; [|done].
      unfold expired. rewrite Httl. by destruct (Py.ltb _ _). }
    apply Hsame; unfold get;
      destruct (_cache self !! key); try done;
      destruct (_timestamps self !! key) as [ts|]; try done;
      destruct (expired self t ts); try done; cbn [snd _cache _timestamps];
      by rewrite lookup_delete_ne.
Qed.

End WithValue.

Lemma cleanup_removes_exactly_expired_witness :
  ∃ removed_count self',
    cleanup_expired 1000 (set 500 "b" 2 (set 0 "a" 1 (init 900)))
      = (Py.Ok removed_count, self')
    ∧ _cache self' !! "a" = None ∧ _cache self' !! "b" = Some 2
    ∧ cleanup_expired 1000 self' = (Py.Ok 0, self').
Proof.
  destruct (cleanup_removes_exactly_expired
              (set 500 "b" 2 (set 0 "a" 1 (init (V := Z) 900))) 1000)
    as (n & self' & Hrun & Hlk & Hagain); [by vm_compute|].
  exists n, self'. split; [exact Hrun|].
  split; [exact (Hlk "a" 0%Q eq_refl)|]. split; [exact (Hlk "b" 500%Q eq_refl)|].
  exact Hagain.
Defined.

Lemma get_returns_only_live_witness :
  _cache (set 0 "a" 1 (init 900)) !! "a" = Some 1.
Proof.
  by destruct (get_returns_only_live (set 0 "a" 1 (init (V := Z) 900)) 900 "a" 1
                 (set 0 "a" 1 (init 900)) eq_refl) as (_ & Hstored & _).
Defined.

Lemma other_keys_untouched_witness :
  (get 10 "b" (set 5 "a" 1 (set 0 "b" 2 (init 900)))).1 = Py.Ok (Some 2).
Proof.
  destruct (other_keys_untouched (set 0 "b" 2 (init (V := Z) 900)) 10 5 "a" "b" 1)
    as [Hset _]; [done|].
  rewrite Hset. reflexivity.
Defined.

End CacheMoreProofs.

(** ** The ground-station adapter *)

Module OpenAQProofs.
Import OpenAQ.

(** *** [_calculate_simple_aqi] *)

Lemma simple_body_comm p1 v1 p2 v2 acc :
  simple_body p1 v1 (simple_body p2 v2 acc) = simple_body p2 v2 (simple_body p1 v1 acc).
Proof.
  unfold simple_body.
  destruct (aqi_breakpoints !! p1) as [t1|], (aqi_breakpoints !! p2) as [t2|]; try done.
  destruct (simple_breakpoint t1 v1), (simple_breakpoint t2 v2); lia.
Qed.

(** The index of one reading, when [_calculate_simple_aqi] has a table for
    the parameter and a segment for the value. *)
Lemma simple_fold_is_max (measurements : gmap string Q) :
  let acc := map_fold simple_body 0 measurements in
  acc = 0
  ∨ ∃ p v tbl, measurements !! p = Some v ∧ aqi_breakpoints !! p = Some tbl
               ∧ simple_breakpoint tbl v = Some acc.
Proof.
  apply (map_fold_weak_ind (λ acc (m : gmap string Q),
    acc = 0
    ∨ ∃ p v tbl, m !! p = Some v ∧ aqi_breakpoints !! p = Some tbl
                 ∧ simple_breakpoint tbl v = Some acc)); [by left|].
  intros i x m r Hi IH.
  assert (r = 0 ∨ ∃ p v tbl, <[i:=x]> m !! p = Some v ∧ aqi_breakpoints !! p = Some tbl
                             ∧ simple_breakpoint tbl v = Some r) as IH'.
  { destruct IH as [->|(p & v & tbl & Hp & Htbl & Hsb)]; [by left|].
    right. exists p, v, tbl. split; [|done].
    rewrite lookup_insert_ne; [done|]. intros ->. congruence. }
  unfold simple_body. destruct (aqi_breakpoints !! i) as [tbl|] eqn:Htbl; [|done].
  destruct (simple_breakpoint tbl x) as [a|] eqn:Hsb; [|done].
  destruct (Z.max_spec r a) as [[_ ->]|[_ ->]]; [|done].
  right. exists i, x, tbl. by rewrite lookup_insert_eq.
Qed.

Lemma aqi_breakpoints_cases (P : string → list AQI.Segment → Prop) :
  P "pm25" (take 3 AQI.pm25_table) → P "pm10" (take 3 AQI.pm10_table) →
  P "o3" (take 3 AQI.o3_table) → P "no2" (take 3 AQI.no2_table) →
  ∀ p tbl, aqi_breakpoints !! p = Some tbl → P p tbl.
Proof.
  intros ???? p tbl Hp. apply elem_of_list_to_map_2 in Hp.
  repeat (apply elem_of_cons in Hp as [Hp|Hp]; [by simplify_eq|]).
  by apply elem_of_nil in Hp.
Qed.

(** Every table of [_calculate_simple_aqi] is the first three segments of
    the table [calculate_aqi] has for the same pollutant. *)
Lemma aqi_breakpoints_prefix p tbl :
  aqi_breakpoints !! p = Some tbl →
  ∃ full, AQI.breakpoints !! p = Some full ∧ tbl = take 3 full.
Proof.
  revert p tbl. apply aqi_breakpoints_cases; by eexists.
Qed.

Lemma elem_of_take {A} (x : A) n l : x ∈ take n l → x ∈ l.
Proof. rewrite <-(take_drop n l) at 2. intros. apply elem_of_app. by left. Qed.

Lemma simple_breakpoint_Some tbl v a :
  simple_breakpoint tbl v = Some a →
  ∃ s, s ∈ tbl ∧ AQI.in_segment s v = true ∧ a = Py.int (AQI.interpolate s v)
       ∧ ∀ rest, AQI.find_breakpoint (tbl ++ rest) v
                 = Some (Py.round (AQI.interpolate s v)).
Proof.
  induction tbl as [|s tbl IH]; [done|]. simpl.
  destruct (AQI.in_segment s v) eqn:Hin.
  - intros [= <-]. exists s. split; [by left|]. done.
  - intros (s' & Hs' & Hin' & -> & Hfind)%IH. exists s'. split; [by right|]. done.
Qed.

Lemma aqi_low_nonneg p full s :
  AQI.breakpoints !! p = Some full → s ∈ full → 0 ≤ AQI.aqi_low s.
Proof.
  intros Hp. revert s. rewrite <-Forall_forall. revert p full Hp.
  apply AQIProofs.breakpoints_cases; repeat constructor; by vm_compute.
Qed.

(** Inside a segment of a table of [calculate_aqi] the interpolated value
    lies between the two indices of the segment. *)
Lemma interpolate_bounds p full s v :
  AQI.breakpoints !! p = Some full → s ∈ full → AQI.in_segment s v = true →
  (0 <= inject_Z (AQI.aqi_low s) <= AQI.interpolate s v)%Q
  ∧ (AQI.interpolate s v <= inject_Z (AQI.aqi_high s))%Q.
Proof.
  intros Hp Hs [Hlo Hhi]%AQIProofs.in_segment_iff.
  destruct (AQIProofs.table_ordered_segments _ _ (AQIProofs.breakpoints_ordered p full Hp) Hs)
    as [Hok _].
  pose proof (AQIProofs.interpolate_mono s _ _ Hok Hlo) as H1.
  pose proof (AQIProofs.interpolate_mono s _ _ Hok Hhi) as H2.
  rewrite (AQIProofs.interpolate_low s Hok) in H1.
  rewrite (AQIProofs.interpolate_high s Hok) in H2.
  pose proof (aqi_low_nonneg p full s Hp Hs) as Hnn.
  rewrite Zle_Qle in Hnn. change (inject_Z 0) with 0%Q in Hnn. lra.
Qed.

Lemma int_le_round (x : Q) : (0 <= x)%Q → Py.int x ≤ Py.round x.
Proof.
  intros Hx. rewrite (MLProofs.int_nonneg x Hx). apply PyProofs.round_floor.
Qed.

Lemma simple_aqi_Some (measurements : gmap string Q) a :
  _calculate_simple_aqi measurements = Some a →
  0 < a
  ∧ ∃ p v full s,
      measurements !! p = Some v ∧ is_Some (aqi_breakpoints !! p)
      ∧ AQI.breakpoints !! p = Some full ∧ s ∈ take 3 full
      ∧ AQI.in_segment s v = true ∧ a = Py.int (AQI.interpolate s v)
      ∧ AQI.sub_index full v = Some (Py.round (AQI.interpolate s v)).
Proof.
  unfold _calculate_simple_aqi. case_bool_decide; [done|].
  destruct (Z.ltb_spec 0 (map_fold simple_body 0 measurements)) as [Hpos|]; [|done].
  intros [= <-]. split; [done|].
  destruct (simple_fold_is_max measurements) as [H0|(p & v & tbl & Hp & Htbl & Hsb)];
    [cbv zeta in H0; lia|].
  destruct (aqi_breakpoints_prefix p tbl Htbl) as (full & Hfull & ->).
  apply simple_breakpoint_Some in Hsb as (s & Hs & Hin & Ha & Hfind).
  exists p, v, full, s. repeat split; try done.
  unfold AQI.sub_index. specialize (Hfind (drop 3 full)).
  rewrite take_drop in Hfind. by rewrite Hfind.
Qed.


(** The hourly index of [_calculate_simple_aqi] never exceeds what
    [calculate_aqi] returns for a pollutant dict that carries the same
    readings. *)
Theorem simple_aqi_le_calculate_aqi (measurements : gmap string Q)
    (pollutants : gmap string AQI.PollutantDict) a :
  (∀ p v, measurements !! p = Some v →
          ∃ d, pollutants !! p = Some d ∧ AQI.value d = Some v) →
  _calculate_simple_aqi measurements = Some a →
  a ≤ AQI.calculate_aqi pollutants.
Proof.
  intros Hsame (_ & p & v & full & s & Hp & _ & Hfull & Hs & Hin & -> & Hsub)%simple_aqi_Some.
  destruct (Hsame p v Hp) as (d & Hd & Hv).
  destruct (interpolate_bounds p full s v Hfull (elem_of_take _ _ _ Hs) Hin)
    as [[Hnn Hlo] _].
  pose proof (int_le_round (AQI.interpolate s v)) as Hir.
  rewrite AQIProofs.calculate_aqi_fold.
  destruct (AQIProofs.fold_is_max pollutants) as (_ & Hub & _).
  specialize (Hub p d (Py.round (AQI.interpolate s v)) Hd).
  unfold AQI.pollutant_sub_index in Hub. rewrite Hfull, Hv in Hub.
  specialize (Hub Hsub). cbv zeta in Hub.
  assert (0 <= AQI.interpolate s v)%Q as Hx by lra. specialize (Hir Hx). lia.
Qed.

Lemma simple_aqi_le_calculate_aqi_witness :
  88 ≤ AQI.calculate_aqi (AQI.single "pm25" 30).
Proof.
  apply (simple_aqi_le_calculate_aqi {[ "pm25" := 30%Q ]} (AQI.single "pm25" 30) 88).
  - intros p v [<- <-]%lookup_singleton_Some. eexists. split; [apply lookup_singleton_eq|done].
  - reflexivity.
Defined.

(** *** [get_historical_data] *)


Lemma group_step_Raise e results :
  fold_left group_step results (Py.Raise e) = Py.Raise e.
Proof. induction results as [|m l IH]; [done|]. exact IH. Qed.






(** One measurement with a parameter, a value and a timestamp that does not
    parse makes [get_historical_data] return the empty history, whatever the
    other measurements are. *)
Theorem bad_timestamp_empties_history (before after : list Measurement) m p v :
  parameter m = Some p → truthy (Some p) = true → value m = Some v →
  date_utc m = BadTimestamp →
  historical_data (before ++ m :: after) = [].
Proof.
  intros Hp Htruthy Hv Hdate. unfold historical_data, historical_points.
  rewrite fold_left_app. simpl.
  assert (∃ e, group_step (fold_left group_step before (Py.Ok ∅)) m = Py.Raise e)
    as [e ->].
  { destruct (fold_left group_step before (Py.Ok ∅)) as [by_hour|e]; [|by exists e].
    unfold group_step. cbn [mbind result_bind Py.bind].
    rewrite Hdate, Hp, Hv, Htruthy. by eexists. }
  by rewrite group_step_Raise.
Qed.

Lemma bad_timestamp_empties_history_witness :
  historical_data
    [ mkMeasurement (Some "pm25") (Some 30%Q) (Some 8) (Instant 7400);
      mkMeasurement (Some "pm25") (Some 31%Q) (Some 8) BadTimestamp ] = [].
Proof.
  apply (bad_timestamp_empties_history
           [mkMeasurement (Some "pm25") (Some 30%Q) (Some 8) (Instant 7400)] []
           (mkMeasurement (Some "pm25") (Some 31%Q) (Some 8) BadTimestamp) "pm25" 31);
    reflexivity.
Defined.

(** *** [get_nearest_measurements] *)

(** [param_mapping] maps each of its six keys to itself, and each of them
    has a breakpoint table. *)
Lemma param_mapping_id p standard_param :
  param_mapping !! p = Some standard_param →
  standard_param = p ∧ is_Some (AQI.breakpoints !! p) ∧ truthy (Some p) = true.
Proof.
  intros Hp. apply elem_of_list_to_map_2 in Hp.
  repeat (apply elem_of_cons in Hp as [Hp|Hp]; [simplify_eq; by vm_compute; eauto|]).
  by apply elem_of_nil in Hp.
Qed.

Lemma nearest_step_keeps acc m key v :
  acc.1 !! key = Some v → (nearest_step acc m).1 !! key = Some v.
Proof.
  destruct acc as [pollutants ids]. unfold nearest_step. cbn [fst]. intros Hkey.
  destruct (parameter m) as [p|], (value m) as [w|]; try done.
  destruct (truthy (Some p)); [|done].
  destruct (param_mapping !! lower p) as [sp|]; [|done].
  destruct (truthy (Some sp)); [|done]. cbn [andb].
  case_bool_decide as Hnone; [|done]. cbn [fst].
  rewrite lookup_insert_ne; [done|]. intros ->. congruence.
Qed.

Lemma nearest_fold_keeps results acc key v :
  acc.1 !! key = Some v → (fold_left nearest_step results acc).1 !! key = Some v.
Proof.
  revert acc. induction results as [|m l IH]; intros acc Hkey; [done|].
  simpl. apply IH. by apply nearest_step_keeps.
Qed.

Lemma nearest_step_absent acc m key :
  acc.1 !! key = None → ¬ reports key m → (nearest_step acc m).1 !! key = None.
Proof.
  destruct acc as [pollutants ids]. unfold nearest_step. cbn [fst]. intros Hkey Hnot.
  destruct (parameter m) as [p|] eqn:Hp, (value m) as [w|] eqn:Hw; try done.
  destruct (truthy (Some p)); [|done].
  destruct (param_mapping !! lower p) as [sp|] eqn:Hsp; [|done].
  apply param_mapping_id in Hsp as (-> & _ & _).
  destruct (truthy (Some (lower p))); [|done]. cbn [andb].
  case_bool_decide as Hnone; [|done]. cbn [fst].
  rewrite lookup_insert_ne; [done|]. intros <-. apply Hnot. by exists p, w.
Qed.

Lemma nearest_fold_absent results acc key :
  acc.1 !! key = None → Forall (λ m, ¬ reports key m) results →
  (fold_left nearest_step results acc).1 !! key = None.
Proof.
  revert acc. induction results as [|m l IH]; intros acc Hkey Hall; [done|].
  apply Forall_cons in Hall as [Hm Hl]. simpl. apply IH; [|done].
  by apply nearest_step_absent.
Qed.

Lemma nearest_step_ids acc m id :
  id ∈ acc.2 → id ∈ (nearest_step acc m).2.
Proof.
  destruct acc as [pollutants ids]. unfold nearest_step. cbn [snd]. intros Hid.
  destruct (parameter m) as [p|], (value m) as [w|]; try done.
  destruct (truthy (Some p)); [|done].
  destruct (param_mapping !! lower p) as [sp|]; [|done].
  destruct (truthy (Some sp) && bool_decide (pollutants !! sp = None)); [|done].
  cbn [snd]. set_solver.
Qed.

Lemma nearest_fold_ids results acc id :
  id ∈ acc.2 → id ∈ (fold_left nearest_step results acc).2.
Proof.
  revert acc. induction results as [|m l IH]; intros acc Hid; [done|].
  simpl. apply IH. by apply nearest_step_ids.
Qed.

Lemma nearest_measurements_eq results :
  nearest_measurements results =
    API.mkOpenAQ (Some (fold_left nearest_step results (∅, ∅)).1)
      (Some (elements (fold_left nearest_step results (∅, ∅)).2)).
Proof. unfold nearest_measurements. by destruct (fold_left _ _ _). Qed.

(** The first measurement of the response that carries a value for one of
    the six pollutants of [param_mapping] decides the value of that pollutant,
    and its station is among the stations returned. *)
Theorem nearest_first_wins (before after : list Measurement) m p v :
  parameter m = Some p → value m = Some v →
  is_Some (param_mapping !! lower p) →
  Forall (λ m', ¬ reports (lower p) m') before →
  ∃ pollutants station_ids,
    nearest_measurements (before ++ m :: after)
      = API.mkOpenAQ (Some pollutants) (Some station_ids)
    ∧ pollutants !! lower p = Some v
    ∧ str (locationId m) ∈ station_ids.
Proof.
  intros Hp Hv [sp Hsp] Hbefore. rewrite nearest_measurements_eq.
  eexists _, _. split; [reflexivity|].
  rewrite fold_left_app. simpl.
  pose proof (nearest_fold_absent before (∅, ∅) (lower p) (lookup_empty _) Hbefore) as Habs.
  destruct (fold_left nearest_step before (∅, ∅)) as [pollutants ids] eqn:Hfold.
  cbn [fst] in Habs.
  pose proof (param_mapping_id _ _ Hsp) as (-> & _ & Htruthy).
  assert (truthy (Some p) = true) as Htp.
  { destruct p; [by vm_compute in Hsp|done]. }
  assert (nearest_step (pollutants, ids) m
          = (<[lower p := v]> pollutants, {[ str (locationId m) ]} ∪ ids)) as ->.
  { unfold nearest_step. rewrite Hp, Hv, Htp, Hsp, Htruthy. cbn [andb].
    by rewrite bool_decide_true. }
  split.
  - apply nearest_fold_keeps. cbn [fst]. apply lookup_insert_eq.
  - apply elem_of_elements, nearest_fold_ids. cbn [snd]. set_solver.
Qed.

Lemma nearest_first_wins_witness :
  ∃ pollutants station_ids,
    nearest_measurements
      [ mkMeasurement (Some "temperature") (Some 21%Q) (Some 7) NoTimestamp;
        mkMeasurement (Some "PM25") (Some 20%Q) (Some 7) NoTimestamp;
        mkMeasurement (Some "pm25") (Some 30%Q) (Some 8) NoTimestamp ]
      = API.mkOpenAQ (Some pollutants) (Some station_ids)
    ∧ pollutants !! "pm25" = Some 20%Q
    ∧ "7" ∈ station_ids.
Proof.
  apply (nearest_first_wins
           [mkMeasurement (Some "temperature") (Some 21%Q) (Some 7) NoTimestamp]
           [mkMeasurement (Some "pm25") (Some 30%Q) (Some 8) NoTimestamp]
           (mkMeasurement (Some "PM25") (Some 20%Q) (Some 7) NoTimestamp) "PM25" 20).
  - reflexivity.
  - reflexivity.
  - by vm_compute; eexists.
  - repeat constructor. intros (p & v & [= <-] & _ & Hlower). by vm_compute in Hlower.
Defined.

Lemma nearest_fold_tabulated results key v :
  (fold_left nearest_step results (∅, ∅)).1 !! key = Some v →
  is_Some (AQI.breakpoints !! key)
  ∧ ∃ m p, m ∈ results ∧ parameter m = Some p ∧ value m = Some v ∧ lower p = key.
Proof.
  revert v. induction results as [|m results IH] using rev_ind; intros v.
  - simpl. by rewrite lookup_empty.
  - rewrite fold_left_app. simpl.
    destruct (fold_left nearest_step results (∅, ∅)) as [pollutants ids] eqn:Hfold.
    cbn [fst] in IH.
    assert (pollutants !! key = Some v →
            is_Some (AQI.breakpoints !! key)
            ∧ ∃ m0 p, m0 ∈ (results ++ [m])%list ∧ parameter m0 = Some p
                      ∧ value m0 = Some v ∧ lower p = key) as Hold.
    { intros (Htab & m0 & p & Hm0 & Hrest)%IH. split; [done|].
      exists m0, p. split; [|done]. apply elem_of_app. by left. }
    unfold nearest_step.
    destruct (parameter m) as [p|] eqn:Hp, (value m) as [w|] eqn:Hw; try exact Hold.
    destruct (truthy (Some p)); [|exact Hold].
    destruct (param_mapping !! lower p) as [sp|] eqn:Hsp; [|exact Hold].
    apply param_mapping_id in Hsp as (-> & Htab & _).
    destruct (truthy (Some (lower p)) && bool_decide (pollutants !! lower p = None));
      [|exact Hold].
    cbn [fst]. destruct (decide (lower p = key)) as [<-|Hne].
    + rewrite lookup_insert_eq. intros [= <-]. split; [done|].
      exists m, p. split; [|done]. apply elem_of_app. right. by left.
    + rewrite lookup_insert_ne by done. exact Hold.
Qed.

(** Every pollutant that [get_nearest_measurements] returns has a
    breakpoint table in [calculate_aqi], and its value is the value of one of
    the measurements of the response for that pollutant; no station is listed
    twice. *)
Theorem nearest_pollutants_tabulated (results : list Measurement) pollutants station_ids :
  nearest_measurements results = API.mkOpenAQ (Some pollutants) (Some station_ids) →
  NoDup station_ids
  ∧ ∀ key v, pollutants !! key = Some v →
      is_Some (AQI.breakpoints !! key)
      ∧ ∃ m p, m ∈ results ∧ parameter m = Some p ∧ value m = Some v ∧ lower p = key.
Proof.
  rewrite nearest_measurements_eq. intros [= <- <-].
  split; [apply NoDup_elements|]. intros key v. apply nearest_fold_tabulated.
Qed.

Lemma nearest_pollutants_tabulated_witness :
  nearest_measurements [mkMeasurement (Some "PM25") (Some 20%Q) (Some 7) NoTimestamp]
  = API.mkOpenAQ (Some {[ "pm25" := 20%Q ]}) (Some ["7"])
  ∧ NoDup ["7"]
  ∧ is_Some (AQI.breakpoints !! "pm25").
Proof.
  split; [reflexivity|].
  destruct (nearest_pollutants_tabulated
              [mkMeasurement (Some "PM25") (Some 20%Q) (Some 7) NoTimestamp]
              {[ "pm25" := 20%Q ]} ["7"] eq_refl) as [Hnodup Htab].
  split; [exact Hnodup|].
  destruct (Htab "pm25" 20%Q eq_refl) as [Hsome _]. exact Hsome.
Defined.

End OpenAQProofs.

(** ** The weather adapter *)

Module WeatherProofs.
Import Builtins Weather.

Lemma round1_nonneg (x : Q) : (0 <= x)%Q → (0 <= round1 x)%Q.
Proof.
  intros Hx. unfold round1.
  assert (0 ≤ Py.round (x * 10)) as Hr.
  { rewrite <-(PyProofs.round_inject_Z 0). apply PyProofs.round_mono.
    change (inject_Z 0) with 0%Q. nra. }
  rewrite Zle_Qle in Hr. change (inject_Z 0) with 0%Q in Hr.
  apply Qle_shift_div_l; [reflexivity|]. lra.
Qed.

Lemma max0_nonneg (x : Q) : (0 <= max0 x)%Q.
Proof.
  unfold max0. destruct (Py.ltb 0 x) eqn:Hlt; [|lra].
  apply PyProofs.ltb_iff in Hlt. lra.
Qed.

(** The dict of [get_weather_data] always has its five keys; precipitation
    and wind speed are never negative and the humidity lies between 0 and
    100, whatever the clock and the random draws are. *)
Theorem weather_data_complete_and_bounded (env : Env) (lat lon : Q) :
  ∃ precip_mm wind_speed_ms temp_c humidity,
    get_weather_data env lat lon
    = WeatherDict.mk (Some precip_mm) (Some wind_speed_ms) (Some temp_c) (Some humidity)
        (Some ["IMERG"; "MERRA-2"])
    ∧ (0 <= precip_mm)%Q ∧ (0 <= wind_speed_ms)%Q ∧ 0 ≤ humidity ≤ 100.
Proof.
  unfold get_weather_data, _get_weather_estimate. cbv zeta.
  do 4 eexists. split; [reflexivity|].
  split; [apply round1_nonneg, max0_nonneg|].
  split; [apply round1_nonneg, max0_nonneg|]. lia.
Qed.

Lemma month_in_winter_summer (month : Z) :
  month_in month [12; 1; 2] = true → month_in month [6; 7; 8] = false.
Proof.
  unfold month_in. intros Hw%bool_decide_eq_true. apply bool_decide_eq_false.
  rewrite !elem_of_cons, elem_of_nil in Hw. rewrite !elem_of_cons, elem_of_nil. lia.
Qed.

(** Away from the equator the seasonal adjustments of the two hemispheres
    cancel: the estimates at [lat] and [-lat] for the same month add up to
    twice the base temperature of that latitude. *)
Theorem hemispheres_have_opposite_seasons (env : Env) (lat : Q) :
  ¬ (lat == 0)%Q →
  (_estimate_temperature env lat + _estimate_temperature env (- lat)
   == 2 * (30 - Qabs lat * 0.6))%Q.
Proof.
  intros Hne. unfold _estimate_temperature. cbv zeta.
  rewrite Qabs_opp. unfold Py.leb.
  destruct (Qle_bool 0 lat) eqn:H1, (Qle_bool 0 (- lat)) eqn:H2.
  - apply Qle_bool_iff in H1, H2. exfalso. apply Hne. lra.
  - destruct (month_in _ [12; 1; 2]) eqn:Hw.
    + rewrite (month_in_winter_summer _ Hw). ring.
    + destruct (month_in _ [6; 7; 8]); ring.
  - destruct (month_in _ [12; 1; 2]) eqn:Hw.
    + rewrite (month_in_winter_summer _ Hw). ring.
    + destruct (month_in _ [6; 7; 8]); ring.
  - assert (¬ (0 <= lat)%Q) by (rewrite <-Qle_bool_iff; congruence).
    assert (¬ (0 <= - lat)%Q) by (rewrite <-Qle_bool_iff; congruence). lra.
Qed.

Lemma hemispheres_have_opposite_seasons_witness :
  (_estimate_temperature (mkEnv 1 1 0 0 0 0 0 0) 40
   + _estimate_temperature (mkEnv 1 1 0 0 0 0 0 0) (- (40))
   == 2 * (30 - Qabs 40 * 0.6))%Q.
Proof.
  apply (hemispheres_have_opposite_seasons (mkEnv 1 1 0 0 0 0 0 0) 40).
  by vm_compute.
Defined.

End WeatherProofs.

(** ** The satellite adapter *)

Module TempoProofs.
Import Builtins Tempo.

Lemma min_step_nonneg m d :
  (0 <= d)%Q → (∀ x, m = Some x → (0 <= x)%Q) →
  ∀ x, min_step m d = Some x → (0 <= x)%Q.
Proof.
  intros Hd Hm x. unfold min_step. destruct m as [m|]; intros [= <-]; [|done].
  destruct (Py.ltb d m); [done|by apply Hm].
Qed.

Section WithPower.
Context `{Power}.

Lemma min_distance_nonneg lat lon x :
  (∀ y, (0 <= pow_half y)%Q) → min_distance lat lon = Some x → (0 <= x)%Q.
Proof.
  intros Hpow. unfold min_distance. generalize urban_centers.
  intros centers. revert x.
  assert (∀ x, @None Q = Some x → (0 <= x)%Q) as Hinit by done.
  revert Hinit. generalize (@None Q).
  induction centers as [|[urban_lat urban_lon] centers IH]; intros m Hm x; simpl.
  - apply Hm.
  - apply IH. by apply min_step_nonneg.
Qed.

(** When [x ** 0.5] is never negative, the urban factor lies between 1 and
    2. *)
Theorem urban_factor_bounds (lat lon : Q) :
  (∀ y, (0 <= pow_half y)%Q) →
  (1 <= _get_urban_factor lat lon <= 2)%Q.
Proof.
  intros Hpow. unfold _get_urban_factor.
  destruct (min_distance lat lon) as [d|] eqn:Hd; [|lra].
  apply min_distance_nonneg in Hd; [|done].
  destruct (Py.ltb d 1) eqn:H1.
  { apply PyProofs.ltb_iff in H1. lra. }
  destruct (Py.ltb d 5) eqn:H5; [|lra].
  apply PyProofs.ltb_iff in H5.
  assert (¬ (d < 1)%Q) by (rewrite <-PyProofs.ltb_iff; congruence). lra.
Qed.

(** Each of the four pollutants has a value in the dict of
    [get_pollutants]. *)
Lemma fallback_lookup (env : Env) (lat lon : Q) (pollutant : string) :
  pollutant ∈ ["no2"; "o3"; "pm25"; "hcho"] →
  ∃ concentration, get_pollutants env lat lon !! pollutant = Some (Some concentration).
Proof.
  intros Hin. unfold get_pollutants, _get_tempo_fallback. cbv zeta.
  rewrite lookup_fmap, map_lookup_imap, lookup_fmap.
  rewrite !elem_of_cons, elem_of_nil in Hin.
  destruct Hin as [->|[->|[->|[->|[]]]]]; by eexists.
Qed.

(** The dict of [get_pollutants] has exactly the four keys [no2], [o3],
    [pm25] and [hcho], each with a value that is not [None] and not negative,
    whatever the clock, the random draws and the power function are. *)
Theorem pollutants_complete_and_nonneg (env : Env) (lat lon : Q) :
  dom (get_pollutants env lat lon) = {[ "no2"; "o3"; "pm25"; "hcho" ]}
  ∧ ∀ pollutant value,
      get_pollutants env lat lon !! pollutant = Some value →
      ∃ concentration, value = Some concentration ∧ (0 <= concentration)%Q.
Proof.
  unfold get_pollutants, _get_tempo_fallback. cbv zeta. split.
  - rewrite dom_fmap_L. apply set_eq. intros p.
    rewrite elem_of_dom, map_lookup_imap, lookup_fmap.
    rewrite !elem_of_union, !elem_of_singleton.
    destruct (decide (p = "no2")) as [->|?]; [split; [by auto|by eexists]|].
    destruct (decide (p = "o3")) as [->|?]; [split; [by auto|by eexists]|].
    destruct (decide (p = "pm25")) as [->|?]; [split; [by auto|by eexists]|].
    destruct (decide (p = "hcho")) as [->|?]; [split; [by auto|by eexists]|].
    cbn [list_to_map foldr]. rewrite !lookup_insert_ne, lookup_empty by done.
    split; [by intros [? ?]|]. intros [[[?|?]|?]|?]; done.
  - intros p v. rewrite lookup_fmap, map_lookup_imap.
    destruct (_ !! p) as [x|]; [|done]. cbn. intros [= <-].
    eexists. split; [done|]. unfold max0.
    destruct (Py.ltb 0 _) eqn:Hlt; [|lra]. apply PyProofs.ltb_iff in Hlt. lra.
Qed.

End WithPower.

Lemma urban_factor_bounds_witness :
  (1 <= _get_urban_factor (H := floor_sqrt) 41 (-74) <= 2)%Q.
Proof.
  apply (urban_factor_bounds (H := floor_sqrt) 41 (-74)).
  intros y. unfold pow_half, floor_sqrt.
  change 0%Q with (inject_Z 0). rewrite <-Zle_Qle. apply Z.sqrt_nonneg.
Defined.

End TempoProofs.

(** ** The coordinator from end to end *)

Module CoordinatorProofs.
Import API Coordinator.

(** The merged dict, entry by entry. *)
Lemma merge_pollutants_lookup (tempo : gmap string (option Q)) (openaq : OpenAQDict) :
  ∃ merged,
    merge_pollutants tempo openaq = Py.Ok merged
    ∧ ∀ p, merged !! p =
             match default ∅ (oa_pollutants openaq) !! p with
             | Some ground_value => overlay (tempo_entry tempo p) ground_value
             | None => tempo_entry tempo p
             end.
Proof.
  unfold merge_pollutants.
  destruct (APIProofs.openaq_fold_lookup (map_fold tempo_step ∅ tempo)
              (default ∅ (oa_pollutants openaq))) as (merged & Hrun & Hlk).
  { intros p entry. rewrite APIProofs.tempo_fold_lookup.
    destruct (tempo !! p) as [[v|]|]; [|done..]. intros [= <-]. by eexists. }
  exists merged. split; [done|]. intros p. rewrite Hlk.
  by rewrite APIProofs.tempo_fold_lookup.
Qed.

Lemma merged_has_values (tempo : gmap string (option Q)) (openaq : OpenAQDict) merged p e :
  merge_pollutants tempo openaq = Py.Ok merged →
  merged !! p = Some e → is_Some (AQI.value e).
Proof.
  destruct (merge_pollutants_lookup tempo openaq) as (merged' & -> & Hlk).
  intros [= <-]. rewrite Hlk. unfold tempo_entry, overlay.
  destruct (default ∅ (oa_pollutants openaq) !! p) as [g|],
           (tempo !! p) as [[v|]|]; intros; simplify_eq/=; by eexists.
Qed.

(** A pollutant that only the satellite reports keeps the satellite value
    and the single tag ["TEMPO"]; a pollutant that neither source reports (or
    that the satellite reports as [None]) is absent from the merged set. *)
Theorem merge_without_ground (tempo : gmap string (option Q)) (openaq : OpenAQDict)
    (pollutant : string) :
  default ∅ (oa_pollutants openaq) !! pollutant = None →
  ∃ merged,
    merge_pollutants tempo openaq = Py.Ok merged
    ∧ merged !! pollutant =
        match tempo !! pollutant with
        | Some (Some satellite_value) =>
            Some (AQI.mkPollutant (Some satellite_value)
                    (if bool_decide (pollutant ≠ "hcho") then "µg/m³" else "ppb")
                    ["TEMPO"])
        | _ => None
        end.
Proof.
  intros Hground. destruct (merge_pollutants_lookup tempo openaq) as (merged & Hrun & Hlk).
  exists merged. split; [done|]. by rewrite Hlk, Hground.
Qed.

Lemma merge_without_ground_witness :
  ∃ merged,
    merge_pollutants {[ "hcho" := Some 2%Q ]} (mkOpenAQ (Some {[ "no2" := 20%Q ]}) None)
      = Py.Ok merged
    ∧ merged !! "hcho" = Some (AQI.mkPollutant (Some 2%Q) "ppb" ["TEMPO"])
    ∧ merged !! "o3" = None.
Proof.
  destruct (merge_without_ground {[ "hcho" := Some 2%Q ]}
              (mkOpenAQ (Some {[ "no2" := 20%Q ]}) None) "hcho")
    as (merged & Hrun & Hhcho); [reflexivity|].
  destruct (merge_without_ground {[ "hcho" := Some 2%Q ]}
              (mkOpenAQ (Some {[ "no2" := 20%Q ]}) None) "o3")
    as (merged' & Hrun' & Ho3); [reflexivity|].
  rewrite Hrun in Hrun'. injection Hrun' as <-.
  exists merged. split; [exact Hrun|]. split; [exact Hhcho | exact Ho3].
Defined.

(** The models built from a dict whose entries all carry a value. *)
Lemma pollutant_models_lookup (merged : gmap string AQI.PollutantDict) :
  (∀ p e, merged !! p = Some e → is_Some (AQI.value e)) →
  ∃ models,
    pollutant_models merged = Py.Ok models
    ∧ ∀ p, models !! p =
             match merged !! p with
             | Some e =>
                 match AQI.value e with
                 | Some v => Some (PollutantData.mk v (AQI.unit e) (AQI.source e))
                 | None => None
                 end
             | None => None
             end.
Proof.
  unfold pollutant_models.
  apply (map_fold_weak_ind (λ acc (m : gmap string AQI.PollutantDict),
    (∀ p e, m !! p = Some e → is_Some (AQI.value e)) →
    ∃ models, acc = Py.Ok models
      ∧ ∀ p, models !! p =
               match m !! p with
               | Some e =>
                   match AQI.value e with
                   | Some v => Some (PollutantData.mk v (AQI.unit e) (AQI.source e))
                   | None => None
                   end
               | None => None
               end)).
  - intros _. exists ∅. split; [done|]. intros p. by rewrite !lookup_empty.
  - intros i x m acc Hi IH Hval.
    destruct IH as (models & -> & Hlk).
    { intros p e Hp. apply (Hval p). rewrite lookup_insert_ne; [done|].
      intros ->. congruence. }
    destruct (Hval i x (lookup_insert_eq _ _ _)) as [v Hv].
    cbn [mbind result_bind Py.bind]. unfold to_pollutant_model. rewrite Hv.
    cbn [Py.bind]. eexists. split; [done|]. intros p.
    destruct (decide (i = p)) as [->|Hne].
    + by rewrite !lookup_insert_eq, Hv.
    + rewrite !lookup_insert_ne by done. apply Hlk.
Qed.

Lemma to_weather_model_complete (d : WeatherDict.t) :
  complete d = true → ∃ weather, to_weather_model d = Py.Ok weather.
Proof. destruct d as [[?|] [?|] [?|] [?|] [?|]]; try done. by eexists. Qed.

Lemma to_weather_model_incomplete (d : WeatherDict.t) :
  complete d = false → to_weather_model d = Py.Raise Py.ValidationError.
Proof. by destruct d as [[?|] [?|] [?|] [?|] [?|]]. Qed.

Lemma calculate_aqi_in_range (pollutants : gmap string AQI.PollutantDict) :
  50 ≤ AQI.calculate_aqi pollutants ≤ 500.
Proof.
  rewrite AQIProofs.calculate_aqi_fold.
  destruct (AQIProofs.fold_is_max pollutants) as (_ & _ & [->|(p & d & _ & Hsub)]); [lia|].
  unfold AQI.pollutant_sub_index in Hsub.
  destruct (AQI.breakpoints !! p) as [tbl|] eqn:Hp; [|done].
  destruct (AQI.value d) as [c|]; [|done].
  pose proof (AQIProofs.sub_index_le_500 tbl c _ (AQIProofs.breakpoints_ordered p tbl Hp) Hsub).
  lia.
Qed.

Section WithSklearn.
Context `{ML.Sklearn}.

Lemma predict_forecast_length env lat lon historical_data weather hours :
  length (ML.predict_forecast env lat lon historical_data weather hours)
  = Z.to_nat hours.
Proof.
  destruct (MLProofs.predict_forecast_well_shaped env lat lon historical_data weather hours)
    as (now & _ & Ht & _).
  rewrite <-(length_map ML.t), Ht, length_map, MLProofs.length_range. f_equal. lia.
Qed.

(** The assembly with its intermediate results named. *)
Lemma assemble_Ok env src lat lon hours merged models weather :
  merge_pollutants (tempo_dict src) (openaq_dict src) = Py.Ok merged →
  pollutant_models merged = Py.Ok models →
  (if WeatherDict.truthy (weather_dict src) then to_weather_model (weather_dict src)
   else Py.Ok default_weather) = Py.Ok weather →
  ∃ response,
    assemble env src lat lon hours = Py.Ok response
    ∧ AirQualityResponse.pollutants response = models
    ∧ AirQualityResponse.weather response = weather
    ∧ AirQualityResponse.aqi response
      = AQIData.mk (AQI.calculate_aqi merged) "0-500"
          (get_aqi_category (AQI.calculate_aqi merged))
    ∧ AirQualityResponse.forecast_24h response
      = List.map to_forecast_point
          (ML.predict_forecast (ml_env env) lat lon (historical_list src)
             (weather_dict src) hours)
    ∧ HealthAdvice.general (AirQualityResponse.advice response)
      = Advice.general
          (Advice.get_health_advice (AQI.calculate_aqi merged) (weather_dict src)).
Proof.
  intros Hmerge Hmodels Hweather.
  unfold assemble. unfold tempo_dict, openaq_dict, weather_dict, historical_list in *.
  rewrite Hmerge. cbn [mbind result_bind Py.bind].
  rewrite Hmodels. cbn [Py.bind]. rewrite Hweather. cbn [Py.bind].
  eexists. split; [reflexivity|]. by cbn.
Qed.

(** The assembly succeeds when the weather dict is empty or complete. *)
Lemma assemble_succeeds env src lat lon hours :
  (WeatherDict.truthy (weather_dict src) = true → complete (weather_dict src) = true) →
  ∃ response merged models weather,
    assemble env src lat lon hours = Py.Ok response
    ∧ merge_pollutants (tempo_dict src) (openaq_dict src) = Py.Ok merged
    ∧ pollutant_models merged = Py.Ok models
    ∧ (if WeatherDict.truthy (weather_dict src) then to_weather_model (weather_dict src)
       else Py.Ok default_weather) = Py.Ok weather
    ∧ AirQualityResponse.pollutants response = models
    ∧ AirQualityResponse.weather response = weather.
Proof.
  intros Hweather.
  destruct (merge_pollutants_lookup (tempo_dict src) (openaq_dict src))
    as (merged & Hmerge & _).
  destruct (pollutant_models_lookup merged) as (models & Hmodels & _).
  { intros p e. by apply merged_has_values with (1 := Hmerge). }
  assert (∃ weather,
            (if WeatherDict.truthy (weather_dict src)
             then to_weather_model (weather_dict src)
             else Py.Ok default_weather) = Py.Ok weather) as [weather Hw].
  { destruct (WeatherDict.truthy (weather_dict src)); [|by eauto].
    by apply to_weather_model_complete, Hweather. }
  destruct (assemble_Ok env src lat lon hours merged models weather Hmerge Hmodels Hw)
    as (response & Hrun & Hp & Hwr & _).
  by exists response, merged, models, weather.
Qed.

(** What a successful assembly was built from. *)
Lemma assemble_inv env src lat lon hours response :
  assemble env src lat lon hours = Py.Ok response →
  ∃ merged,
    merge_pollutants (tempo_dict src) (openaq_dict src) = Py.Ok merged
    ∧ (∀ p, AirQualityResponse.pollutants response !! p =
              match merged !! p with
              | Some e =>
                  match AQI.value e with
                  | Some v => Some (PollutantData.mk v (AQI.unit e) (AQI.source e))
                  | None => None
                  end
              | None => None
              end)
    ∧ AirQualityResponse.aqi response
      = AQIData.mk (AQI.calculate_aqi merged) "0-500"
          (get_aqi_category (AQI.calculate_aqi merged))
    ∧ AirQualityResponse.forecast_24h response
      = List.map to_forecast_point
          (ML.predict_forecast (ml_env env) lat lon (historical_list src)
             (weather_dict src) hours).
Proof.
  intros Hrun.
  destruct (merge_pollutants_lookup (tempo_dict src) (openaq_dict src))
    as (merged & Hmerge & _).
  destruct (pollutant_models_lookup merged) as (models & Hmodels & Hlk).
  { intros p e. by apply merged_has_values with (1 := Hmerge). }
  destruct (if WeatherDict.truthy (weather_dict src)
            then to_weather_model (weather_dict src)
            else Py.Ok default_weather) as [weather|e] eqn:Hw.
  - destruct (assemble_Ok env src lat lon hours merged models weather Hmerge Hmodels Hw)
      as (response' & Hrun' & Hp & _ & Haqi & Hf & _).
    rewrite Hrun in Hrun'. injection Hrun' as <-.
    exists merged. rewrite Hp. by split.
  - exfalso. revert Hrun. unfold assemble.
    unfold tempo_dict, openaq_dict, weather_dict, historical_list in *.
    rewrite Hmerge. cbn [mbind result_bind Py.bind].
    rewrite Hmodels. cbn [Py.bind]. by rewrite Hw.
Qed.

(** With a cache whose two stores agree, and a weather dict that is empty
    or has all its five keys, the endpoint returns a record and raises
    nothing, whatever the four adapters delivered; the cache stays
    consistent. *)
Theorem get_air_quality_succeeds env src lat lon hours
    (cache_service : Cache.CacheService AirQualityResponse.t) :
  Cache.consistent cache_service →
  (WeatherDict.truthy (weather_dict src) = true → complete (weather_dict src) = true) →
  ∃ response cache_service',
    get_air_quality env src lat lon hours cache_service = (Py.Ok response, cache_service')
    ∧ Cache.consistent cache_service'.
Proof.
  intros Hc Hweather. unfold get_air_quality.
  destruct (CacheProofs.get_consistent (time_get env) (cache_key lat lon) cache_service Hc)
    as [[r Hr] Hc1].
  destruct (Cache.get (time_get env) (cache_key lat lon) cache_service)
    as [outcome cache1]. simpl in Hr, Hc1. subst outcome.
  destruct r as [cached|]; [by eauto|].
  destruct (assemble_succeeds env src lat lon hours Hweather) as (response & _ & _ & _ & -> & _).
  eexists _, _. split; [reflexivity|]. by apply CacheProofs.set_consistent.
Qed.

(** A weather dict that has some but not all of its five keys makes a
    request that misses the cache fail with HTTP 500, and nothing is stored
    in the cache. *)
Theorem incomplete_weather_fails env src lat lon hours
    (cache_service : Cache.CacheService AirQualityResponse.t) :
  (Cache.get (time_get env) (cache_key lat lon) cache_service).1 = Py.Ok None →
  WeatherDict.truthy (weather_dict src) = true →
  complete (weather_dict src) = false →
  get_air_quality env src lat lon hours cache_service
  = (Py.Raise (Py.HTTPException 500),
     (Cache.get (time_get env) (cache_key lat lon) cache_service).2).
Proof.
  intros Hmiss Htruthy Hincomplete. unfold get_air_quality.
  destruct (Cache.get (time_get env) (cache_key lat lon) cache_service)
    as [outcome cache1]. simpl in Hmiss. subst outcome. simpl.
  destruct (merge_pollutants_lookup (tempo_dict src) (openaq_dict src))
    as (merged & Hmerge & _).
  destruct (pollutant_models_lookup merged) as (models & Hmodels & _).
  { intros p e. by apply merged_has_values with (1 := Hmerge). }
  unfold assemble. unfold tempo_dict, openaq_dict, weather_dict, historical_list in *.
  rewrite Hmerge. cbn [mbind result_bind Py.bind].
  rewrite Hmodels. cbn [Py.bind]. rewrite Htruthy.
  by rewrite (to_weather_model_incomplete _ Hincomplete).
Qed.

(** The record assembled after a cache miss: its pollutants are those of
    the merged set, its index is what [calculate_aqi] gives for the merged set
    and lies between 50 and 500, its category is the one of that index, and
    its forecast has [hours] points. *)
Theorem assembled_record env src lat lon hours response :
  assemble env src lat lon hours = Py.Ok response →
  ∃ merged,
    merge_pollutants (tempo_dict src) (openaq_dict src) = Py.Ok merged
    ∧ dom (AirQualityResponse.pollutants response) = dom merged
    ∧ AQIData.value (AirQualityResponse.aqi response) = AQI.calculate_aqi merged
    ∧ 50 ≤ AQIData.value (AirQualityResponse.aqi response) ≤ 500
    ∧ AQIData.category (AirQualityResponse.aqi response)
      = get_aqi_category (AQIData.value (AirQualityResponse.aqi response))
    ∧ length (AirQualityResponse.forecast_24h response) = Z.to_nat hours.
Proof.
  intros Hrun.
  destruct (assemble_inv env src lat lon hours response Hrun)
    as (merged & Hmerge & Hlk & Haqi & Hf).
  exists merged. split; [done|]. rewrite Haqi, Hf. cbn.
  split.
  { apply set_eq. intros p. rewrite !elem_of_dom, Hlk.
    destruct (merged !! p) as [e|] eqn:He; [|by split; intros [? ?]].
    destruct (merged_has_values _ _ _ _ _ Hmerge He) as [v ->].
    split; by eauto. }
  split; [done|]. split; [apply calculate_aqi_in_range|]. split; [done|].
  by rewrite length_map, predict_forecast_length.
Qed.

(** *** The coordinator fed by the two simulated adapters *)

Lemma weather_dict_of_adapter src wenv lat lon :
  weather_data src = Returned (Weather.get_weather_data wenv lat lon) →
  weather_dict src = Weather.get_weather_data wenv lat lon.
Proof.
  intros Hsrc. unfold weather_dict. by rewrite Hsrc.
Qed.

(** When the weather of a request is the dict of [get_weather_data], the
    assembly raises nothing, whatever the other three adapters delivered, and
    the weather of the record is that dict: precipitation and wind speed not
    negative, humidity between 0 and 100. *)
Theorem weather_adapter_reaches_response env wenv src lat lon hours :
  weather_data src = Returned (Weather.get_weather_data wenv lat lon) →
  ∃ response,
    assemble env src lat lon hours = Py.Ok response
    ∧ to_weather_model (Weather.get_weather_data wenv lat lon)
      = Py.Ok (AirQualityResponse.weather response)
    ∧ (0 <= WeatherData.precip_mm (AirQualityResponse.weather response))%Q
    ∧ (0 <= WeatherData.wind_speed_ms (AirQualityResponse.weather response))%Q
    ∧ 0 ≤ WeatherData.humidity (AirQualityResponse.weather response) ≤ 100.
Proof.
  intros Hsrc. pose proof (weather_dict_of_adapter src wenv lat lon Hsrc) as Hdict.
  destruct (assemble_succeeds env src lat lon hours)
    as (response & _ & _ & weather & Hrun & _ & _ & Hweather & _ & Hwr).
  { intros _. by rewrite Hdict. }
  exists response. split; [exact Hrun|]. rewrite Hwr.
  rewrite Hdict in Hweather.
  unfold Weather.get_weather_data, Weather._get_weather_estimate in *. cbv zeta in *.
  cbn [WeatherDict.truthy to_weather_model] in *.
  split; [exact Hweather|]. injection Hweather as <-.
  cbn [WeatherData.precip_mm WeatherData.wind_speed_ms WeatherData.humidity].
  split; [apply WeatherProofs.round1_nonneg, WeatherProofs.max0_nonneg|].
  split; [apply WeatherProofs.round1_nonneg, WeatherProofs.max0_nonneg|]. lia.
Qed.

Context `{Tempo.Power}.

Lemma tempo_dict_of_adapter src tenv lat lon :
  tempo_data src = Returned (Tempo.get_pollutants tenv lat lon) →
  tempo_dict src = Tempo.get_pollutants tenv lat lon.
Proof.
  intros Hsrc. unfold tempo_dict. rewrite Hsrc.
  case_bool_decide as Hsz; [|done].
  apply map_size_empty_inv in Hsz.
  destruct (TempoProofs.fallback_lookup tenv lat lon "no2") as [c Hc]; [by left|].
  by rewrite Hsz, lookup_empty in Hc.
Qed.

(** When the satellite data of a request is the dict of [get_pollutants],
    every assembled record lists the four pollutants [no2], [o3], [pm25] and
    [hcho], each tagged with ["TEMPO"] first, formaldehyde in ppb and the
    others in µg/m³. *)
Theorem satellite_pollutants_reach_response env tenv src lat lon hours response
    (pollutant : string) :
  tempo_data src = Returned (Tempo.get_pollutants tenv lat lon) →
  assemble env src lat lon hours = Py.Ok response →
  pollutant ∈ ["no2"; "o3"; "pm25"; "hcho"] →
  ∃ model,
    AirQualityResponse.pollutants response !! pollutant = Some model
    ∧ head (PollutantData.source model) = Some "TEMPO"
    ∧ PollutantData.unit model
      = if bool_decide (pollutant ≠ "hcho") then "µg/m³" else "ppb".
Proof.
  intros Hsrc Hrun Hin.
  pose proof (tempo_dict_of_adapter src tenv lat lon Hsrc) as Hdict.
  destruct (assemble_inv env src lat lon hours response Hrun)
    as (merged & Hmerge & Hlk & _).
  destruct (merge_pollutants_lookup (tempo_dict src) (openaq_dict src))
    as (merged' & Hmerge' & Hmlk).
  rewrite Hmerge in Hmerge'. injection Hmerge' as <-.
  destruct (TempoProofs.fallback_lookup tenv lat lon pollutant Hin) as [c Hvalue].
  rewrite Hlk, Hmlk. unfold tempo_entry. rewrite Hdict, Hvalue.
  destruct (default ∅ (oa_pollutants (openaq_dict src)) !! pollutant) as [g|].
  - unfold overlay. cbn [AQI.value AQI.unit AQI.source].
    eexists. split; [reflexivity|]. split; reflexivity.
  - eexists. split; [reflexivity|]. split; reflexivity.
Qed.

End WithSklearn.

Lemma get_air_quality_succeeds_witness :
  ∃ response cache_service',
    get_air_quality (H := ML.constant_regressor 700) still_env
      (mkSources Exc Exc (Returned clear_sky) Exc) 40.71 (-74) 24 (Cache.init 900)
    = (Py.Ok response, cache_service')
    ∧ Cache.consistent cache_service'.
Proof.
  apply (get_air_quality_succeeds (H := ML.constant_regressor 700) still_env
           (mkSources Exc Exc (Returned clear_sky) Exc) 40.71 (-74) 24 (Cache.init 900)).
  - apply CacheProofs.init_consistent.
  - reflexivity.
Defined.

Lemma incomplete_weather_fails_witness :
  get_air_quality (H := ML.constant_regressor 700) still_env
    (mkSources Exc Exc (Returned (WeatherDict.mk (Some 1%Q) None None None None)) Exc)
    40.71 (-74) 24 (Cache.init 900)
  = (Py.Raise (Py.HTTPException 500), Cache.init 900).
Proof.
  apply (incomplete_weather_fails (H := ML.constant_regressor 700) still_env
           (mkSources Exc Exc (Returned (WeatherDict.mk (Some 1%Q) None None None None)) Exc)
           40.71 (-74) 24 (Cache.init 900)).
  - reflexivity.
  - reflexivity.
  - reflexivity.
Defined.

Lemma assembled_record_witness :
  ∃ response,
    assemble (H := ML.constant_regressor 700) still_env
      (mkSources (Returned {[ "no2" := Some 120%Q ]}) Exc (Returned clear_sky) Exc)
      40.71 (-74) 2 = Py.Ok response
    ∧ 50 ≤ AQIData.value (AirQualityResponse.aqi response) ≤ 500
    ∧ length (AirQualityResponse.forecast_24h response) = 2%nat.
Proof.
  destruct (assemble (H := ML.constant_regressor 700) still_env
      (mkSources (Returned {[ "no2" := Some 120%Q ]}) Exc (Returned clear_sky) Exc)
      40.71 (-74) 2) as [response|e] eqn:Hrun; [|by vm_compute in Hrun].
  exists response. split; [reflexivity|].
  destruct (assembled_record (H := ML.constant_regressor 700) still_env
      (mkSources (Returned {[ "no2" := Some 120%Q ]}) Exc (Returned clear_sky) Exc)
      40.71 (-74) 2 response Hrun)
    as (merged & _ & _ & _ & Hrange & _ & Hlen).
  split; [exact Hrange|exact Hlen].
Defined.

Lemma weather_adapter_reaches_response_witness :
  let weather := Weather.get_weather_data (Weather.mkEnv 1 1 2 0 0 0 0 0) 40.71 (-74) in
  ∃ response,
    assemble (H := ML.constant_regressor 700) still_env
      (mkSources Exc Exc (Returned weather) Exc) 40.71 (-74) 24 = Py.Ok response
    ∧ to_weather_model weather = Py.Ok (AirQualityResponse.weather response)
    ∧ (0 <= WeatherData.precip_mm (AirQualityResponse.weather response))%Q
    ∧ (0 <= WeatherData.wind_speed_ms (AirQualityResponse.weather response))%Q
    ∧ 0 ≤ WeatherData.humidity (AirQualityResponse.weather response) ≤ 100.
Proof.
  apply (weather_adapter_reaches_response (H := ML.constant_regressor 700) still_env
           (Weather.mkEnv 1 1 2 0 0 0 0 0)
           (mkSources Exc Exc
              (Returned (Weather.get_weather_data (Weather.mkEnv 1 1 2 0 0 0 0 0)
                           40.71 (-74))) Exc)
           40.71 (-74) 24).
  reflexivity.
Defined.

Lemma satellite_pollutants_reach_response_witness :
  let satellite :=
    Tempo.get_pollutants (H := Tempo.floor_sqrt) (Tempo.mkEnv 1 (λ _, 0%Q)) 40.71 (-74) in
  ∃ response model,
    assemble (H := ML.constant_regressor 700) still_env
      (mkSources (Returned satellite) Exc (Returned clear_sky) Exc) 40.71 (-74) 24
      = Py.Ok response
    ∧ AirQualityResponse.pollutants response !! "hcho" = Some model
    ∧ head (PollutantData.source model) = Some "TEMPO"
    ∧ PollutantData.unit model = "ppb".
Proof.
  intros satellite.
  destruct (assemble (H := ML.constant_regressor 700) still_env
      (mkSources (Returned satellite) Exc (Returned clear_sky) Exc) 40.71 (-74) 24)
    as [response|e] eqn:Hrun; [|by vm_compute in Hrun].
  destruct (satellite_pollutants_reach_response (H := ML.constant_regressor 700)
              (H0 := Tempo.floor_sqrt) still_env (Tempo.mkEnv 1 (λ _, 0%Q))
              (mkSources (Returned satellite) Exc (Returned clear_sky) Exc)
              40.71 (-74) 24 response "hcho" eq_refl Hrun)
    as (model & Hmodel & Hsource & Hunit).
  { do 3 right. left. }
  exists response, model. split; [reflexivity|]. split; [exact Hmodel|].
  split; [exact Hsource|exact Hunit].
Defined.

End CoordinatorProofs.
